(** * databend-go: the REST query-lifecycle engine (restful.go)

    A shallow embedding of [restful.go] and the properties of its
    specification.  Go functions that only compute are Rocq functions; the
    ones that talk to the network, load tokens or mutate the client run in a
    state monad over a [World] (the client, the positions of the two
    oracles, the trace of observable events).  A Go [error] is an
    [option goerror], [None] being [nil]. *)

From Stdlib Require Import ZArith String Ascii List Bool Lia DecimalString.
From stdpp Require Import gmap strings.
Import ListNotations.

Local Open Scope Z_scope.
Local Open Scope string_scope.

(** ** Strings *)

(** The line feed of Go's ["\n"]. *)
Definition LF : string := String (ascii_of_nat 10) EmptyString.

(** [strings.Contains s sub]. *)
Fixpoint strings_Contains (s sub : string) : bool :=
  String.prefix sub s ||
  match s with
  | EmptyString => false
  | String _ s' => strings_Contains s' sub
  end.

(** [strings.HasPrefix s p]. *)
Definition strings_HasPrefix (s p : string) : bool := String.prefix p s.

(** [strings.Join]. *)
Fixpoint strings_Join (l : list string) (sep : string) : string :=
  match l with
  | [] => EmptyString
  | [x] => x
  | x :: r => x +:+ sep +:+ strings_Join r sep
  end.

(** The verb [%d] on a signed integer. *)
Definition fmt_d (z : Z) : string := NilZero.string_of_int (Z.to_int z).

(** The verb [%+v] on a [[][]string]. *)
Definition fmt_rows (d : list (list string)) : string :=
  "[" +:+ strings_Join (map (fun r => "[" +:+ strings_Join r " " +:+ "]") d) " " +:+ "]".

(** ** Machine integers and durations *)

(** Go's [int64] arithmetic wraps around. *)
Definition wrap64 (z : Z) : Z := (z + 2 ^ 63) mod 2 ^ 64 - 2 ^ 63.
Definition MaxInt64 : Z := 2 ^ 63 - 1.
Definition MinInt64 : Z := - 2 ^ 63.

(** A [time.Duration] counts nanoseconds. *)
Definition Duration := Z.
Definition time_Second : Duration := 1000000000.

(** ** Types of restful.go *)

Inductive AuthMethod := AuthMethodUserPassword | AuthMethodAccessToken | AuthMethodNone.

Inductive RequestType := Query | Page | Final | Kill.

Definition RequestType_eqb (a b : RequestType) : bool :=
  match a, b with
  | Query, Query | Page, Page | Final, Final | Kill, Kill => true
  | _, _ => false
  end.

Definition ContextKey := string.
Definition ContextKeyQueryID : ContextKey := "X-DATABEND-QUERY-ID".
Definition ContextUserAgentID : ContextKey := "USER-AGENT".
Definition EMPTY_FIELD_AS : string := "empty_field_as".
Definition PURGE : string := "purge".

Record PresignedResponse := {
  Method : string;
  Headers : gmap string string;
  URL : string
}.

Record StageLocation := { Name : string; Path : string }.

Definition StageLocation_String (sl : StageLocation) : string :=
  "@" +:+ Name sl +:+ "/" +:+ Path sl.

(** ** Contexts *)

(** A value stored in a context: the code only ever asserts it to be a
    string. *)
Inductive ctxValue := VString (s : string) | VOther.

Inductive Context :=
| Background
| WithValue (parent : Context) (key : ContextKey) (val : ctxValue)
| WithTimeout (parent : Context) (d : Duration).

(** [ctx.Value(key)]: the innermost binding of [key]. *)
Fixpoint ctx_Value (ctx : Context) (key : ContextKey) : option ctxValue :=
  match ctx with
  | Background => None
  | WithValue p k v => if String.eqb k key then Some v else ctx_Value p key
  | WithTimeout p _ => ctx_Value p key
  end.

(** [ctx.Value(key).(string)] with its [ok] flag. *)
Definition ctx_string (ctx : Context) (key : ContextKey) : option string :=
  match ctx_Value ctx key with
  | Some (VString s) => Some s
  | _ => None
  end.

(** The longest time a context can still live, counted from the moment it
    was derived: the smallest duration of the [WithTimeout]s above it. *)
Fixpoint ctx_lifetime (ctx : Context) : option Duration :=
  match ctx with
  | Background => None
  | WithValue p _ _ => ctx_lifetime p
  | WithTimeout p d =>
      match ctx_lifetime p with
      | Some d' => Some (Z.min d d')
      | None => Some d
      end
  end.

(** ** Errors *)

(** The error values whose identity the code tests with [errors.Is].
    [ErrDoRequest] and [ErrReadResponse] are package variables declared
    outside restful.go. *)
Inductive Sentinel := context_Canceled | ErrDoRequest | ErrReadResponse.

Definition Sentinel_eqb (a b : Sentinel) : bool :=
  match a, b with
  | context_Canceled, context_Canceled
  | ErrDoRequest, ErrDoRequest
  | ErrReadResponse, ErrReadResponse => true
  | _, _ => false
  end.

(** The in-band error of a query response (declared outside restful.go). *)
Record QueryError := { Code : Z; Message : string }.

#[warnings="-register-all"]
Inductive goerror :=
| ESentinel (s : Sentinel)
| EText (msg : string)                          (* errors.New, errors.Errorf, fmt.Errorf *)
| EWrap (cause : goerror) (msg : string)        (* errors.Wrap(cause, msg) *)
| EAPI (hint : string) (status : Z) (body : string)  (* NewAPIError(hint, status, body) *)
| EQuery (q : QueryError)                       (* a *QueryError used as an error *)
| ERetry (log : list goerror).                  (* retry.Error, the log of all attempts *)

Definition error := option goerror.

(** [errors.Is(err, target)] for a sentinel target: walk the chain of
    causes. *)
Fixpoint errors_Is (err : goerror) (target : Sentinel) : bool :=
  match err with
  | ESentinel s => Sentinel_eqb s target
  | EWrap cause _ => errors_Is cause target
  | _ => false
  end.

Definition errors_Wrap (err : goerror) (msg : string) : goerror := EWrap err msg.
Definition NewAPIError (hint : string) (status : Z) (body : string) : goerror :=
  EAPI hint status body.

(** ** Requests and responses (declared outside restful.go) *)

Definition RawMessage := string.

Record SessionState := {
  Database : string;
  Role : string;
  SecondaryRoles : option (list string);
  Settings : gmap string string
}.

Record PaginationConfig := {
  PC_MaxRowsPerPage : Z;
  PC_MaxRowsInBuffer : Z;
  PC_WaitTime : Z
}.

Record StageAttachmentConfig := {
  Location : string;
  FileFormatOptions : option (gmap string string);
  CopyOptions : option (gmap string string)
}.

Record QueryRequest := {
  SQL : string;
  Pagination : option PaginationConfig;
  Session : option RawMessage;
  StageAttachment : option StageAttachmentConfig
}.

Definition QueryStats := string.

Record QueryResponse := {
  ID : string;
  RespSession : option RawMessage;
  Data : list (list string);
  NextURI : string;
  FinalURI : string;
  KillURI : string;
  Error : option QueryError;
  Stats : option QueryStats
}.

(** [var resp QueryResponse]: the zero value. *)
Definition zeroResponse : QueryResponse :=
  {| ID := EmptyString; RespSession := None; Data := []; NextURI := EmptyString;
     FinalURI := EmptyString; KillURI := EmptyString; Error := None; Stats := None |}.

Definition withData (r : QueryResponse) (d : list (list string)) : QueryResponse :=
  {| ID := ID r; RespSession := RespSession r; Data := d; NextURI := NextURI r;
     FinalURI := FinalURI r; KillURI := KillURI r; Error := Error r; Stats := Stats r |}.

(** Modelled from the spec: [ReadFinished], a method of the response type
    declared outside restful.go.  "A response is finished when no
    continuation URI is present." *)
Definition ReadFinished (r : QueryResponse) : bool := String.eqb (NextURI r) EmptyString.

(** ** HTTP *)

(** The header names are constants declared outside restful.go; they are
    kept symbolic. *)
Inductive HeaderName :=
| WarehouseRoute | UserAgent | DatabendTenantHeader | DatabendWarehouseHeader
| DatabendQueryIDHeader | Authorization | contentType | accept.

Definition HeaderName_eqb (a b : HeaderName) : bool :=
  match a, b with
  | WarehouseRoute, WarehouseRoute | UserAgent, UserAgent
  | DatabendTenantHeader, DatabendTenantHeader
  | DatabendWarehouseHeader, DatabendWarehouseHeader
  | DatabendQueryIDHeader, DatabendQueryIDHeader
  | Authorization, Authorization | contentType, contentType | accept, accept => true
  | _, _ => false
  end.

(** [http.Header], with [Set] and [Get]. *)
Definition Header := HeaderName -> option string.
Definition Header_empty : Header := fun _ => None.
Definition Header_Set (h : Header) (k : HeaderName) (v : string) : Header :=
  fun k' => if HeaderName_eqb k k' then Some v else h k'.
Definition Header_Get (h : Header) (k : HeaderName) : option string := h k.

Record HttpRequest := {
  reqMethod : string;
  reqURL : string;
  reqBody : string;
  reqHeader : Header;
  reqHost : string;
  reqCtx : Context
}.

(** What one call of [c.cli.Do] followed by [io.ReadAll] can yield. *)
Inductive HttpOutcome :=
| DoFails (msg : string)                               (* cli.Do returned an error *)
| ReadFails (status : Z) (msg : string)                (* io.ReadAll returned an error *)
| Replies (status : Z) (ctype : string) (body : string).

Definition StatusUnauthorized : Z := 401.

(** ** The client and the world it runs in *)

(** Modelled from the spec: the result cursor [nextRows] and its [Close],
    declared outside restful.go.  For this file a cursor is open or closed,
    and closing it invalidates it. *)
Record nextRows := { isClosed : bool }.
Definition nextRows_Close (r : nextRows) : nextRows := {| isClosed := true |}.

(** An [AccessTokenLoader]: what its [n]-th call of
    [LoadAccessToken(ctx, forceReload)] returns. *)
Definition AccessTokenLoader := nat -> bool -> string * error.

(** The [*http.Client]: what its [n]-th call of [Do], followed by
    [io.ReadAll] of the body, yields for a request. *)
Definition HttpClient := nat -> HttpRequest -> HttpOutcome.

(** The testing hook of the client: from the method, the path, the request
    and the value [resp] points to (if not nil), the value it leaves there
    and its error. *)
Definition DoRequestFunc :=
  string -> string -> option QueryRequest -> option QueryResponse ->
  QueryResponse * error.

Record APIClient := {
  SessionID : string;
  QuerySeq : Z;
  cli : HttpClient;
  rows : option nextRows;
  apiEndpoint : string;
  host : string;
  tenant : string;
  warehouse : string;
  database : string;
  user : string;
  password : string;
  sessionStateRaw : option RawMessage;
  sessionState : SessionState;
  statsTracker : bool;     (* whether a tracker callback is installed *)
  accessTokenLoader : option AccessTokenLoader;
  WaitTimeSeconds : Z;
  MaxRowsInBuffer : Z;
  MaxRowsPerPage : Z;
  PresignedURLDisabled : bool;
  EmptyFieldAs : string;
  doRequestFunc : option DoRequestFunc
}.

Definition set_QuerySeq (c : APIClient) (n : Z) : APIClient :=
  {| SessionID := SessionID c; QuerySeq := n; cli := cli c; rows := rows c;
     apiEndpoint := apiEndpoint c; host := host c; tenant := tenant c;
     warehouse := warehouse c; database := database c; user := user c;
     password := password c; sessionStateRaw := sessionStateRaw c;
     sessionState := sessionState c; statsTracker := statsTracker c;
     accessTokenLoader := accessTokenLoader c; WaitTimeSeconds := WaitTimeSeconds c;
     MaxRowsInBuffer := MaxRowsInBuffer c; MaxRowsPerPage := MaxRowsPerPage c;
     PresignedURLDisabled := PresignedURLDisabled c; EmptyFieldAs := EmptyFieldAs c;
     doRequestFunc := doRequestFunc c |}.

Definition set_rows (c : APIClient) (r : option nextRows) : APIClient :=
  {| SessionID := SessionID c; QuerySeq := QuerySeq c; cli := cli c; rows := r;
     apiEndpoint := apiEndpoint c; host := host c; tenant := tenant c;
     warehouse := warehouse c; database := database c; user := user c;
     password := password c; sessionStateRaw := sessionStateRaw c;
     sessionState := sessionState c; statsTracker := statsTracker c;
     accessTokenLoader := accessTokenLoader c; WaitTimeSeconds := WaitTimeSeconds c;
     MaxRowsInBuffer := MaxRowsInBuffer c; MaxRowsPerPage := MaxRowsPerPage c;
     PresignedURLDisabled := PresignedURLDisabled c; EmptyFieldAs := EmptyFieldAs c;
     doRequestFunc := doRequestFunc c |}.

Definition set_session (c : APIClient) (raw : option RawMessage) (st : SessionState)
  : APIClient :=
  {| SessionID := SessionID c; QuerySeq := QuerySeq c; cli := cli c; rows := rows c;
     apiEndpoint := apiEndpoint c; host := host c; tenant := tenant c;
     warehouse := warehouse c; database := database c; user := user c;
     password := password c; sessionStateRaw := raw;
     sessionState := st; statsTracker := statsTracker c;
     accessTokenLoader := accessTokenLoader c; WaitTimeSeconds := WaitTimeSeconds c;
     MaxRowsInBuffer := MaxRowsInBuffer c; MaxRowsPerPage := MaxRowsPerPage c;
     PresignedURLDisabled := PresignedURLDisabled c; EmptyFieldAs := EmptyFieldAs c;
     doRequestFunc := doRequestFunc c |}.

(** What an execution lets one observe. *)
Inductive Event :=
| EvDoRequest (ctx : Context) (method path : string) (req : option QueryRequest)
                                     (* doRequest is entered *)
| EvLoadToken (forceReload : bool)   (* the token loader is called *)
| EvSend (r : HttpRequest)           (* the HTTP client sends a request *)
| EvAttempt (n : Z)                  (* retry.Do runs attempt number n, from 0 *)
| EvSleep (d : Duration)             (* retry.Do waits *)
| EvTrackStats (id : string) (stats : QueryStats).  (* the stats tracker is called *)

Record World := {
  client : APIClient;
  sent : nat;              (* requests sent so far *)
  loads : nat;             (* token loads so far *)
  trace : list Event
}.

(** A call returns, panics, or is still running when the fuel of a loop of
    unknown length is used up. *)
Inductive outcome (A : Type) :=
| Returns (a : A)
| Panics (msg : string)
| OutOfFuel.
Arguments Returns {A} a.
Arguments Panics {A} msg.
Arguments OutOfFuel {A}.

Definition M (A : Type) : Type := World -> outcome A * World.

Definition ret {A} (a : A) : M A := fun w => (Returns a, w).

Definition bind {A B} (m : M A) (k : A -> M B) : M B :=
  fun w =>
    match m w with
    | (Returns a, w') => k a w'
    | (Panics msg, w') => (Panics msg, w')
    | (OutOfFuel, w') => (OutOfFuel, w')
    end.

Notation "x <- m ;; k" := (bind m (fun x => k))
  (at level 90, m at next level, right associativity).
Notation "m ;;; k" := (bind m (fun _ => k))
  (at level 90, right associativity).

Definition panic {A} (msg : string) : M A := fun w => (Panics msg, w).
Definition outOfFuel {A} : M A := fun w => (OutOfFuel, w).

Definition getClient : M APIClient := fun w => (Returns (client w), w).

Definition putClient (c : APIClient) : M unit :=
  fun w => (Returns tt, {| client := c; sent := sent w; loads := loads w; trace := trace w |}).

Definition emit (e : Event) : M unit :=
  fun w => (Returns tt,
            {| client := client w; sent := sent w; loads := loads w;
               trace := trace w ++ [e] |}).

(** [c.cli.Do(httpReq)] and the read of the body. *)
Definition cli_Do (r : HttpRequest) : M HttpOutcome :=
  fun w => (Returns (cli (client w) (sent w) r),
            {| client := client w; sent := S (sent w); loads := loads w;
               trace := trace w ++ [EvSend r] |}).

(** [c.accessTokenLoader.LoadAccessToken(ctx, forceReload)]; a call through
    a nil loader panics. *)
Definition LoadAccessToken (forceReload : bool) : M (string * error) :=
  fun w =>
    match accessTokenLoader (client w) with
    | None => (Panics "invalid memory address or nil pointer dereference", w)
    | Some loader =>
        (Returns (loader (loads w) forceReload),
         {| client := client w; sent := sent w; loads := S (loads w);
            trace := trace w ++ [EvLoadToken forceReload] |})
    end.

(** ** What restful.go takes from the rest of the package and from libraries

    Constants, formatting methods and library functions that restful.go
    uses but does not define.  They are parameters of the development. *)
Class Externals := {
  (** the driver version string *)
  version : string;
  (** the marker the server puts in the message of a warehouse that is still
      being provisioned *)
  ProvisionWarehouseTimeout : string;
  (** the package's test for an error reported by a proxy *)
  IsProxyErr : goerror -> bool;
  (** the texts of the two sentinel errors *)
  ErrDoRequest_text : string;
  ErrReadResponse_text : string;
  (** the [Error()] methods of [APIError] and [QueryError] *)
  APIError_text : string -> Z -> string -> string;
  QueryError_text : QueryError -> string;
  (** [json.Marshal] of a request *)
  json_Marshal : QueryRequest -> string * error;
  (** [json.Unmarshal(body, &resp)]: the response after decoding into it,
      and the decoder's error *)
  json_Unmarshal_response : string -> QueryResponse -> QueryResponse * error;
  (** [json.Unmarshal(raw, c.sessionState)]: the session state after
      decoding into it (the code ignores the error) *)
  json_Unmarshal_session : RawMessage -> SessionState -> SessionState;
  (** [json.Unmarshal([]byte(headers), &result.Headers)] *)
  json_Unmarshal_headers : string -> gmap string string -> gmap string string * error;
  (** [base64.StdEncoding.EncodeToString] *)
  base64_EncodeToString : string -> string;
  (** the value of the content-type and accept headers of a request *)
  jsonContentType : string;
  (** [fmt.Sprintf(format)] without operands *)
  fmt_Sprintf0 : string -> string;
  (** the error of [http.NewRequest(method, url, body)], if any *)
  http_NewRequest_err : string -> string -> error;
  (** [interpolateParams(query, params)] *)
  interpolateParams : string -> list (option string) -> string * error
}.

Section Engine.
Context `{Externals}.

(** [err.Error()].  A wrapped error prints its message, a colon and its
    cause; [retry.Error] prints the numbered log of the attempts. *)
Fixpoint Error_text (e : goerror) : string :=
  match e with
  | ESentinel context_Canceled => "context canceled"
  | ESentinel ErrDoRequest => ErrDoRequest_text
  | ESentinel ErrReadResponse => ErrReadResponse_text
  | EText msg => msg
  | EWrap cause msg => msg +:+ ": " +:+ Error_text cause
  | EAPI hint status body => APIError_text hint status body
  | EQuery q => QueryError_text q
  | ERetry log =>
      "All attempts fail:" +:+ LF +:+
      strings_Join
        ((fix numbered (i : nat) (l : list goerror) : list string :=
            match l with
            | [] => []
            | e' :: r =>
                ("#" +:+ fmt_d (Z.of_nat i) +:+ ": " +:+ Error_text e') :: numbered (S i) r
            end) 1%nat log) LF
  end.

(** ** The retry predicate of [DoRetry] (the argument of [retry.RetryIf]) *)
Definition retryIf (t : RequestType) (err : error) : bool :=
  match err with
  | None => false
  | Some e =>
      if errors_Is e context_Canceled then false
      else if errors_Is e ErrDoRequest || errors_Is e ErrReadResponse || IsProxyErr e then true
      else if RequestType_eqb t Query && strings_Contains (Error_text e) ProvisionWarehouseTimeout
           then true
      else false
  end.

(** ** Default options of a stage attachment *)
Definition NewDefaultCSVFormatOptions (emptyFieldAs : string) : gmap string string :=
  {[ "type" := "CSV";
     "field_delimiter" := ",";
     "record_delimiter" := LF;
     "skip_header" := "0";
     EMPTY_FIELD_AS := emptyFieldAs ]}.

Definition NewDefaultCopyOptions : gmap string string := {[ PURGE := "true" ]}.


(** ** Identity and session state of the client *)

Definition NextQuery : M unit :=
  c <- getClient;;
  let c :=
    match rows c with
    | Some r => set_rows c (Some (nextRows_Close r))
    | None => c
    end in
  putClient (set_QuerySeq c (wrap64 (QuerySeq c + 1))).

Definition GetQueryID (c : APIClient) : string :=
  SessionID c +:+ "." +:+ fmt_d (QuerySeq c).

Definition trackStats (resp : option QueryResponse) : M unit :=
  c <- getClient;;
  match resp with
  | None => ret tt
  | Some r =>
      match Stats r with
      | None => ret tt
      | Some st => if statsTracker c then emit (EvTrackStats (ID r) st) else ret tt
      end
  end.

Definition makeURL (c : APIClient) (path : string) : string :=
  fmt_Sprintf0 (apiEndpoint c +:+ path).

Definition authMethod (c : APIClient) : AuthMethod :=
  if negb (String.eqb (user c) EmptyString) then AuthMethodUserPassword
  else match accessTokenLoader c with
       | Some _ => AuthMethodAccessToken
       | None => AuthMethodNone
       end.

Definition encode (name key : string) : string :=
  base64_EncodeToString (name +:+ ":" +:+ key).

Definition makeHeaders (ctx : Context) : M (option Header * error) :=
  c <- getClient;;
  let headers := Header_empty in
  let headers := Header_Set headers WarehouseRoute "warehouse" in
  let headers :=
    match ctx_string ctx ContextUserAgentID with
    | Some userAgent =>
        Header_Set headers UserAgent (version +:+ "/databend-go/" +:+ userAgent)
    | None => Header_Set headers UserAgent ("databend-go/" +:+ version)
    end in
  let headers := Header_Set headers UserAgent ("databend-go/" +:+ version) in
  let headers :=
    if negb (String.eqb (tenant c) EmptyString)
    then Header_Set headers DatabendTenantHeader (tenant c) else headers in
  let headers :=
    if negb (String.eqb (warehouse c) EmptyString)
    then Header_Set headers DatabendWarehouseHeader (warehouse c) else headers in
  let headers :=
    match ctx_string ctx ContextKeyQueryID with
    | Some queryID => Header_Set headers DatabendQueryIDHeader queryID
    | None => Header_Set headers DatabendQueryIDHeader (GetQueryID c)
    end in
  match authMethod c with
  | AuthMethodUserPassword =>
      ret (Some (Header_Set headers Authorization
                   ("Basic " +:+ encode (user c) (password c))), None)
  | AuthMethodAccessToken =>
      tok <- LoadAccessToken false;;
      let '(accessToken, err) := tok in
      match err with
      | Some e => ret (None, Some (errors_Wrap e "failed to load access token"))
      | None =>
          ret (Some (Header_Set headers Authorization ("Bearer " +:+ accessToken)), None)
      end
  | AuthMethodNone => ret (None, Some (EText "no user password or access token"))
  end.

Definition getPagenationConfig (c : APIClient) : option PaginationConfig :=
  if ((MaxRowsPerPage c =? 0) && (MaxRowsInBuffer c =? 0) && (WaitTimeSeconds c =? 0))%Z
  then None
  else Some {| PC_MaxRowsPerPage := MaxRowsPerPage c;
               PC_MaxRowsInBuffer := MaxRowsInBuffer c;
               PC_WaitTime := WaitTimeSeconds c |}.

Definition getSessionStateRaw (c : APIClient) : option RawMessage := sessionStateRaw c.
Definition getSessionState (c : APIClient) : SessionState := sessionState c.

Definition applySessionState (response : option QueryResponse) : M unit :=
  match response with
  | None => ret tt
  | Some r =>
      match RespSession r with
      | None => ret tt
      | Some raw =>
          c <- getClient;;
          putClient (set_session c (Some raw) (json_Unmarshal_session raw (sessionState c)))
      end
  end.

(** ** The request executor *)

Definition maxRetries : Z := 2.

(** The loop [for i := 1; i <= maxRetries; i++] of [doRequest].  [resp] is
    the value [resp] points to, [None] when the caller passed nil. *)
Fixpoint doRequest_loop (fuel : nat) (i : Z) (ctx : Context) (httpReq : HttpRequest)
    (resp : option QueryResponse) : M (option QueryResponse * error) :=
  if (i <=? maxRetries)%Z then
    match fuel with
    | O => outOfFuel
    | S fuel' =>
        hs <- makeHeaders ctx;;
        match hs with
        | (_, Some e) => ret (resp, Some (errors_Wrap e "failed to make request headers"))
        | (None, None) => panic "assignment to entry in nil map"
        | (Some headers, None) =>
            let headers := Header_Set headers contentType jsonContentType in
            let headers := Header_Set headers accept jsonContentType in
            c <- getClient;;
            let httpReq :=
              {| reqMethod := reqMethod httpReq; reqURL := reqURL httpReq;
                 reqBody := reqBody httpReq; reqHeader := headers;
                 reqHost := if (0 <? Z.of_nat (String.length (host c)))%Z
                            then host c else reqHost httpReq;
                 reqCtx := reqCtx httpReq |} in
            out <- cli_Do httpReq;;
            match out with
            | DoFails msg => ret (resp, Some (errors_Wrap (ESentinel ErrDoRequest) msg))
            | ReadFails _ msg => ret (resp, Some (errors_Wrap (ESentinel ErrReadResponse) msg))
            | Replies status ctype httpRespBody =>
                if (status =? StatusUnauthorized)%Z then
                  match authMethod c with
                  | AuthMethodAccessToken =>
                      if (i <? maxRetries)%Z then
                        (* retry with a rotated access token *)
                        LoadAccessToken true;;;
                        doRequest_loop fuel' (i + 1) ctx httpReq resp
                      else ret (resp, Some (NewAPIError "authorization failed" status httpRespBody))
                  | _ => ret (resp, Some (NewAPIError "authorization failed" status httpRespBody))
                  end
                else if (500 <=? status)%Z then
                  ret (resp, Some (NewAPIError "please retry again later" status httpRespBody))
                else if (400 <=? status)%Z then
                  ret (resp, Some (NewAPIError "please check your arguments" status httpRespBody))
                else if negb (status =? 200)%Z then
                  ret (resp, Some (NewAPIError "unexpected HTTP StatusCode" status httpRespBody))
                else
                  match resp with
                  | Some r =>
                      if strings_HasPrefix ctype "application/json" then
                        match json_Unmarshal_response httpRespBody r with
                        | (r', Some e) =>
                            ret (Some r', Some (errors_Wrap e "failed to unmarshal response body"))
                        | (r', None) => ret (Some r', None)
                        end
                      else ret (resp, None)
                  | None => ret (resp, None)
                  end
            end
        end
    end
  else ret (resp, Some (EText ("failed to do request after " +:+ fmt_d maxRetries +:+ " retries"))).

(** The body of [doRequest]. *)
Definition doRequest_body (ctx : Context) (method path : string) (req : option QueryRequest)
    (resp : option QueryResponse) : M (option QueryResponse * error) :=
  c <- getClient;;
  match doRequestFunc c with
  | Some mock =>
      let '(r', err) := mock method path req resp in
      ret (match resp with Some _ => Some r' | None => None end, err)
  | None =>
      let '(reqBody, err) :=
        match req with
        | Some r => json_Marshal r
        | None => (EmptyString, None)
        end in
      match err with
      | Some e => ret (resp, Some (errors_Wrap e "failed to marshal request body"))
      | None =>
          let url := makeURL c path in
          match http_NewRequest_err method url with
          | Some e => ret (resp, Some (errors_Wrap e "failed to create http request"))
          | None =>
              let httpReq :=
                {| reqMethod := method; reqURL := url; reqBody := reqBody;
                   reqHeader := Header_empty; reqHost := EmptyString; reqCtx := ctx |} in
              doRequest_loop (Z.to_nat maxRetries) 1 ctx httpReq resp
          end
      end
  end.

(** [doRequest]; the trace records that it is entered, and with what. *)
Definition doRequest (ctx : Context) (method path : string) (req : option QueryRequest)
    (resp : option QueryResponse) : M (option QueryResponse * error) :=
  emit (EvDoRequest ctx method path req);;;
  doRequest_body ctx method path req resp.

(** ** The retry policy *)

(** The configuration that the options of [retry.Do] build. *)
Record retryConfig := {
  attempts : Z;
  delay : Duration;
  delayType : Z -> Duration -> Duration;   (* attempt number, configured delay *)
  retryIfFn : error -> bool
}.

(** [retry.FixedDelay]: the configured delay, whatever the attempt. *)
Definition FixedDelay (n : Z) (d : Duration) : Duration := d.

(** Modelled from the spec: [retry.Do] of the library
    github.com/avast/retry-go, which restful.go calls and which is not part
    of this repository.  It runs the function up to [attempts] times; an
    attempt without error ends it with nil; an error that the predicate
    refuses, or the error of the last attempt, ends it with the log of the
    errors so far; otherwise it waits for the delay of the delay type and
    tries again.  The function is a closure: [s] is the state of the
    variables it captures. *)
Fixpoint retry_loop {St} (left : nat) (n : Z) (config : retryConfig)
    (f : St -> M (St * error)) (s : St) (errorLog : list goerror) : M (St * error) :=
  match left with
  | O => ret (s, Some (ERetry errorLog))
  | S left' =>
      emit (EvAttempt n);;;
      r <- f s;;
      match r with
      | (s', None) => ret (s', None)
      | (s', Some e) =>
          let errorLog := (errorLog ++ [e])%list in
          if negb (retryIfFn config (Some e)) then ret (s', Some (ERetry errorLog))
          else if (n =? attempts config - 1)%Z then ret (s', Some (ERetry errorLog))
          else
            emit (EvSleep (delayType config n (delay config)));;;
            retry_loop left' (n + 1) config f s' errorLog
      end
  end.

Definition retry_Do {St} (f : St -> M (St * error)) (s : St) (config : retryConfig)
  : M (St * error) :=
  retry_loop (Z.to_nat (attempts config)) 0 config f s [].

Definition DoRetry {St} (f : St -> M (St * error)) (s : St) (t : RequestType)
  : M (St * error) :=
  let delay0 : Duration := 1 in
  let attempts0 : Z := 3 in
  let '(delay0, attempts0) :=
    if RequestType_eqb t Query then (2, 5) else (delay0, attempts0) in
  retry_Do (fun s => f s) s
    {| retryIfFn := retryIf t;
       delay := delay0 * time_Second;
       attempts := attempts0;
       delayType := FixedDelay |}.

(** ** The query lifecycle *)

Definition buildQuery (query : string) (params : list (option string)) : string * error :=
  match params with
  | Some _ :: _ =>
      match interpolateParams query params with
      | (result, Some e) =>
          (result, Some (errors_Wrap e "buildRequest: failed to interpolate params"))
      | (result, None) => (result, None)
      end
  | _ => (query, None)
  end.

Definition startQueryRequest (ctx : Context) (request : QueryRequest)
  : M (option QueryResponse * error) :=
  NextQuery;;;
  let path := "/v1/query" in
  r <- DoRetry (fun resp => doRequest ctx "POST" path (Some request) resp)
         (Some zeroResponse) Query;;
  match r with
  | (_, Some e) => ret (None, Some (errors_Wrap e "failed to do query request"))
  | (resp, None) =>
      (* try update session as long as resp is not nil, even if query failed *)
      applySessionState resp;;;
      trackStats resp;;;
      ret (resp, None)
  end.

Definition StartQuery (ctx : Context) (query : string) (args : list (option string))
  : M (option QueryResponse * error) :=
  match buildQuery query args with
  | (_, Some e) => ret (None, Some e)
  | (q, None) =>
      c <- getClient;;
      let request :=
        {| SQL := q; Pagination := getPagenationConfig c;
           Session := getSessionStateRaw c; StageAttachment := None |} in
      startQueryRequest ctx request
  end.

Definition PollQuery (ctx : Context) (nextURI : string) : M (option QueryResponse * error) :=
  r <- DoRetry (fun result => doRequest ctx "GET" nextURI None result)
         (Some zeroResponse) Page;;
  let '(result, err) := r in
  (* try update session as long as resp is not nil, even if query failed *)
  applySessionState result;;;
  trackStats result;;;
  match err with
  | Some e => ret (None, Some (errors_Wrap e "failed to query page"))
  | None => ret (result, None)
  end.

Definition KillQuery (ctx : Context) (response : option QueryResponse) : M error :=
  match response with
  | Some r =>
      if negb (String.eqb (KillURI r) EmptyString) then
        let ctx := WithTimeout ctx (30 * time_Second) in
        DoRetry (fun s => doRequest ctx "GET" (KillURI r) None s) None Kill;;;
        ret None
      else ret None
  | None => ret None
  end.

Definition CloseQuery (ctx : Context) (response : option QueryResponse) : M error :=
  match response with
  | Some r =>
      if negb (String.eqb (FinalURI r) EmptyString) then
        let ctx := WithTimeout ctx (30 * time_Second) in
        DoRetry (fun s => doRequest ctx "GET" (FinalURI r) None s) None Final;;;
        ret None
      else ret None
  | None => ret None
  end.

Definition nilDereference : string := "invalid memory address or nil pointer dereference".

(** The loop of [PollUntilQueryEnd].  Its body declares a [resp] of its own
    with [:=]: the page it receives, and the rows it appends to it, live in
    that inner variable, while the condition of the loop and the next
    [resp.NextURI] read the parameter. *)
Fixpoint PollUntilQueryEnd (fuel : nat) (ctx : Context) (resp : option QueryResponse)
  : M (option QueryResponse * error) :=
  match resp with
  | None => panic nilDereference
  | Some r =>
      if negb (ReadFinished r) then
        match fuel with
        | O => outOfFuel
        | S fuel' =>
            let data := Data r in
            p <- PollQuery ctx (NextURI r);;
            match p with
            | (_, Some err) => ret (None, Some err)
            | (None, None) => panic nilDereference
            | (Some inner, None) =>
                match Error inner with
                | Some qe => ret (None, Some (errors_Wrap (EQuery qe) "query page has error"))
                | None =>
                    let inner := withData inner (data ++ Data inner)%list in
                    PollUntilQueryEnd fuel' ctx resp
                end
            end
        end
      else ret (resp, None)
  end.

(** [defer]: the deferred call runs when the body returns or panics. *)
Definition defer {A} (body : M A) (deferred : M unit) : M A :=
  fun w =>
    match body w with
    | (OutOfFuel, w') => (OutOfFuel, w')
    | (o, w') =>
        match deferred w' with
        | (Returns _, w'') => (o, w'')
        | (Panics msg, w'') => (Panics msg, w'')
        | (OutOfFuel, w'') => (OutOfFuel, w'')
        end
    end.

Definition QuerySync (fuel : nat) (ctx : Context) (query : string)
    (args : list (option string)) : M (option QueryResponse * error) :=
  p <- StartQuery ctx query args;;
  match p with
  | (_, Some err) => ret (None, Some err)
  | (resp, None) =>
      defer
        match resp with
        | None => panic nilDereference
        | Some r =>
            match Error r with
            | Some qe => ret (None, Some (EText ("query error: " +:+ QueryError_text qe)))
            | None => PollUntilQueryEnd fuel ctx resp
            end
        end
        (CloseQuery ctx resp;;; ret tt)
  end.

Definition InsertWithStage (fuel : nat) (ctx : Context) (sql : string)
    (stage : option StageLocation) (fileFormatOptions copyOptions : option (gmap string string))
  : M (option QueryResponse * error) :=
  match stage with
  | None => ret (None, Some (EText "stage location required for insert with stage"))
  | Some stage =>
      c <- getClient;;
      let fileFormatOptions :=
        match fileFormatOptions with
        | None => Some (NewDefaultCSVFormatOptions (EmptyFieldAs c))
        | Some _ => fileFormatOptions
        end in
      let copyOptions :=
        match copyOptions with
        | None => Some NewDefaultCopyOptions
        | Some _ => copyOptions
        end in
      let request :=
        {| SQL := sql; Pagination := getPagenationConfig c;
           Session := getSessionStateRaw c;
           StageAttachment :=
             Some {| Location := StageLocation_String stage;
                     FileFormatOptions := fileFormatOptions;
                     CopyOptions := copyOptions |} |} in
      p <- startQueryRequest ctx request;;
      match p with
      | (_, Some err) => ret (None, Some err)
      | (resp, None) =>
          defer
            match resp with
            | None => panic nilDereference
            | Some r =>
                match Error r with
                | Some qe => ret (None, Some (errors_Wrap (EQuery qe) "query error:"))
                | None => PollUntilQueryEnd fuel ctx resp
                end
            end
            (CloseQuery ctx resp;;; ret tt)
      end
  end.

(** [s[i]]: an index outside the slice panics. *)
Definition index {A} (s : list A) (i : nat) : M A :=
  match s !! i with
  | Some x => ret x
  | None =>
      panic ("runtime error: index out of range [" +:+ fmt_d (Z.of_nat i)
             +:+ "] with length " +:+ fmt_d (Z.of_nat (length s)))
  end.

Definition GetPresignedURL (fuel : nat) (ctx : Context) (stage : StageLocation)
  : M (option PresignedResponse * error) :=
  let presignUploadSQL := "PRESIGN UPLOAD " +:+ StageLocation_String stage in
  p <- QuerySync fuel ctx presignUploadSQL [];;
  match p with
  | (_, Some err) => ret (None, Some (errors_Wrap err "failed to query presign url"))
  | (None, None) => panic nilDereference
  | (Some resp, None) =>
      if (length (Data resp) <? 1)%nat
         || (length (nth 0 (Data resp) []) <? 2)%nat
      then ret (None, Some (EText ("generate presign url invalid response: "
                                   +:+ fmt_rows (Data resp))))
      else
        row <- index (Data resp) 0;;
        method <- index row 0;;
        row <- index (Data resp) 0;;
        url <- index row 2;;
        row <- index (Data resp) 0;;
        headers <- index row 1;;
        match json_Unmarshal_headers headers ∅ with
        | (_, Some err) => ret (None, Some (errors_Wrap err "failed to unmarshal headers"))
        | (hs, None) => ret (Some {| Method := method; Headers := hs; URL := url |}, None)
        end
  end.

End Engine.

(** * Observations on runs *)

(** [runs c P Q m]: from any world whose client is [c], [m] returns a value
    satisfying [Q], leaves the client alone and appends to the trace events
    that all satisfy [P]. *)
Definition runs {A} (c : APIClient) (P : Event -> Prop) (Q : A -> Prop) (m : M A) : Prop :=
  forall w, client w = c ->
    exists a w' evs,
      m w = (Returns a, w') /\ client w' = c /\
      trace w' = (trace w ++ evs)%list /\ Forall P evs /\ Q a.

(** [starts_with pre m]: whatever [m] does (return, panic or run on), it
    only appends to the trace, and what it appends begins with [pre]. *)
Definition starts_with {A} (pre : list Event) (m : M A) : Prop :=
  forall w, exists evs, trace (snd (m w)) = (trace w ++ pre ++ evs)%list.

Definition extends {A} (m : M A) : Prop := starts_with [] m.

(** [quiet m]: [m] returns and leaves the trace alone. *)
Definition quiet {A} (m : M A) : Prop :=
  forall w, exists a w', m w = (Returns a, w') /\ trace w' = trace w.

(** The context under which an event makes a request, if it makes one. *)
Definition request_ctx (e : Event) : option Context :=
  match e with
  | EvDoRequest ctx _ _ _ => Some ctx
  | EvSend r => Some (reqCtx r)
  | _ => None
  end.

(** Every request of the event is made under [ctx]. *)
Definition under (ctx : Context) (e : Event) : Prop :=
  forall c, request_ctx e = Some c -> c = ctx.

(** The session payload of a response, if there is a response with one. *)
Definition payload (resp : option QueryResponse) : option RawMessage :=
  match resp with
  | Some r => RespSession r
  | None => None
  end.

(** The sequence numbers that a series of submissions on one client gets. *)
Fixpoint submit_all `{Externals} (reqs : list (Context * QueryRequest)) (w : World)
  : list Z :=
  match reqs with
  | [] => []
  | (ctx, request) :: rest =>
      let w' := snd (startQueryRequest ctx request w) in
      QuerySeq (client w') :: submit_all rest w'
  end.

(** [n] numbers counting up from [q + 1]. *)
Fixpoint count_from (q : Z) (n : nat) : list Z :=
  match n with
  | O => []
  | S n' => (q + 1)%Z :: count_from (q + 1) n'
  end.

(** The requests that a trace sends. *)
Fixpoint sends (tr : list Event) : list HttpRequest :=
  match tr with
  | [] => []
  | EvSend r :: rest => r :: sends rest
  | _ :: rest => sends rest
  end.

(** The events of the retry policy in a trace: its attempts and its waits. *)
Definition is_retry_event (e : Event) : bool :=
  match e with
  | EvAttempt _ | EvSleep _ => true
  | _ => false
  end.

Definition retry_events (tr : list Event) : list Event := List.filter is_retry_event tr.

(** [left] attempts from number [n] on, a wait of [d] between two of them. *)
Fixpoint schedule (left : nat) (n : Z) (d : Duration) : list Event :=
  match left with
  | O => []
  | S left' =>
      EvAttempt n ::
      match left' with
      | O => []
      | S _ => EvSleep d :: schedule left' (n + 1) d
      end
  end.

(** The paths that [doRequest] was asked to GET, in order. *)
Fixpoint fetched (tr : list Event) : list string :=
  match tr with
  | [] => []
  | EvDoRequest _ method path _ :: r =>
      if String.eqb method "GET" then path :: fetched r else fetched r
  | _ :: r => fetched r
  end.

(** The retry condition in the words of the specification: a transport-send
    failure, a response-read failure, or, for the class Query only, a
    message that tells of a warehouse still being provisioned. *)
Definition retried_as_specified `{Externals} (t : RequestType) (e : goerror) : Prop :=
  errors_Is e ErrDoRequest = true \/
  errors_Is e ErrReadResponse = true \/
  (t = Query /\ strings_Contains (Error_text e) ProvisionWarehouseTimeout = true).

(** * A sample environment

    A concrete choice of the parameters, a server and a client, on which the
    examples run.  The wire format is a toy one: the body of a reply names
    the response it decodes to. *)
Module Sample.

Definition lastPage : QueryResponse :=
  {| ID := "q1"; RespSession := None; Data := [["2"]]; NextURI := EmptyString;
     FinalURI := "/v1/query/q1/final"; KillURI := "/v1/query/q1/kill";
     Error := None; Stats := None |}.

Definition firstPage : QueryResponse :=
  {| ID := "q1"; RespSession := None; Data := [["1"]]; NextURI := "/v1/query/q1/page/1";
     FinalURI := "/v1/query/q1/final"; KillURI := "/v1/query/q1/kill";
     Error := None; Stats := None |}.

Definition failedCommit : QueryResponse :=
  {| ID := "q1"; RespSession := Some "{txn_state:Fail}"; Data := [];
     NextURI := EmptyString; FinalURI := "/v1/query/q1/final";
     KillURI := "/v1/query/q1/kill";
     Error := Some {| Code := 4002; Message := "commit failed" |}; Stats := None |}.

Definition presignTwoColumns : QueryResponse :=
  {| ID := "q1"; RespSession := None; Data := [["PUT"; "{}"]]; NextURI := EmptyString;
     FinalURI := EmptyString; KillURI := EmptyString; Error := None; Stats := None |}.

Definition decode (body : string) (r : QueryResponse) : QueryResponse * error :=
  if String.eqb body "last-page" then (lastPage, None)
  else if String.eqb body "first-page" then (firstPage, None)
  else if String.eqb body "failed-commit" then (failedCommit, None)
  else if String.eqb body "presign-two-columns" then (presignTwoColumns, None)
  else (r, Some (EText "invalid character")).

#[export] Instance externals : Externals := {|
  version := "0.5.3";
  ProvisionWarehouseTimeout := "ProvisionWarehouseTimeout";
  IsProxyErr := fun e =>
    match e with
    | EText msg => strings_Contains msg "proxyconnect"
    | _ => false
    end;
  ErrDoRequest_text := "DoReqeustFailed";
  ErrReadResponse_text := "ReadResponseFailed";
  APIError_text := fun hint status body => hint +:+ " " +:+ fmt_d status +:+ " " +:+ body;
  QueryError_text := fun q => fmt_d (Code q) +:+ " " +:+ Message q;
  json_Marshal := fun r => (SQL r, None);
  json_Unmarshal_response := decode;
  json_Unmarshal_session := fun _ st => st;
  json_Unmarshal_headers := fun _ m => (m, None);
  base64_EncodeToString := fun s => s;
  jsonContentType := "application/json";
  fmt_Sprintf0 := fun s => s;
  http_NewRequest_err := fun _ _ => None;
  interpolateParams := fun q _ => (q, None)
|}.

Definition session0 : SessionState :=
  {| Database := "default"; Role := EmptyString; SecondaryRoles := None; Settings := ∅ |}.

(** A client with a user and a password, talking to [server]. *)
Definition basicClient (server : HttpClient) : APIClient :=
  {| SessionID := "s"; QuerySeq := 0; cli := server; rows := None;
     apiEndpoint := "https://db.example"; host := "db.example";
     tenant := EmptyString; warehouse := EmptyString; database := "default";
     user := "alice"; password := "secret";
     sessionStateRaw := None; sessionState := session0; statsTracker := false;
     accessTokenLoader := None;
     WaitTimeSeconds := 0; MaxRowsInBuffer := 0; MaxRowsPerPage := 0;
     PresignedURLDisabled := false; EmptyFieldAs := EmptyString;
     doRequestFunc := None |}.

(** A client with a token loader that hands out the same token for ever. *)
Definition bearerClient (server : HttpClient) : APIClient :=
  {| SessionID := "s"; QuerySeq := 0; cli := server; rows := None;
     apiEndpoint := "https://db.example"; host := "db.example";
     tenant := EmptyString; warehouse := EmptyString; database := "default";
     user := EmptyString; password := EmptyString;
     sessionStateRaw := None; sessionState := session0; statsTracker := false;
     accessTokenLoader := Some (fun _ _ => ("token", None));
     WaitTimeSeconds := 0; MaxRowsInBuffer := 0; MaxRowsPerPage := 0;
     PresignedURLDisabled := false; EmptyFieldAs := EmptyString;
     doRequestFunc := None |}.

Definition world (c : APIClient) : World :=
  {| client := c; sent := 0; loads := 0; trace := [] |}.

(** A server that answers every request with status 200 and a JSON body. *)
Definition replying (body : string) : HttpClient :=
  fun _ _ => Replies 200 "application/json" body.

(** A server that rejects every request with status 401. *)
Definition unauthorized : HttpClient :=
  fun _ _ => Replies 401 "text/plain" "token expired".

(** The request of a plain query, and a world whose client has used up the
    positive sequence numbers. *)
Definition selectOne : QueryRequest :=
  {| SQL := "SELECT 1"; Pagination := None; Session := None; StageAttachment := None |}.

Definition lastSequenceWorld : World :=
  world (set_QuerySeq (basicClient (replying "last-page")) MaxInt64).

(** A world whose server reports a failed COMMIT together with the session
    state that results from it. *)
Definition failedCommitWorld : World := world (basicClient (replying "failed-commit")).

(** A world whose server answers every poll with the last page, and the
    paging client with an arbitrary past. *)
Definition pagingClient : APIClient := basicClient (replying "last-page").
Definition pagingWorld : World := world pagingClient.
Definition pagingWorldAt (n l : nat) (tr : list Event) : World :=
  {| client := pagingClient; sent := n; loads := l; trace := tr |}.

(** A world whose server answers PRESIGN UPLOAD with one row of two
    columns, and a stage. *)
Definition presignWorld : World := world (basicClient (replying "presign-two-columns")).
Definition stage : StageLocation := {| Name := "uploads"; Path := "data.csv" |}.

(** A context that carries an external agent tag. *)
Definition taggedContext : Context :=
  WithValue Background ContextUserAgentID (VString "myapp").

(** A world whose client holds a token that the server no longer accepts. *)
Definition expiredTokenWorld : World := world (bearerClient unauthorized).

(** A server that cannot be reached. *)
Definition refusing : HttpClient := fun _ _ => DoFails "dial tcp: connection refused".
Definition unreachableWorld : World := world (basicClient refusing).

(** A world whose client has a password that the server rejects. *)
Definition wrongPasswordWorld : World := world (basicClient unauthorized).

(** A closure that fails to send, whatever happens. *)
Definition unreachable (s : unit) : M (unit * error) :=
  ret (s, Some (errors_Wrap (ESentinel ErrDoRequest) "dial tcp: connection refused")).

End Sample.

(** * Further observations *)

(** The forced token reloads in a trace. *)
Fixpoint count_forced (tr : list Event) : nat :=
  match tr with
  | [] => O
  | EvLoadToken true :: rest => S (count_forced rest)
  | _ :: rest => count_forced rest
  end.

(** The token loads in a trace that are not forced. *)
Fixpoint count_loads (tr : list Event) : nat :=
  match tr with
  | [] => O
  | EvLoadToken false :: rest => S (count_loads rest)
  | _ :: rest => count_loads rest
  end.

(** The query id that a request made under [ctx] carries: the one of the
    context if it has one, else the one of the client's sequence. *)
Definition expected_query_id (c : APIClient) (ctx : Context) : string :=
  match ctx_string ctx ContextKeyQueryID with
  | Some queryID => queryID
  | None => GetQueryID c
  end.

(** The value of the Authorization header of a client: Basic with the
    encoded user and password, or Bearer with a token that the loader gave
    to a load that was not forced. *)
Definition authorization_of `{Externals} (c : APIClient) (a : string) : Prop :=
  match authMethod c with
  | AuthMethodUserPassword => a = "Basic " +:+ encode (user c) (password c)
  | AuthMethodAccessToken =>
      exists loader n tok,
        accessTokenLoader c = Some loader /\ loader n false = (tok, None) /\
        a = "Bearer " +:+ tok
  | AuthMethodNone => False
  end.

(** The headers that [makeHeaders] builds for a client and a context. *)
Definition headers_of `{Externals} (c : APIClient) (ctx : Context) (hs : Header) : Prop :=
  Header_Get hs WarehouseRoute = Some "warehouse" /\
  Header_Get hs UserAgent = Some ("databend-go/" +:+ version) /\
  Header_Get hs DatabendQueryIDHeader = Some (expected_query_id c ctx) /\
  Header_Get hs DatabendTenantHeader
    = (if String.eqb (tenant c) EmptyString then None else Some (tenant c)) /\
  Header_Get hs DatabendWarehouseHeader
    = (if String.eqb (warehouse c) EmptyString then None else Some (warehouse c)) /\
  (exists a, Header_Get hs Authorization = Some a /\ authorization_of c a).

(** A request as [doRequest] sends it for a method, a URL and a body. *)
Definition well_formed `{Externals} (c : APIClient) (ctx : Context)
    (method url body : string) (r : HttpRequest) : Prop :=
  reqMethod r = method /\ reqURL r = url /\ reqBody r = body /\ reqCtx r = ctx /\
  reqHost r = host c /\
  Header_Get (reqHeader r) contentType = Some jsonContentType /\
  Header_Get (reqHeader r) accept = Some jsonContentType /\
  headers_of c ctx (reqHeader r).

(** The body that [doRequest] marshals for a request, empty without one. *)
Definition request_body `{Externals} (req : option QueryRequest) : string * error :=
  match req with
  | Some r => json_Marshal r
  | None => (EmptyString, None)
  end.

(** [well_formed] on the events that send. *)
Definition sends_well_formed `{Externals} (c : APIClient) (ctx : Context)
    (method url body : string) (e : Event) : Prop :=
  match e with
  | EvSend r => well_formed c ctx method url body r
  | _ => True
  end.

(** [runs_within c nsend nforce P Q m]: as [runs c P Q m], and [m] sends at
    most [nsend] requests, forces at most [nforce] token reloads, and
    advances the position of the HTTP client by what it sends. *)
Definition runs_within {A} (c : APIClient) (nsend nforce : nat) (P : Event -> Prop)
    (Q : A -> Prop) (m : M A) : Prop :=
  forall w, client w = c ->
    exists a w' evs,
      m w = (Returns a, w') /\ client w' = c /\
      trace w' = (trace w ++ evs)%list /\ Forall P evs /\ Q a /\
      (length (sends evs) <= nsend)%nat /\ (count_forced evs <= nforce)%nat /\
      sent w' = (sent w + length (sends evs))%nat.

(** The requests sent between two worlds of one run. *)
Definition new_sends (w w' : World) : list HttpRequest :=
  sends (skipn (length (trace w)) (trace w')).

(** The request carries the query id [id]. *)
Definition carries_query_id (id : string) (r : HttpRequest) : Prop :=
  Header_Get (reqHeader r) DatabendQueryIDHeader = Some id.

(** Two clients that differ at most in their session state. *)
Definition same_but_session (c c' : APIClient) : Prop :=
  exists raw st, c' = set_session c raw st.

(** The outcome is not a panic. *)
Definition no_panic {A} (o : outcome A) : Prop :=
  match o with
  | Panics _ => False
  | _ => True
  end.

(** Of a response and an error, exactly one is nil. *)
Definition exclusive {A} (o : outcome (option A * error)) : Prop :=
  forall r err, o = Returns (r, err) -> (r = None <-> err <> None).

(** The headers of a first attempt can be made: the client has a user, or
    it has a token loader whose next load that is not forced succeeds. *)
Definition can_authorize (w : World) : Prop :=
  match authMethod (client w) with
  | AuthMethodUserPassword => True
  | AuthMethodAccessToken =>
      forall loader, accessTokenLoader (client w) = Some loader ->
                     snd (loader (loads w) false) = None
  | AuthMethodNone => False
  end.

(** What [doRequest] makes of a reply with status 200: with a place for
    the response and a JSON content type the body is decoded into it, and a
    decoding error is wrapped; else nothing is touched. *)
Definition decoded `{Externals} (ctype body : string) (resp : option QueryResponse)
  : option QueryResponse * error :=
  match resp with
  | Some r =>
      if strings_HasPrefix ctype "application/json"
      then (Some (fst (json_Unmarshal_response body r)),
            option_map (fun e => errors_Wrap e "failed to unmarshal response body")
              (snd (json_Unmarshal_response body r)))
      else (resp, None)
  | None => (None, None)
  end.

(** The attempts and the wait of a request class, as [DoRetry] sets them. *)
Definition budget (t : RequestType) : nat := if RequestType_eqb t Query then 5 else 3.
Definition pause (t : RequestType) : Duration :=
  (if RequestType_eqb t Query then 2 else 1) * time_Second.

(** The events a call has appended to the trace. *)
Definition new_events (w w' : World) : list Event := skipn (length (trace w)) (trace w').

(** The hint [doRequest] gives with a status of 400 and above. *)
Definition hint_of (status : Z) : string :=
  if (500 <=? status)%Z then "please retry again later" else "please check your arguments".

(** The calls of the stats tracker in a trace: the query id and the
    statistics of each. *)
Fixpoint tracked (tr : list Event) : list (string * QueryStats) :=
  match tr with
  | [] => []
  | EvTrackStats id stats :: tr' => (id, stats) :: tracked tr'
  | _ :: tr' => tracked tr'
  end.

(** The statistics of a response, for a client that has a tracker. *)
Definition stats_of (c : APIClient) (resp : option QueryResponse)
  : list (string * QueryStats) :=
  match resp with
  | Some r =>
      match Stats r with
      | Some stats => if statsTracker c then [(ID r, stats)] else []
      | None => []
      end
  | None => []
  end.

(** * Building a client *)

(** Modelled from the spec: the configuration [Config], which is declared
    outside restful.go and filled by the configuration loader with the
    endpoint, the credentials or the token source, the tenant and warehouse
    identifiers, the pagination limits, the presigned-upload flag, the
    substitute for empty fields, the TLS mode and the request timeout.  The
    fields are those that restful.go reads. *)
Module Cfg.
Record Config := {
  Timeout : Duration;
  EnableOpenTelemetry : bool;
  SSLMode : string;
  Role : string;
  Database : string;
  Params : gmap string string;
  Host : string;
  Tenant : string;
  Warehouse : string;
  User : string;
  Password : string;
  AccessTokenLoader : option AccessTokenLoader;
  AccessTokenFile : string;
  AccessToken : string;
  StatsTracker : bool;     (* whether a tracker callback is given *)
  WaitTimeSecs : Z;
  MaxRowsInBuffer : Z;
  MaxRowsPerPage : Z;
  PresignedURLDisabled : bool;
  EmptyFieldAs : string
}.
End Cfg.

(** What the construction of a client takes from the rest of the package
    and from libraries: the constant of the disabled TLS mode, the id that
    [uuid.NewString] draws, [json.Marshal] on a session state, the two token
    loaders of the package, and the behaviour of an [http.Client] with a
    given timeout, with or without the telemetry transport. *)
Class Construction := {
  SSL_MODE_DISABLE : string;
  uuid_NewString : string;
  json_Marshal_session : SessionState -> RawMessage;
  NewFileAccessTokenLoader : string -> AccessTokenLoader;
  NewStaticAccessTokenLoader : string -> AccessTokenLoader;
  http_Client : Duration -> bool -> HttpClient
}.

Section Build.
Context `{Construction}.

Definition NewAPIHttpClientFromConfig (cfg : Cfg.Config) : HttpClient :=
  http_Client (Cfg.Timeout cfg) (Cfg.EnableOpenTelemetry cfg).

Definition initAccessTokenLoader (cfg : Cfg.Config) : option AccessTokenLoader :=
  match Cfg.AccessTokenLoader cfg with
  | Some loader => Some loader
  | None =>
      if negb (String.eqb (Cfg.AccessTokenFile cfg) EmptyString)
      then Some (NewFileAccessTokenLoader (Cfg.AccessTokenFile cfg))
      else if negb (String.eqb (Cfg.AccessToken cfg) EmptyString)
      then Some (NewStaticAccessTokenLoader (Cfg.AccessToken cfg))
      else None
  end.

Definition NewAPIClientFromConfig (cfg : Cfg.Config) : APIClient :=
  let apiScheme :=
    if String.eqb (Cfg.SSLMode cfg) SSL_MODE_DISABLE then "http" else "https" in
  (* nil: all the granted roles of the user; empty: none of them *)
  let secondaryRoles : option (list string) :=
    if (0 <? Z.of_nat (String.length (Cfg.Role cfg)))%Z then Some [] else None in
  let sessionState0 :=
    {| Database := Cfg.Database cfg; Role := Cfg.Role cfg;
       SecondaryRoles := secondaryRoles; Settings := Cfg.Params cfg |} in
  let sessionStateRaw0 := json_Marshal_session sessionState0 in
  {| SessionID := uuid_NewString;
     QuerySeq := 0;
     cli := NewAPIHttpClientFromConfig cfg;
     rows := None;
     apiEndpoint := apiScheme +:+ "://" +:+ Cfg.Host cfg;
     host := Cfg.Host cfg;
     tenant := Cfg.Tenant cfg;
     warehouse := Cfg.Warehouse cfg;
     database := EmptyString;
     user := Cfg.User cfg;
     password := Cfg.Password cfg;
     sessionStateRaw := Some sessionStateRaw0;
     sessionState := sessionState0;
     statsTracker := Cfg.StatsTracker cfg;
     accessTokenLoader := initAccessTokenLoader cfg;
     WaitTimeSeconds := Cfg.WaitTimeSecs cfg;
     MaxRowsInBuffer := Cfg.MaxRowsInBuffer cfg;
     MaxRowsPerPage := Cfg.MaxRowsPerPage cfg;
     PresignedURLDisabled := Cfg.PresignedURLDisabled cfg;
     EmptyFieldAs := Cfg.EmptyFieldAs cfg;
     doRequestFunc := None |}.

End Build.

(** The world of a client that has just been built. *)
Definition fresh `{Construction} (cfg : Cfg.Config) (n l : nat) (tr : list Event) : World :=
  {| client := NewAPIClientFromConfig cfg; sent := n; loads := l; trace := tr |}.

(** The Authorization that the configuration asks for. *)
Definition configured_authorization `{Externals} `{Construction} (cfg : Cfg.Config)
    (a : string) : Prop :=
  if negb (String.eqb (Cfg.User cfg) EmptyString)
  then a = "Basic " +:+ encode (Cfg.User cfg) (Cfg.Password cfg)
  else match initAccessTokenLoader cfg with
       | Some loader => exists n tok, loader n false = (tok, None) /\ a = "Bearer " +:+ tok
       | None => False
       end.

(** * Uploads to a stage *)

(** A [bufio.Reader], as the uploads use it: the bytes that reading it to
    the end yields, and the error that the reading ends with, if any. *)
Record Reader := { content : string; readError : error }.

(** A request that an upload hands to an [http.Client] of its own, apart
    from the one of the client.  [upHeader] holds the headers that
    [makeHeaders] has made, [upNamed] the headers that the upload sets under
    names of its own, by name and without the canonical spelling that
    [http.Header.Set] gives them; [upContentLength] is the length the upload
    sets, if it sets one; [upCtx] is the context of the request, the one
    that [http.NewRequest] gives it. *)
Record UploadRequest := {
  upMethod : string;
  upURL : string;
  upBody : Reader;
  upHeader : Header;
  upNamed : gmap string string;
  upHost : string;
  upContentLength : option Z;
  upCtx : Context
}.

(** What the uploads take from libraries: the multipart writer on a buffer
    (the error of [CreateFormFile] for a field and a file name, the error of
    [Close], the bytes in the buffer after a file has been copied into the
    form, and the content type of the form), and the behaviour of an
    [http.Client] with a timeout of [upload_Timeout] on a request. *)
Class Uploads := {
  multipart_CreateFormFile_err : string -> string -> error;
  multipart_Close_err : error;
  multipart_bytes : string -> string -> string -> string;
  multipart_FormDataContentType : string;
  upload_Do : Duration -> UploadRequest -> HttpOutcome
}.

Section Upload.
Context `{Externals} `{Uploads}.

(** Each upload returns, with its error, the requests it has handed to its
    [http.Client], in order. *)
Definition UploadToStageByPresignURL (fuel : nat) (ctx : Context) (stage : StageLocation)
    (input : Reader) (size : Z) : M (error * list UploadRequest) :=
  p <- GetPresignedURL fuel ctx stage;;
  match p with
  | (_, Some err) => ret (Some (errors_Wrap err "failed to get presigned url"), [])
  | (None, None) => panic nilDereference
  | (Some presigned, None) =>
      match http_NewRequest_err "PUT" (URL presigned) with
      | Some err => ret (Some err, [])
      | None =>
          let req :=
            {| upMethod := "PUT"; upURL := URL presigned; upBody := input;
               upHeader := Header_empty; upNamed := Headers presigned;
               upHost := EmptyString; upContentLength := Some size; upCtx := Background |} in
          match upload_Do (time_Second * 60) req with
          | DoFails msg =>
              ret (Some (errors_Wrap (EText msg) "failed to upload to stage by presigned url"),
                   [req])
          | ReadFails _ msg => ret (Some (EText msg), [req])
          | Replies status _ respBody =>
              if (400 <=? status)%Z then
                ret (Some (EText ("failed to upload to stage by presigned url, status code: "
                                  +:+ fmt_d status +:+ ", body: " +:+ respBody)), [req])
              else ret (None, [req])
          end
      end
  end.

Definition UploadToStageByAPI (ctx : Context) (stage : StageLocation) (input : Reader)
  : M (error * list UploadRequest) :=
  match multipart_CreateFormFile_err "upload" (Path stage) with
  | Some err =>
      ret (Some (errors_Wrap err "failed to create multipart writer form file"), [])
  | None =>
      match readError input with
      | Some err =>
          ret (Some (errors_Wrap err "failed to copy file to multipart writer form file"), [])
      | None =>
          match multipart_Close_err with
          | Some err => ret (Some (errors_Wrap err "failed to close multipart writer"), [])
          | None =>
              let body :=
                {| content := multipart_bytes "upload" (Path stage) (content input);
                   readError := None |} in
              let path := "/v1/upload_to_stage" in
              c <- getClient;;
              let url := makeURL c path in
              match http_NewRequest_err "PUT" url with
              | Some err => ret (Some (errors_Wrap err "failed to create http request"), [])
              | None =>
                  hs <- makeHeaders ctx;;
                  match hs with
                  | (_, Some err) => ret (Some (errors_Wrap err "failed to make headers"), [])
                  | (None, None) => panic "assignment to entry in nil map"
                  | (Some headers, None) =>
                      let req :=
                        {| upMethod := "PUT"; upURL := url; upBody := body;
                           upHeader := headers;
                           upNamed := <["Content-Type" := multipart_FormDataContentType]>
                                        (<["stage_name" := Name stage]> ∅);
                           upHost := if (0 <? Z.of_nat (String.length (host c)))%Z
                                     then host c else EmptyString;
                           upContentLength := None; upCtx := Background |} in
                                  match upload_Do (time_Second * 60) req with
                      | DoFails msg =>
                          ret (Some (errors_Wrap (EText msg) "failed http do request"), [req])
                      | ReadFails _ msg =>
                          ret (Some (errors_Wrap (EText msg)
                                       "failed to read http response body"), [req])
                      | Replies status _ respBody =>
                          if (status =? StatusUnauthorized)%Z then
                            ret (Some (NewAPIError "please check your user/password."
                                         status respBody), [req])
                          else if (500 <=? status)%Z then
                            ret (Some (NewAPIError "please retry again later."
                                         status respBody), [req])
                          else if (400 <=? status)%Z then
                            ret (Some (NewAPIError "please check your arguments."
                                         status respBody), [req])
                          else ret (None, [req])
                      end
                  end
              end
          end
      end
  end.

Definition UploadToStage (fuel : nat) (ctx : Context) (stage : StageLocation)
    (input : Reader) (size : Z) : M (error * list UploadRequest) :=
  c <- getClient;;
  if PresignedURLDisabled c
  then UploadToStageByAPI ctx stage input
  else UploadToStageByPresignURL fuel ctx stage input size.

End Upload.

(** A request as [UploadToStageByAPI] hands it over for a stage and an
    input. *)
Definition api_upload `{Externals} `{Uploads} (c : APIClient) (ctx : Context)
    (stage : StageLocation) (input : Reader) (u : UploadRequest) : Prop :=
  upMethod u = "PUT" /\ upURL u = makeURL c "/v1/upload_to_stage" /\
  upHost u = host c /\
  content (upBody u) = multipart_bytes "upload" (Path stage) (content input) /\
  upNamed u !! "stage_name" = Some (Name stage) /\
  upNamed u !! "Content-Type" = Some multipart_FormDataContentType /\
  headers_of c ctx (upHeader u) /\ upCtx u = Background.

(** A request as [UploadToStageByPresignURL] hands it over for a presigned
    descriptor, an input and a size. *)
Definition presigned_upload (p : PresignedResponse) (input : Reader) (size : Z)
    (u : UploadRequest) : Prop :=
  upMethod u = "PUT" /\ upURL u = URL p /\ upNamed u = Headers p /\
  upHeader u = Header_empty /\ upBody u = input /\ upContentLength u = Some size /\
  upCtx u = Background.

(** * Further sample worlds *)
Module Cases.

(** A server that is overloaded, and a world whose client talks to it. *)
Definition overloaded : HttpClient := fun _ _ => Replies 503 "text/plain" "busy".
Definition overloadedWorld : World := Sample.world (Sample.basicClient overloaded).

(** A client that has a user and a token loader as well, in front of a
    server that rejects every request with status 401. *)
Definition bothCredentials (server : HttpClient) : APIClient :=
  {| SessionID := "s"; QuerySeq := 0; cli := server; rows := None;
     apiEndpoint := "https://db.example"; host := "db.example";
     tenant := EmptyString; warehouse := EmptyString; database := "default";
     user := "alice"; password := "secret";
     sessionStateRaw := None; sessionState := Sample.session0; statsTracker := false;
     accessTokenLoader := Some (fun _ _ => ("token", None));
     WaitTimeSeconds := 0; MaxRowsInBuffer := 0; MaxRowsPerPage := 0;
     PresignedURLDisabled := false; EmptyFieldAs := EmptyString;
     doRequestFunc := None |}.
Definition bothCredentialsWorld : World := Sample.world (bothCredentials Sample.unauthorized).

(** A page with statistics, and a client with a stats tracker whose
    requests are answered by a test hook with that page. *)
Definition statsPage : QueryResponse :=
  {| ID := "q1"; RespSession := None; Data := [["2"]]; NextURI := EmptyString;
     FinalURI := "/v1/query/q1/final"; KillURI := "/v1/query/q1/kill";
     Error := None; Stats := Some "scanned 2 rows" |}.
Definition trackingClient : APIClient :=
  {| SessionID := "s"; QuerySeq := 0; cli := Sample.refusing; rows := None;
     apiEndpoint := "https://db.example"; host := "db.example";
     tenant := EmptyString; warehouse := EmptyString; database := "default";
     user := "alice"; password := "secret";
     sessionStateRaw := None; sessionState := Sample.session0; statsTracker := true;
     accessTokenLoader := None;
     WaitTimeSeconds := 0; MaxRowsInBuffer := 0; MaxRowsPerPage := 0;
     PresignedURLDisabled := false; EmptyFieldAs := EmptyString;
     doRequestFunc := Some (fun _ _ _ _ => (statsPage, None)) |}.
Definition trackingWorld : World := Sample.world trackingClient.

(** A multipart writer that never fails, and an upload transport that
    accepts what it is given. *)
#[export] Instance uploads : Uploads := {|
  multipart_CreateFormFile_err := fun _ _ => None;
  multipart_Close_err := None;
  multipart_bytes := fun field name data =>
    "--b " +:+ field +:+ " " +:+ name +:+ " " +:+ data +:+ " --b--";
  multipart_FormDataContentType := "multipart/form-data; boundary=b";
  upload_Do := fun _ _ => Replies 200 "text/plain" EmptyString
|}.

(** A client that uploads through the API, and a file. *)
Definition apiUploadClient : APIClient :=
  {| SessionID := "s"; QuerySeq := 0; cli := Sample.refusing; rows := None;
     apiEndpoint := "https://db.example"; host := "db.example";
     tenant := EmptyString; warehouse := EmptyString; database := "default";
     user := "alice"; password := "secret";
     sessionStateRaw := None; sessionState := Sample.session0; statsTracker := false;
     accessTokenLoader := None;
     WaitTimeSeconds := 0; MaxRowsInBuffer := 0; MaxRowsPerPage := 0;
     PresignedURLDisabled := true; EmptyFieldAs := EmptyString;
     doRequestFunc := None |}.
Definition apiUploadWorld : World := Sample.world apiUploadClient.
Definition file : Reader := {| content := "1,2,3"; readError := None |}.

(** A client that uploads through a presigned URL; a test hook answers
    its PRESIGN UPLOAD with one row of three columns. *)
Definition presignThreeColumns : QueryResponse :=
  {| ID := "q1"; RespSession := None;
     Data := [["PUT"; "{}"; "https://bucket.example/uploads/data.csv"]];
     NextURI := EmptyString; FinalURI := EmptyString; KillURI := EmptyString;
     Error := None; Stats := None |}.
Definition presignUploadClient : APIClient :=
  {| SessionID := "s"; QuerySeq := 0; cli := Sample.refusing; rows := None;
     apiEndpoint := "https://db.example"; host := "db.example";
     tenant := EmptyString; warehouse := EmptyString; database := "default";
     user := "alice"; password := "secret";
     sessionStateRaw := None; sessionState := Sample.session0; statsTracker := false;
     accessTokenLoader := None;
     WaitTimeSeconds := 0; MaxRowsInBuffer := 0; MaxRowsPerPage := 0;
     PresignedURLDisabled := false; EmptyFieldAs := EmptyString;
     doRequestFunc := Some (fun _ _ _ _ => (presignThreeColumns, None)) |}.
Definition presignUploadWorld : World := Sample.world presignUploadClient.

End Cases.

(** * Properties *)

(** ** Reasoning about runs *)

Section Runs.
Context {A B : Type} (c : APIClient) (P : Event -> Prop).

Lemma runs_ret (Q : A -> Prop) (a : A) : Q a -> runs c P Q (ret a).
Proof.
  intros HQ w Hw. exists a, w, []. rewrite app_nil_r. repeat split; auto.
Qed.

Lemma runs_bind (Q1 : A -> Prop) (Q2 : B -> Prop) (m : M A) (k : A -> M B) :
  runs c P Q1 m -> (forall a, Q1 a -> runs c P Q2 (k a)) -> runs c P Q2 (bind m k).
Proof.
  intros Hm Hk w Hw.
  destruct (Hm w Hw) as (a & w1 & evs1 & E1 & C1 & T1 & F1 & HQ1).
  destruct (Hk a HQ1 w1 C1) as (b & w2 & evs2 & E2 & C2 & T2 & F2 & HQ2).
  exists b, w2, (evs1 ++ evs2)%list. unfold bind. rewrite E1, E2.
  repeat split; auto.
  - rewrite T2, T1. symmetry. apply app_assoc.
  - apply Forall_app. split; assumption.
Qed.

Lemma runs_weaken (Q Q' : A -> Prop) (m : M A) :
  runs c P Q m -> (forall a, Q a -> Q' a) -> runs c P Q' m.
Proof.
  intros Hm HQ w Hw.
  destruct (Hm w Hw) as (a & w1 & evs1 & E1 & C1 & T1 & F1 & HQ1).
  exists a, w1, evs1. repeat split; auto.
Qed.

End Runs.

Lemma runs_getClient c P : runs c P (fun x => x = c) getClient.
Proof.
  intros w Hw. exists (client w), w, []. rewrite app_nil_r. repeat split; auto.
Qed.

Lemma runs_emit c P e : P e -> runs c P (fun _ => True) (emit e).
Proof.
  intros HP w Hw. eexists tt, _, [e]. unfold emit. simpl. repeat split; auto.
Qed.

Lemma runs_cli_Do c P r : P (EvSend r) -> runs c P (fun _ => True) (cli_Do r).
Proof.
  intros HP w Hw. eexists _, _, [EvSend r]. unfold cli_Do. simpl. repeat split; auto.
Qed.

Lemma runs_LoadAccessToken c P loader b :
  accessTokenLoader c = Some loader -> P (EvLoadToken b) ->
  runs c P (fun _ => True) (LoadAccessToken b).
Proof.
  intros Hl HP w Hw. unfold LoadAccessToken. rewrite Hw, Hl.
  eexists _, _, [EvLoadToken b]. simpl. repeat split; auto.
Qed.

Section Extends.
Context {A B : Type}.

Lemma runs_extends (P : Event -> Prop) (Q : A -> Prop) (m : M A) :
  (forall c, runs c P Q m) -> extends m.
Proof.
  intros Hm w. destruct (Hm (client w) w eq_refl) as (a & w1 & evs & E & _ & T & _).
  exists evs. rewrite E. exact T.
Qed.

Lemma quiet_extends (m : M A) : quiet m -> extends m.
Proof.
  intros Hm w. destruct (Hm w) as (a & w1 & E & T). exists []. rewrite E. simpl.
  rewrite T. symmetry. apply app_nil_r.
Qed.

Lemma starts_with_extends pre (m : M A) : starts_with pre m -> extends m.
Proof. intros Hm w. destruct (Hm w) as [evs E]. exists (pre ++ evs)%list. exact E. Qed.

Lemma extends_ret (a : A) : extends (ret a).
Proof. intros w. exists []. simpl. symmetry. apply app_nil_r. Qed.

Lemma extends_panic msg : extends (@panic A msg).
Proof. intros w. exists []. simpl. symmetry. apply app_nil_r. Qed.

Lemma extends_outOfFuel : extends (@outOfFuel A).
Proof. intros w. exists []. simpl. symmetry. apply app_nil_r. Qed.

(** The events of [m] come first, those of the continuation after. *)
Lemma starts_with_bind pre (m : M A) (k : A -> M B) :
  starts_with pre m -> (forall a, extends (k a)) -> starts_with pre (bind m k).
Proof.
  intros Hm Hk w. destruct (Hm w) as [evs1 E1]. unfold bind.
  destruct (m w) as [[a | msg | ] w1]; simpl in E1.
  - destruct (Hk a w1) as [evs2 E2]. exists (evs1 ++ evs2)%list.
    rewrite E2, E1. simpl. rewrite <- !app_assoc. reflexivity.
  - exists evs1. exact E1.
  - exists evs1. exact E1.
Qed.

Lemma extends_bind (m : M A) (k : A -> M B) :
  extends m -> (forall a, extends (k a)) -> extends (bind m k).
Proof. apply starts_with_bind. Qed.

(** A quiet step before [k] does not show in the trace. *)
Lemma starts_with_quiet pre (m : M A) (k : A -> M B) :
  quiet m -> (forall a, starts_with pre (k a)) -> starts_with pre (bind m k).
Proof.
  intros Hm Hk w. destruct (Hm w) as (a & w1 & E & T). unfold bind. rewrite E.
  destruct (Hk a w1) as [evs E2]. exists evs. rewrite E2, T. reflexivity.
Qed.

End Extends.

Lemma starts_with_emit {B} e pre (k : M B) :
  starts_with pre k -> starts_with (e :: pre) (emit e ;;; k).
Proof.
  intros Hk w. unfold bind, emit.
  match goal with |- context [k ?w1] => destruct (Hk w1) as [evs E] end.
  exists evs. rewrite E. simpl. rewrite <- app_assoc. reflexivity.
Qed.

Lemma extends_defer {A} (body : M A) (deferred : M unit) :
  extends body -> extends deferred -> extends (defer body deferred).
Proof.
  intros Hb Hd w. destruct (Hb w) as [evs1 E1]. unfold defer.
  destruct (body w) as [[a | msg | ] w1]; simpl in E1.
  - destruct (Hd w1) as [evs2 E2]. exists (evs1 ++ evs2)%list.
    destruct (deferred w1) as [[u | msg | ] w2]; simpl in *;
      rewrite E2, E1, <- app_assoc; reflexivity.
  - destruct (Hd w1) as [evs2 E2]. exists (evs1 ++ evs2)%list.
    destruct (deferred w1) as [[u | msg' | ] w2]; simpl in *;
      rewrite E2, E1, <- app_assoc; reflexivity.
  - exists evs1. exact E1.
Qed.

(** ** The executor and the retry policy always return *)


Section ExecutorRuns.
Context `{Externals}.
Variable c : APIClient.
Variable P : Event -> Prop.
Variable ctx : Context.
Hypothesis P_load : forall b, P (EvLoadToken b).
Hypothesis P_send : forall r, reqCtx r = ctx -> P (EvSend r).

Lemma authMethod_token : authMethod c = AuthMethodAccessToken ->
  exists loader, accessTokenLoader c = Some loader.
Proof.
  unfold authMethod. destruct (negb _); [discriminate |].
  destruct (accessTokenLoader c) as [l | ]; [eauto | discriminate].
Qed.

Lemma makeHeaders_runs :
  runs c P (fun r => r <> (None, None)) (makeHeaders ctx).
Proof.
  unfold makeHeaders. eapply runs_bind; [apply runs_getClient |].
  intros c' ->. cbv zeta. destruct (authMethod c) eqn:Ha.
  - apply runs_ret. discriminate.
  - destruct (authMethod_token Ha) as [loader Hl].
    eapply runs_bind; [eapply runs_LoadAccessToken; eauto |].
    intros [tok [e | ]] _; apply runs_ret; discriminate.
  - apply runs_ret. discriminate.
Qed.

Lemma doRequest_loop_runs fuel : forall i httpReq resp,
  reqCtx httpReq = ctx -> (Z.to_nat (maxRetries + 1 - i) <= fuel)%nat ->
  runs c P (fun _ => True) (doRequest_loop fuel i ctx httpReq resp).
Proof.
  induction fuel as [ | fuel IH]; intros i httpReq resp Hctx Hfuel; simpl;
    destruct (i <=? maxRetries)%Z eqn:Hi; try (apply runs_ret; exact I).
  - apply Z.leb_le in Hi. unfold maxRetries in *. lia.
  - eapply runs_bind; [apply makeHeaders_runs |].
    intros [[headers | ] [e | ]] Hne;
      [apply runs_ret; exact I | | apply runs_ret; exact I | now contradiction Hne].
    eapply runs_bind; [apply runs_getClient |]. intros c' ->.
    eapply runs_bind; [apply runs_cli_Do; apply P_send; exact Hctx |].
    intros [msg | st msg | status ctype body] _; try (apply runs_ret; exact I).
    destruct (status =? StatusUnauthorized)%Z.
    + destruct (authMethod c) eqn:Ha; try (apply runs_ret; exact I).
      destruct (i <? maxRetries)%Z eqn:Hlt; [| apply runs_ret; exact I].
      destruct (authMethod_token Ha) as [loader Hl].
      eapply runs_bind; [eapply runs_LoadAccessToken; eauto |].
      intros _ _. apply IH; [exact Hctx |].
      apply Z.ltb_lt in Hlt. unfold maxRetries in *. lia.
    + destruct (500 <=? status)%Z; [apply runs_ret; exact I |].
      destruct (400 <=? status)%Z; [apply runs_ret; exact I |].
      destruct (negb (status =? 200)%Z); [apply runs_ret; exact I |].
      destruct resp as [r | ]; [| apply runs_ret; exact I].
      destruct (strings_HasPrefix ctype "application/json"); [| apply runs_ret; exact I].
      destruct (json_Unmarshal_response body r) as [r' [e | ]]; apply runs_ret; exact I.
Qed.

Lemma doRequest_runs method path req resp :
  P (EvDoRequest ctx method path req) ->
  runs c P (fun _ => True) (doRequest ctx method path req resp).
Proof.
  intros Pdo. unfold doRequest, doRequest_body.
  eapply runs_bind; [apply runs_emit; exact Pdo |]. intros _ _.
  eapply runs_bind; [apply runs_getClient |]. intros c' ->.
  destruct (doRequestFunc c) as [mock | ].
  - destruct (mock method path req resp) as [r' err]. apply runs_ret. exact I.
  - destruct (match req with Some r => json_Marshal r | None => (EmptyString, None) end)
      as [reqBody [e | ]]; [apply runs_ret; exact I |].
    destruct (http_NewRequest_err method (makeURL c path)); [apply runs_ret; exact I |].
    apply doRequest_loop_runs; [reflexivity | unfold maxRetries; simpl; lia].
Qed.

Section Retry.
Context {St : Type}.
Variable f : St -> M (St * error).
Hypothesis f_runs : forall s, runs c P (fun _ => True) (f s).
Hypothesis P_attempt : forall n, P (EvAttempt n).
Hypothesis P_sleep : forall d, P (EvSleep d).

Lemma retry_loop_runs config left : forall n s errorLog,
  runs c P (fun _ => True) (retry_loop left n config f s errorLog).
Proof.
  induction left as [ | left IH]; intros n s errorLog; simpl.
  - apply runs_ret. exact I.
  - eapply runs_bind; [apply runs_emit; apply P_attempt |]. intros _ _.
    eapply runs_bind; [apply f_runs |].
    intros [s' [e | ]] _; [| apply runs_ret; exact I].
    destruct (negb _); [apply runs_ret; exact I |].
    destruct (n =? attempts config - 1)%Z; [apply runs_ret; exact I |].
    eapply runs_bind; [apply runs_emit; apply P_sleep |]. intros _ _. apply IH.
Qed.

Lemma DoRetry_runs s t : runs c P (fun _ => True) (DoRetry f s t).
Proof.
  unfold DoRetry, retry_Do. destruct (RequestType_eqb t Query); apply retry_loop_runs.
Qed.

End Retry.
End ExecutorRuns.

(** ** The retry predicate *)

Lemma send_failure_not_canceled e :
  errors_Is e ErrDoRequest = true -> errors_Is e context_Canceled = false.
Proof.
  induction e as [s | | cause IH msg | | | ]; simpl; try discriminate; auto.
  destruct s; simpl; congruence.
Qed.

(** C2, as stated, fails: an error that the package's proxy test recognises
    is retried, for the class Page too, although it is neither a send
    failure nor a read failure and says nothing about provisioning. *)
Lemma retryIf_retries_proxy_errors :
  @retryIf Sample.externals Page (Some (EText "proxyconnect tcp: EOF")) = true /\
  ~ @retried_as_specified Sample.externals Page (EText "proxyconnect tcp: EOF").
Proof.
  split; [reflexivity |].
  intros [Hs | [Hr | [Hq _]]]; discriminate.
Qed.

(** C2, amended: an error is retried exactly when it does not match the
    cancellation of the context and is a transport-send failure, a
    response-read failure, an error the proxy test recognises, or, for the
    class Query only, an error whose message holds the provisioning marker.
    No error at all is not retried. *)
Theorem retryIf_characterised `{Externals} (t : RequestType) (err : error) :
  retryIf t err = true <->
  exists e, err = Some e /\
    errors_Is e context_Canceled = false /\
    (errors_Is e ErrDoRequest = true \/
     errors_Is e ErrReadResponse = true \/
     IsProxyErr e = true \/
     (t = Query /\ strings_Contains (Error_text e) ProvisionWarehouseTimeout = true)).
Proof.
  unfold retryIf. destruct err as [e | ].
  - destruct (errors_Is e context_Canceled) eqn:Hcan.
    + split; [discriminate |]. intros (e' & He & Hc & _). congruence.
    + split.
      * intros Hr. exists e. split; [reflexivity |]. split; [exact Hcan |].
        destruct (errors_Is e ErrDoRequest); [auto |].
        destruct (errors_Is e ErrReadResponse); [auto |].
        destruct (IsProxyErr e); [auto |]. simpl in Hr.
        destruct t; simpl in Hr; try discriminate.
        destruct (strings_Contains _ _); [auto | discriminate].
      * intros (e' & He & _ & Hcases). inversion He; subst e'.
        destruct Hcases as [-> | [-> | [-> | [-> ->]]]];
          rewrite ?orb_true_r; try reflexivity.
        destruct (_ || _); reflexivity.
  - split; [discriminate |]. intros (e & He & _). discriminate.
Qed.

(** ** The attempt budget *)

Lemma retry_events_app tr1 tr2 :
  retry_events (tr1 ++ tr2) = (retry_events tr1 ++ retry_events tr2)%list.
Proof. apply List.filter_app. Qed.

Section Budget.
Context `{Externals} {St : Type}.
Variable f : St -> M (St * error).
Hypothesis f_fails : forall s w, exists s' e w',
  f s w = (Returns (s', Some e), w') /\ errors_Is e ErrDoRequest = true /\
  retry_events (trace w') = retry_events (trace w).

Lemma retry_loop_send_failures t config left :
  retryIfFn config = retryIf t -> delayType config = FixedDelay ->
  forall n s errorLog w,
    (0 < left)%nat -> n + Z.of_nat left = attempts config ->
    exists s' errs w',
      retry_loop left n config f s errorLog w
        = (Returns (s', Some (ERetry (errorLog ++ errs))), w') /\
      length errs = left /\
      Forall (fun e => errors_Is e ErrDoRequest = true) errs /\
      retry_events (trace w')
        = (retry_events (trace w) ++ schedule left n (delay config))%list.
Proof.
  intros Hif Hdt. induction left as [ | left IH]; intros n s errorLog w Hpos Hn; [lia |].
  cbn [retry_loop]. unfold bind at 1. unfold emit at 1. cbn [fst snd].
  unfold bind at 1.
  match goal with |- context [f s ?w1] =>
    destruct (f_fails s w1) as (s' & e & w2 & Ef & He & Tf) end.
  rewrite Ef. rewrite Hif.
  assert (Hretry : retryIf t (Some e) = true).
  { unfold retryIf. rewrite (send_failure_not_canceled e He), He. reflexivity. }
  rewrite Hretry. cbn [negb]. cbn [trace] in Tf. rewrite retry_events_app in Tf.
  destruct left as [ | left].
  - replace (n =? attempts config - 1)%Z with true by (symmetry; apply Z.eqb_eq; lia).
    exists s', [e], w2. repeat split; auto.
  - replace (n =? attempts config - 1)%Z with false by (symmetry; apply Z.eqb_neq; lia).
    unfold bind at 1. unfold emit at 1.
    match goal with |- context [retry_loop _ _ _ _ _ ?l ?w3] =>
      destruct (IH (n + 1) s' l w3) as (s'' & errs & w4 & E & L & F & T); [lia | lia |] end.
    exists s'', (e :: errs), w4. rewrite E. repeat split.
    + rewrite <- app_assoc. reflexivity.
    + simpl. rewrite L. reflexivity.
    + constructor; assumption.
    + rewrite T. cbn [trace]. rewrite retry_events_app, Tf, Hdt. unfold FixedDelay.
      rewrite <- !app_assoc. reflexivity.
Qed.

(** C7: when every attempt fails to send, [DoRetry] gives up with the log
    of the failures after exactly 5 attempts with a wait of 2 seconds
    between two of them for the class Query, and after exactly 3 attempts
    with a wait of 1 second for every other class; the wait is the same
    before every attempt. *)
Theorem DoRetry_send_failure_budget (s : St) (t : RequestType) (w : World) :
  exists s' log w',
    DoRetry f s t w = (Returns (s', Some (ERetry log)), w') /\
    Forall (fun e => errors_Is e ErrDoRequest = true) log /\
    if RequestType_eqb t Query
    then length log = 5%nat /\
         retry_events (trace w')
           = (retry_events (trace w) ++
              [EvAttempt 0; EvSleep (2 * time_Second);
               EvAttempt 1; EvSleep (2 * time_Second);
               EvAttempt 2; EvSleep (2 * time_Second);
               EvAttempt 3; EvSleep (2 * time_Second);
               EvAttempt 4])%list
    else length log = 3%nat /\
         retry_events (trace w')
           = (retry_events (trace w) ++
              [EvAttempt 0; EvSleep (1 * time_Second);
               EvAttempt 1; EvSleep (1 * time_Second);
               EvAttempt 2])%list.
Proof.
  unfold DoRetry, retry_Do. destruct (RequestType_eqb t Query) eqn:Ht.
  - destruct (retry_loop_send_failures t
                {| attempts := 5; delay := 2 * time_Second; delayType := FixedDelay;
                   retryIfFn := retryIf t |} 5 eq_refl eq_refl 0 s [] w)
      as (s' & errs & w' & E & L & F & T); [lia | reflexivity |].
    exists s', errs, w'. repeat split; assumption.
  - destruct (retry_loop_send_failures t
                {| attempts := 3; delay := 1 * time_Second; delayType := FixedDelay;
                   retryIfFn := retryIf t |} 3 eq_refl eq_refl 0 s [] w)
      as (s' & errs & w' & E & L & F & T); [lia | reflexivity |].
    exists s', errs, w'. repeat split; assumption.
Qed.

End Budget.

(** ** What the functions add to the trace *)

Lemma extends_emit e : extends (emit e).
Proof. intros w. exists [e]. reflexivity. Qed.

Lemma extends_getClient : extends getClient.
Proof. apply quiet_extends. intros w. exists (client w), w. split; reflexivity. Qed.

Lemma quiet_putClient c : quiet (putClient c).
Proof. intros w. eexists tt, _. split; reflexivity. Qed.

Lemma quiet_getClient : quiet getClient.
Proof. intros w. exists (client w), w. split; reflexivity. Qed.

Lemma extends_cli_Do r : extends (cli_Do r).
Proof. intros w. exists [EvSend r]. reflexivity. Qed.

Lemma extends_LoadAccessToken b : extends (LoadAccessToken b).
Proof.
  intros w. unfold LoadAccessToken. destruct (accessTokenLoader (client w)).
  - exists [EvLoadToken b]. reflexivity.
  - exists []. simpl. symmetry. apply app_nil_r.
Qed.

Lemma quiet_NextQuery : quiet NextQuery.
Proof. intros w. eexists tt, _. unfold NextQuery, bind, getClient, putClient. split; reflexivity. Qed.

Section Appends.
Context `{Externals}.

Lemma quiet_applySessionState resp : quiet (applySessionState resp).
Proof.
  intros w. unfold applySessionState. destruct resp as [r | ].
  - destruct (RespSession r); eexists tt, _; split; reflexivity.
  - eexists tt, _; split; reflexivity.
Qed.

Lemma extends_trackStats resp : extends (trackStats resp).
Proof.
  unfold trackStats. apply extends_bind; [apply extends_getClient |]. intros c.
  destruct resp as [r | ]; [| apply extends_ret].
  destruct (Stats r); [| apply extends_ret].
  destruct (statsTracker c); [apply extends_emit | apply extends_ret].
Qed.

Lemma extends_makeHeaders ctx : extends (makeHeaders ctx).
Proof.
  unfold makeHeaders. apply extends_bind; [apply extends_getClient |]. intros c.
  cbv zeta. destruct (authMethod c); try apply extends_ret.
  apply extends_bind; [apply extends_LoadAccessToken |].
  intros [tok [e | ]]; apply extends_ret.
Qed.

Lemma extends_doRequest_loop ctx fuel : forall i httpReq resp,
  extends (doRequest_loop fuel i ctx httpReq resp).
Proof.
  induction fuel as [ | fuel IH]; intros i httpReq resp; simpl;
    destruct (i <=? maxRetries)%Z; try apply extends_ret; [apply extends_outOfFuel |].
  apply extends_bind; [apply extends_makeHeaders |].
  intros [[headers | ] [e | ]]; try apply extends_ret; [| apply extends_panic].
  apply extends_bind; [apply extends_getClient |]. intros c.
  apply extends_bind; [apply extends_cli_Do |].
  intros [msg | st msg | status ctype body]; try apply extends_ret.
  destruct (status =? StatusUnauthorized)%Z.
  - destruct (authMethod c); try apply extends_ret.
    destruct (i <? maxRetries)%Z; [| apply extends_ret].
    apply extends_bind; [apply extends_LoadAccessToken |]. intros _. apply IH.
  - destruct (500 <=? status)%Z; [apply extends_ret |].
    destruct (400 <=? status)%Z; [apply extends_ret |].
    destruct (negb (status =? 200)%Z); [apply extends_ret |].
    destruct resp as [r | ]; [| apply extends_ret].
    destruct (strings_HasPrefix ctype "application/json"); [| apply extends_ret].
    destruct (json_Unmarshal_response body r) as [r' [e | ]]; apply extends_ret.
Qed.

Lemma extends_doRequest_body ctx method path req resp :
  extends (doRequest_body ctx method path req resp).
Proof.
  unfold doRequest_body. apply extends_bind; [apply extends_getClient |]. intros c.
  destruct (doRequestFunc c) as [mock | ].
  - destruct (mock method path req resp) as [r' err]. apply extends_ret.
  - destruct (match req with Some r => json_Marshal r | None => (EmptyString, None) end)
      as [reqBody [e | ]]; [apply extends_ret |].
    destruct (http_NewRequest_err method (makeURL c path)); [apply extends_ret |].
    apply extends_doRequest_loop.
Qed.

(** The first thing [doRequest] leaves in the trace is its own entry. *)
Lemma doRequest_starts ctx method path req resp :
  starts_with [EvDoRequest ctx method path req] (doRequest ctx method path req resp).
Proof. unfold doRequest. apply starts_with_emit. apply extends_doRequest_body. Qed.

Section RetryAppends.
Context {St : Type}.
Variable f : St -> M (St * error).
Hypothesis f_extends : forall s, extends (f s).

Lemma extends_retry_loop config left : forall n s errorLog,
  extends (retry_loop left n config f s errorLog).
Proof.
  induction left as [ | left IH]; intros n s errorLog; simpl; [apply extends_ret |].
  apply extends_bind; [apply extends_emit |]. intros _.
  apply extends_bind; [apply f_extends |].
  intros [s' [e | ]]; [| apply extends_ret].
  destruct (negb _); [apply extends_ret |].
  destruct (n =? attempts config - 1)%Z; [apply extends_ret |].
  apply extends_bind; [apply extends_emit | intros _; apply IH].
Qed.

(** [DoRetry] begins with attempt 0, and with what the closure begins with. *)
Lemma DoRetry_starts pre s t :
  (forall s, starts_with pre (f s)) -> starts_with (EvAttempt 0 :: pre) (DoRetry f s t).
Proof.
  intros Hpre. unfold DoRetry, retry_Do.
  destruct (RequestType_eqb t Query); cbn [attempts Z.to_nat Pos.to_nat Pos.iter_op Nat.add retry_loop];
    (apply starts_with_emit; apply starts_with_bind; [apply Hpre |];
     intros [s' [e | ]]; [| apply extends_ret];
     destruct (negb _); [apply extends_ret |];
     match goal with |- context [(?a =? ?b)%Z] => destruct (a =? b)%Z end;
     [apply extends_ret |];
     apply extends_bind; [apply extends_emit | intros _; apply extends_retry_loop]).
Qed.

Lemma extends_DoRetry s t : extends (DoRetry f s t).
Proof.
  apply (starts_with_extends [EvAttempt 0]).
  apply (DoRetry_starts [] s t). exact f_extends.
Qed.

End RetryAppends.

Lemma extends_doRequest ctx method path req resp :
  extends (doRequest ctx method path req resp).
Proof. eapply starts_with_extends. apply doRequest_starts. Qed.

End Appends.

(** The budget on a closure that never gets a request out, for the class
    Query. *)
Lemma DoRetry_send_failure_budget_witness :
  (forall s w, exists s' e w',
      Sample.unreachable s w = (Returns (s', Some e), w') /\
      errors_Is e ErrDoRequest = true /\
      retry_events (trace w') = retry_events (trace w)) /\
  exists s' log w',
    @DoRetry Sample.externals unit Sample.unreachable tt Query
      (Sample.world (Sample.basicClient Sample.unauthorized))
      = (Returns (s', Some (ERetry log)), w') /\
    Forall (fun e => errors_Is e ErrDoRequest = true) log /\
    length log = 5%nat /\
    retry_events (trace w')
      = [EvAttempt 0; EvSleep (2 * time_Second);
         EvAttempt 1; EvSleep (2 * time_Second);
         EvAttempt 2; EvSleep (2 * time_Second);
         EvAttempt 3; EvSleep (2 * time_Second);
         EvAttempt 4].
Proof.
  assert (Hf : forall s w, exists s' e w',
             Sample.unreachable s w = (Returns (s', Some e), w') /\
             errors_Is e ErrDoRequest = true /\
             retry_events (trace w') = retry_events (trace w)).
  { intros s w. eexists _, _, _. repeat split. }
  split; [exact Hf |].
  exact (@DoRetry_send_failure_budget Sample.externals unit Sample.unreachable Hf tt Query
           (Sample.world (Sample.basicClient Sample.unauthorized))).
Defined.

(** The same budget seen through [doRequest]: against a server that cannot
    be reached, a poll is attempted three times, a second apart, and each
    attempt sends one request. *)
Example DoRetry_against_unreachable_server :
  retry_events
    (trace (snd (@PollQuery Sample.externals Background "/v1/query/q1/page/1"
                   Sample.unreachableWorld)))
  = [EvAttempt 0; EvSleep (1 * time_Second); EvAttempt 1; EvSleep (1 * time_Second);
     EvAttempt 2] /\
  length (sends (trace (snd (@PollQuery Sample.externals Background "/v1/query/q1/page/1"
                               Sample.unreachableWorld)))) = 3%nat.
Proof. vm_compute. split; reflexivity. Qed.

(** ** Cleanup never fails *)

Lemma under_attempt ctx n : under ctx (EvAttempt n).
Proof. intros c Hc. discriminate. Qed.

Lemma under_sleep ctx d : under ctx (EvSleep d).
Proof. intros c Hc. discriminate. Qed.

Lemma under_load ctx b : under ctx (EvLoadToken b).
Proof. intros c Hc. discriminate. Qed.

Lemma under_send ctx r : reqCtx r = ctx -> under ctx (EvSend r).
Proof. intros Hr c Hc. simpl in Hc. congruence. Qed.

Lemma under_doRequest ctx method path req : under ctx (EvDoRequest ctx method path req).
Proof. intros c Hc. simpl in Hc. congruence. Qed.

Section Cleanup.
Context `{Externals}.

(** A cleanup call: [DoRetry] around a GET of [uri] under [ctx], without a
    request and without a place for the response. *)
Lemma cleanup_call ctx uri t w :
  exists a w' rest,
    DoRetry (fun s => doRequest ctx "GET" uri None s) None t w = (Returns a, w') /\
    client w' = client w /\
    trace w' = (trace w ++ EvAttempt 0 :: EvDoRequest ctx "GET" uri None :: rest)%list /\
    Forall (under ctx) (EvAttempt 0 :: EvDoRequest ctx "GET" uri None :: rest).
Proof.
  destruct (DoRetry_runs (client w) (under ctx)
              (fun s => doRequest ctx "GET" uri None s)
              (fun s => doRequest_runs (client w) (under ctx) ctx (under_load ctx)
                          (under_send ctx) "GET" uri None s
                          (under_doRequest ctx "GET" uri None))
              (under_attempt ctx) (under_sleep ctx) None t w eq_refl)
    as (a & w' & evs & E & C & T & F & _).
  destruct (DoRetry_starts (fun s => doRequest ctx "GET" uri None s)
              (fun s => extends_doRequest ctx "GET" uri None s)
              [EvDoRequest ctx "GET" uri None] None t
              (fun s => doRequest_starts ctx "GET" uri None s) w) as [rest S].
  rewrite E in S. simpl in S. rewrite T in S. apply app_inv_head in S. subst evs.
  exists a, w', rest. repeat split; assumption.
Qed.

(** C9: whatever the response and whatever the server does, [CloseQuery]
    and [KillQuery] return nil.  Without a response, or with an empty
    finalize (kill) URI, they do nothing at all; otherwise every request
    they make is made under a context derived with a timeout of 30
    seconds, which cannot live longer than that. *)
Theorem CloseQuery_KillQuery_swallow (ctx : Context) (response : option QueryResponse)
    (w : World) :
  let ctx30 := WithTimeout ctx (30 * time_Second) in
  let cleans (uri : QueryResponse -> string) (call : M error) :=
    exists w' evs,
      call w = (Returns None, w') /\
      client w' = client w /\
      trace w' = (trace w ++ evs)%list /\
      Forall (under ctx30) evs /\
      match response with
      | Some r =>
          if String.eqb (uri r) EmptyString then w' = w /\ evs = []
          else exists rest,
                 evs = EvAttempt 0 :: EvDoRequest ctx30 "GET" (uri r) None :: rest
      | None => w' = w /\ evs = []
      end in
  cleans FinalURI (CloseQuery ctx response) /\
  cleans KillURI (KillQuery ctx response) /\
  exists d, ctx_lifetime ctx30 = Some d /\ (d <= 30 * time_Second)%Z.
Proof.
  cbv zeta. split; [| split].
  - unfold CloseQuery. destruct response as [r | ].
    + destruct (String.eqb (FinalURI r) EmptyString); cbn [negb].
      * exists w, []. rewrite app_nil_r. repeat split; constructor.
      * destruct (cleanup_call (WithTimeout ctx (30 * time_Second)) (FinalURI r) Final w)
          as (a & w' & rest & E & C & T & F).
        eexists w', _. unfold bind. rewrite E. repeat split; eauto.
    + exists w, []. rewrite app_nil_r. repeat split; constructor.
  - unfold KillQuery. destruct response as [r | ].
    + destruct (String.eqb (KillURI r) EmptyString); cbn [negb].
      * exists w, []. rewrite app_nil_r. repeat split; constructor.
      * destruct (cleanup_call (WithTimeout ctx (30 * time_Second)) (KillURI r) Kill w)
          as (a & w' & rest & E & C & T & F).
        eexists w', _. unfold bind. rewrite E. repeat split; eauto.
    + exists w, []. rewrite app_nil_r. repeat split; constructor.
  - simpl. destruct (ctx_lifetime ctx) as [d' | ]; eexists; split; try reflexivity; lia.
Qed.

End Cleanup.

(** ** The lifecycle only appends to the trace *)

Section Lifecycle.
Context `{Externals}.

Lemma startQueryRequest_starts ctx request :
  starts_with [EvAttempt 0; EvDoRequest ctx "POST" "/v1/query" (Some request)]
    (startQueryRequest ctx request).
Proof.
  unfold startQueryRequest. apply starts_with_quiet; [apply quiet_NextQuery |]. intros _.
  apply starts_with_bind.
  - apply DoRetry_starts; intros s; [apply extends_doRequest | apply doRequest_starts].
  - intros [resp [e | ]]; [apply extends_ret |].
    apply extends_bind; [apply quiet_extends, quiet_applySessionState |]. intros _.
    apply extends_bind; [apply extends_trackStats |]. intros _. apply extends_ret.
Qed.

Lemma extends_PollQuery ctx nextURI : extends (PollQuery ctx nextURI).
Proof.
  unfold PollQuery. apply extends_bind.
  - apply extends_DoRetry. intros s. apply extends_doRequest.
  - intros [result err].
    apply extends_bind; [apply quiet_extends, quiet_applySessionState |]. intros _.
    apply extends_bind; [apply extends_trackStats |]. intros _.
    destruct err; apply extends_ret.
Qed.

Lemma extends_PollUntilQueryEnd ctx fuel : forall resp,
  extends (PollUntilQueryEnd fuel ctx resp).
Proof.
  induction fuel as [ | fuel IH]; intros [r | ]; simpl; try apply extends_panic;
    destruct (negb (ReadFinished r)); try apply extends_ret; [apply extends_outOfFuel |].
  apply extends_bind; [apply extends_PollQuery |].
  intros [[inner | ] [e | ]]; try apply extends_ret; [| apply extends_panic].
  destruct (Error inner); [apply extends_ret | apply IH].
Qed.

Lemma extends_CloseQuery ctx response : extends (CloseQuery ctx response).
Proof.
  unfold CloseQuery. destruct response as [r | ]; [| apply extends_ret].
  destruct (negb _); [| apply extends_ret].
  apply extends_bind; [| intros _; apply extends_ret].
  apply extends_DoRetry. intros s. apply extends_doRequest.
Qed.

(** What follows the submission in [QuerySync] and [InsertWithStage]: the
    polling, and the deferred finalize. *)
Lemma extends_after_submission ctx resp (body : M (option QueryResponse * error)) :
  extends body -> extends (defer body (CloseQuery ctx resp;;; ret tt)).
Proof.
  intros Hb. apply extends_defer; [exact Hb |].
  apply extends_bind; [apply extends_CloseQuery | intros _; apply extends_ret].
Qed.

(** ** Defaults of a stage attachment *)

(** C10: with a stage, the request that [InsertWithStage] hands to
    [doRequest] first carries a stage attachment for that stage; its format
    block is the caller's, or, when the caller gave none, one with type
    CSV, a comma as field delimiter, a line feed as record delimiter, no
    header to skip and the client's substitute for empty fields; its copy
    block is the caller's, or one with purge set to true. *)
Theorem InsertWithStage_defaults (fuel : nat) (ctx : Context) (sql : string)
    (stage : StageLocation) (fileFormatOptions copyOptions : option (gmap string string))
    (w : World) :
  exists request attachment rest,
    trace (snd (InsertWithStage fuel ctx sql (Some stage) fileFormatOptions copyOptions w))
      = (trace w ++
         EvAttempt 0 :: EvDoRequest ctx "POST" "/v1/query" (Some request) :: rest)%list /\
    SQL request = sql /\
    StageAttachment request = Some attachment /\
    Location attachment = StageLocation_String stage /\
    match fileFormatOptions with
    | Some options => FileFormatOptions attachment = Some options
    | None =>
        exists m : gmap string string,
          FileFormatOptions attachment = Some m /\
          m !! "type" = Some "CSV" /\
          m !! "field_delimiter" = Some "," /\
          m !! "record_delimiter" = Some LF /\
          m !! "skip_header" = Some "0" /\
          m !! EMPTY_FIELD_AS = Some (EmptyFieldAs (client w))
    end /\
    match copyOptions with
    | Some options => CopyOptions attachment = Some options
    | None =>
        exists m : gmap string string,
          CopyOptions attachment = Some m /\ m !! PURGE = Some "true"
    end.
Proof.
  set (c := client w).
  set (ff := match fileFormatOptions with
             | None => Some (NewDefaultCSVFormatOptions (EmptyFieldAs c))
             | Some _ => fileFormatOptions
             end).
  set (co := match copyOptions with
             | None => Some NewDefaultCopyOptions
             | Some _ => copyOptions
             end).
  set (attachment := {| Location := StageLocation_String stage;
                        FileFormatOptions := ff; CopyOptions := co |}).
  set (request := {| SQL := sql; Pagination := getPagenationConfig c;
                     Session := getSessionStateRaw c;
                     StageAttachment := Some attachment |}).
  assert (Hrun : exists rest,
    trace (snd (InsertWithStage fuel ctx sql (Some stage) fileFormatOptions copyOptions w))
    = (trace w ++ [EvAttempt 0; EvDoRequest ctx "POST" "/v1/query" (Some request)]
       ++ rest)%list).
  { unfold InsertWithStage. unfold bind at 1. unfold getClient at 1.
    fold c. fold ff. fold co. fold attachment. fold request.
    apply starts_with_bind; [apply startQueryRequest_starts |].
    intros [resp [e | ]]; [apply extends_ret |].
    apply extends_after_submission.
    destruct resp as [r | ]; [| apply extends_panic].
    destruct (Error r); [apply extends_ret | apply extends_PollUntilQueryEnd]. }
  destruct Hrun as [rest Hrun].
  exists request, attachment, rest.
  split; [exact Hrun |]. split; [reflexivity |]. split; [reflexivity |].
  split; [reflexivity |]. split.
  - subst ff. destruct fileFormatOptions as [options | ]; [reflexivity |].
    eexists. split; [reflexivity |]. repeat split; reflexivity.
  - subst co. destruct copyOptions as [options | ]; [reflexivity |].
    eexists. split; reflexivity.
Qed.

End Lifecycle.

(** ** What a submission and a poll do to the client *)

Section ClientEffects.
Context `{Externals}.

Lemma applySessionState_effect resp w :
  exists w',
    applySessionState resp w = (Returns tt, w') /\
    QuerySeq (client w') = QuerySeq (client w) /\
    SessionID (client w') = SessionID (client w) /\
    rows (client w') = rows (client w) /\
    match payload resp with
    | Some raw =>
        sessionStateRaw (client w') = Some raw /\
        sessionState (client w') = json_Unmarshal_session raw (sessionState (client w))
    | None => client w' = client w
    end.
Proof.
  unfold applySessionState, payload. destruct resp as [r | ].
  - destruct (RespSession r) as [raw | ]; eexists; repeat split; reflexivity.
  - eexists; repeat split; reflexivity.
Qed.

Lemma trackStats_effect resp w :
  exists w', trackStats resp w = (Returns tt, w') /\ client w' = client w.
Proof.
  unfold trackStats, bind, getClient. destruct resp as [r | ].
  - destruct (Stats r); [destruct (statsTracker (client w)) |]; eexists; split; reflexivity.
  - eexists; split; reflexivity.
Qed.

Lemma DoRetry_doRequest_effect ctx method path req s t w :
  exists a w',
    DoRetry (fun s => doRequest ctx method path req s) s t w = (Returns a, w') /\
    client w' = client w.
Proof.
  destruct (DoRetry_runs (client w) (fun _ => True)
              (fun s => doRequest ctx method path req s)
              (fun s => doRequest_runs (client w) (fun _ => True) ctx (fun _ => I)
                          (fun _ _ => I) method path req s I)
              (fun _ => I) (fun _ => I) s t w eq_refl)
    as (a & w' & evs & E & C & _).
  exists a, w'. split; assumption.
Qed.

Lemma startQueryRequest_effect ctx request w :
  exists resp err w',
    startQueryRequest ctx request w = (Returns (resp, err), w') /\
    QuerySeq (client w') = wrap64 (QuerySeq (client w) + 1) /\
    SessionID (client w') = SessionID (client w) /\
    rows (client w') = option_map nextRows_Close (rows (client w)) /\
    (err = None ->
     match payload resp with
     | Some raw =>
         sessionStateRaw (client w') = Some raw /\
         sessionState (client w') = json_Unmarshal_session raw (sessionState (client w))
     | None => True
     end).
Proof.
  unfold startQueryRequest. unfold bind at 1.
  unfold NextQuery, bind at 1, getClient, putClient.
  match goal with |- context [bind (DoRetry ?f ?s ?t) _ ?w1] =>
    destruct (DoRetry_doRequest_effect ctx "POST" "/v1/query" (Some request) s t w1)
      as ([resp [e | ]] & w2 & E & C) end;
    unfold bind at 1; rewrite E; cbn [client] in C.
  - exists None, (Some (errors_Wrap e "failed to do query request")), w2.
    rewrite C.
    destruct (rows (client w)) eqn:R;
      cbn [rows QuerySeq SessionID set_QuerySeq set_rows option_map]; rewrite ?R;
      (repeat split; try reflexivity; try (intros Hn; discriminate Hn)).
  - destruct (applySessionState_effect resp w2) as (w3 & E3 & Q3 & S3 & R3 & P3).
    destruct (trackStats_effect resp w3) as (w4 & E4 & C4).
    unfold bind. rewrite E3, E4. exists resp, None, w4. rewrite C4, Q3, S3, R3, C.
    split; [reflexivity |].
    destruct (rows (client w)) eqn:R;
      cbn [rows QuerySeq SessionID set_QuerySeq set_rows option_map]; rewrite ?R;
      (repeat split; try reflexivity; intros _;
       destruct (payload resp); [| exact I]; destruct P3 as [P3 P3']; split;
       [exact P3 | rewrite P3', C; reflexivity]).
Qed.

Lemma PollQuery_effect ctx nextURI w :
  exists resp err w',
    PollQuery ctx nextURI w = (Returns (resp, err), w') /\
    QuerySeq (client w') = QuerySeq (client w) /\
    rows (client w') = rows (client w) /\
    (err = None ->
     match payload resp with
     | Some raw =>
         sessionStateRaw (client w') = Some raw /\
         sessionState (client w') = json_Unmarshal_session raw (sessionState (client w))
     | None => client w' = client w
     end).
Proof.
  unfold PollQuery.
  destruct (DoRetry_doRequest_effect ctx "GET" nextURI None (Some zeroResponse) Page w)
    as ([result err] & w2 & E & C).
  unfold bind at 1. rewrite E.
  destruct (applySessionState_effect result w2) as (w3 & E3 & Q3 & S3 & R3 & P3).
  destruct (trackStats_effect result w3) as (w4 & E4 & C4).
  unfold bind. rewrite E3, E4. rewrite C in Q3, R3, P3.
  destruct err as [e | ].
  - exists None, (Some (errors_Wrap e "failed to query page")), w4.
    rewrite C4. repeat split; try assumption; try (intros Hn; discriminate Hn).
  - exists result, None, w4. rewrite C4. repeat split; try assumption.
    intros _. destruct (payload result); [exact P3 | congruence].
Qed.

End ClientEffects.

(** ** Session state *)

(** C3: when [StartQuery], [startQueryRequest] (the submission of
    [InsertWithStage] too) or [PollQuery] returns a response with a session
    payload, the raw session state of the client is that payload, and its
    decoded session state is what [json.Unmarshal] makes of the payload;
    nothing is asked of the error field of the response. *)
Theorem session_state_follows_response `{Externals} (ctx : Context)
    (call : M (option QueryResponse * error)) (w w' : World)
    (resp : QueryResponse) (raw : RawMessage) :
  ((exists query args, call = StartQuery ctx query args) \/
   (exists request, call = startQueryRequest ctx request) \/
   (exists nextURI, call = PollQuery ctx nextURI)) ->
  call w = (Returns (Some resp, None), w') ->
  RespSession resp = Some raw ->
  getSessionStateRaw (client w') = Some raw /\
  getSessionState (client w') = json_Unmarshal_session raw (getSessionState (client w)).
Proof.
  unfold getSessionStateRaw, getSessionState.
  intros [(query & args & ->) | [(request & ->) | (nextURI & ->)]] Hcall Hraw.
  - unfold StartQuery in Hcall.
    destruct (buildQuery query args) as [q [e | ]]; [discriminate Hcall |].
    unfold bind, getClient in Hcall. cbv beta in Hcall.
    match type of Hcall with startQueryRequest _ ?request _ = _ =>
      destruct (startQueryRequest_effect ctx request w)
        as (resp' & err & w'' & E & _ & _ & _ & Hs) end.
    rewrite E in Hcall. injection Hcall as -> -> ->.
    specialize (Hs eq_refl). simpl in Hs. rewrite Hraw in Hs. exact Hs.
  - destruct (startQueryRequest_effect ctx request w)
      as (resp' & err & w'' & E & _ & _ & _ & Hs).
    rewrite E in Hcall. injection Hcall as -> -> ->.
    specialize (Hs eq_refl). simpl in Hs. rewrite Hraw in Hs. exact Hs.
  - destruct (PollQuery_effect ctx nextURI w) as (resp' & err & w'' & E & _ & _ & Hs).
    rewrite E in Hcall. injection Hcall as -> -> ->.
    specialize (Hs eq_refl). simpl in Hs. rewrite Hraw in Hs. exact Hs.
Qed.

(** A COMMIT that fails: the response carries an error and a session
    payload, and the client holds that payload afterwards. *)
Lemma session_state_follows_response_witness :
  ((exists query args,
      @StartQuery Sample.externals Background "COMMIT" []
      = @StartQuery Sample.externals Background query args) \/
   (exists request,
      @StartQuery Sample.externals Background "COMMIT" []
      = @startQueryRequest Sample.externals Background request) \/
   (exists nextURI,
      @StartQuery Sample.externals Background "COMMIT" []
      = @PollQuery Sample.externals Background nextURI)) /\
  @StartQuery Sample.externals Background "COMMIT" [] Sample.failedCommitWorld
  = (Returns (Some Sample.failedCommit, None),
     snd (@StartQuery Sample.externals Background "COMMIT" [] Sample.failedCommitWorld)) /\
  RespSession Sample.failedCommit = Some "{txn_state:Fail}" /\
  Error Sample.failedCommit = Some {| Code := 4002; Message := "commit failed" |} /\
  getSessionStateRaw
    (client (snd (@StartQuery Sample.externals Background "COMMIT" []
                    Sample.failedCommitWorld)))
  = Some "{txn_state:Fail}".
Proof.
  assert (H1 : (exists query args,
      @StartQuery Sample.externals Background "COMMIT" []
      = @StartQuery Sample.externals Background query args) \/
   (exists request,
      @StartQuery Sample.externals Background "COMMIT" []
      = @startQueryRequest Sample.externals Background request) \/
   (exists nextURI,
      @StartQuery Sample.externals Background "COMMIT" []
      = @PollQuery Sample.externals Background nextURI)).
  { left. exists "COMMIT", []. reflexivity. }
  assert (H2 : @StartQuery Sample.externals Background "COMMIT" [] Sample.failedCommitWorld
    = (Returns (Some Sample.failedCommit, None),
       snd (@StartQuery Sample.externals Background "COMMIT" [] Sample.failedCommitWorld))).
  { vm_compute. reflexivity. }
  split; [exact H1 |]. split; [exact H2 |]. split; [reflexivity |]. split; [reflexivity |].
  exact (proj1 (@session_state_follows_response Sample.externals Background _ _ _ _ _
                  H1 H2 eq_refl)).
Defined.

(** ** The query sequence *)

Lemma wrap64_in_range z : (MinInt64 <= z <= MaxInt64)%Z -> wrap64 z = z.
Proof.
  unfold wrap64, MinInt64, MaxInt64. intros Hz.
  rewrite Z.mod_small; lia.
Qed.

(** C8, as stated, fails: the sequence is an int64, and the submission
    after number 9223372036854775807 gets a smaller number. *)
Lemma query_sequence_wraps_around :
  QuerySeq (client Sample.lastSequenceWorld) = 9223372036854775807%Z /\
  GetQueryID
    (client (snd (@startQueryRequest Sample.externals Background Sample.selectOne
                    Sample.lastSequenceWorld)))
  = "s.-9223372036854775808" /\
  (QuerySeq
     (client (snd (@startQueryRequest Sample.externals Background Sample.selectOne
                     Sample.lastSequenceWorld)))
   < QuerySeq (client Sample.lastSequenceWorld))%Z.
Proof. vm_compute. repeat split. Qed.

(** C8, amended: as long as the sequence has not reached the largest
    int64, a submission returns with the sequence one higher, so that the
    numeric suffix of the query id is the old one plus one, and with the
    cursor of the client, if it has one, closed. *)
Theorem submission_advances_sequence `{Externals} (ctx : Context) (request : QueryRequest)
    (w : World) :
  (MinInt64 <= QuerySeq (client w) < MaxInt64)%Z ->
  exists resp err w',
    startQueryRequest ctx request w = (Returns (resp, err), w') /\
    QuerySeq (client w') = (QuerySeq (client w) + 1)%Z /\
    (QuerySeq (client w) < QuerySeq (client w'))%Z /\
    GetQueryID (client w')
      = SessionID (client w) +:+ "." +:+ fmt_d (QuerySeq (client w) + 1) /\
    rows (client w') = option_map nextRows_Close (rows (client w)) /\
    (forall cursor, rows (client w') = Some cursor -> isClosed cursor = true).
Proof.
  intros Hrange.
  destruct (startQueryRequest_effect ctx request w)
    as (resp & err & w' & E & Q & S & R & _).
  rewrite wrap64_in_range in Q by (unfold MinInt64, MaxInt64 in *; lia).
  exists resp, err, w'. split; [exact E |]. split; [exact Q |]. split; [lia |].
  split; [unfold GetQueryID; rewrite Q, S; reflexivity |]. split; [exact R |].
  intros cursor Hc. rewrite R in Hc. destruct (rows (client w)); [| discriminate Hc].
  injection Hc as <-. reflexivity.
Qed.

(** The first submission of a fresh client gets number 1. *)
Lemma submission_advances_sequence_witness :
  (MinInt64 <= QuerySeq (client Sample.failedCommitWorld) < MaxInt64)%Z /\
  exists resp err w',
    @startQueryRequest Sample.externals Background Sample.selectOne Sample.failedCommitWorld
      = (Returns (resp, err), w') /\
    QuerySeq (client w') = 1%Z /\
    GetQueryID (client w') = "s.1".
Proof.
  assert (Hr : (MinInt64 <= QuerySeq (client Sample.failedCommitWorld) < MaxInt64)%Z).
  { vm_compute. split; [discriminate | reflexivity]. }
  split; [exact Hr |].
  destruct (@submission_advances_sequence Sample.externals Background Sample.selectOne
              Sample.failedCommitWorld Hr) as (resp & err & w' & E & Q & _ & G & _).
  exists resp, err, w'. split; [exact E |]. split; [exact Q | exact G].
Defined.

(** A series of submissions that stays below the largest int64 gets the
    numbers that follow the one the client had, one by one. *)
Lemma submit_all_counts_up `{Externals} (reqs : list (Context * QueryRequest)) :
  forall w,
    (MinInt64 <= QuerySeq (client w))%Z ->
    (QuerySeq (client w) + Z.of_nat (length reqs) <= MaxInt64)%Z ->
    submit_all reqs w = count_from (QuerySeq (client w)) (length reqs).
Proof.
  induction reqs as [ | [ctx request] reqs IH]; intros w Hmin Hmax; [reflexivity |].
  cbn [submit_all count_from length].
  destruct (startQueryRequest_effect ctx request w)
    as (resp & err & w' & E & Q & _). rewrite E. cbn [snd].
  cbn [length] in Hmax.
  rewrite wrap64_in_range in Q by (unfold MinInt64, MaxInt64 in *; lia).
  rewrite IH by (rewrite Q; unfold MinInt64, MaxInt64 in *; lia).
  rewrite Q. reflexivity.
Qed.

(** ** Polling *)

Lemma fetched_app tr1 tr2 : fetched (tr1 ++ tr2) = (fetched tr1 ++ fetched tr2)%list.
Proof.
  induction tr1 as [ | e tr1 IH]; [reflexivity |].
  destruct e; simpl; try exact IH.
  destruct (String.eqb method "GET"); simpl; rewrite IH; reflexivity.
Qed.

Section Polling.
Context `{Externals}.

(** A finished response ends the polling at once: it is returned as it is,
    and nothing is fetched. *)
Lemma PollUntilQueryEnd_finished fuel ctx r w :
  ReadFinished r = true ->
  PollUntilQueryEnd fuel ctx (Some r) w = (Returns (Some r, None), w).
Proof. intros Hf. destruct fuel; simpl; rewrite Hf; reflexivity. Qed.

(** After a page without error the loop goes on with the response it was
    given, not with the page. *)
Lemma PollUntilQueryEnd_step fuel ctx r w inner w1 :
  ReadFinished r = false ->
  PollQuery ctx (NextURI r) w = (Returns (Some inner, None), w1) ->
  Error inner = None ->
  PollUntilQueryEnd (S fuel) ctx (Some r) w = PollUntilQueryEnd fuel ctx (Some r) w1.
Proof.
  intros Hf Hp He. cbn [PollUntilQueryEnd]. rewrite Hf. cbn [negb].
  unfold bind. rewrite Hp, He. reflexivity.
Qed.

(** So the only response the loop ever returns is a finished one it was
    given. *)
Lemma PollUntilQueryEnd_returns_its_argument fuel : forall ctx r w resp' w',
  PollUntilQueryEnd fuel ctx (Some r) w = (Returns (resp', None), w') ->
  ReadFinished r = true /\ resp' = Some r /\ w' = w.
Proof.
  induction fuel as [ | fuel IH]; intros ctx r w resp' w' Hrun;
    cbn [PollUntilQueryEnd] in Hrun; destruct (ReadFinished r) eqn:Hf; cbn [negb] in Hrun;
    try (injection Hrun as <- <-; auto); try discriminate Hrun.
  unfold bind in Hrun.
  destruct (PollQuery ctx (NextURI r) w) as [[[[inner | ] [e | ]] | msg | ] w1];
    try discriminate Hrun.
  destruct (Error inner); [discriminate Hrun |].
  apply IH in Hrun. destruct Hrun as [Hfin _]. congruence.
Qed.

End Polling.

(** One poll of the sample server, from any past of the paging client. *)
Lemma paging_step n l tr :
  exists r,
    @PollQuery Sample.externals Background "/v1/query/q1/page/1" (Sample.pagingWorldAt n l tr)
    = (Returns (Some Sample.lastPage, None),
       Sample.pagingWorldAt (S n) l
         (((tr ++ [EvAttempt 0])
               ++ [EvDoRequest Background "GET" "/v1/query/q1/page/1" None])
               ++ [EvSend r])%list).
Proof. eexists. vm_compute. reflexivity. Qed.

(** However much fuel the loop is given, it uses it all on the same URI. *)
Lemma paging_never_ends fuel : forall n l tr,
  exists w',
    @PollUntilQueryEnd Sample.externals fuel Background (Some Sample.firstPage)
      (Sample.pagingWorldAt n l tr) = (OutOfFuel, w') /\
    fetched (trace w') = (fetched tr ++ repeat "/v1/query/q1/page/1" fuel)%list.
Proof.
  induction fuel as [ | fuel IH]; intros n l tr.
  - eexists. split; [reflexivity |]. simpl. rewrite app_nil_r. reflexivity.
  - destruct (paging_step n l tr) as [r Hstep].
    rewrite (@PollUntilQueryEnd_step Sample.externals fuel Background Sample.firstPage
               _ Sample.lastPage _ eq_refl Hstep eq_refl).
    match goal with |- context [Sample.pagingWorldAt ?n' ?l' ?tr'] =>
      destruct (IH n' l' tr') as (w' & E & F) end.
    exists w'. split; [exact E |]. rewrite F. rewrite !fetched_app. simpl.
    rewrite <- !app_assoc. reflexivity.
Qed.

(** C1 on the code: the response asks for one more page and the server
    answers every poll with the last page, without error and without a
    continuation; all the same the loop fetches the same continuation URI
    again and again, as often as it is given fuel, and never returns. *)
Theorem PollUntilQueryEnd_refetches_the_same_page (fuel : nat) :
  ReadFinished Sample.firstPage = false /\
  ReadFinished Sample.lastPage = true /\
  fst (@PollUntilQueryEnd Sample.externals fuel Background (Some Sample.firstPage)
         Sample.pagingWorld) = OutOfFuel /\
  fetched (trace (snd (@PollUntilQueryEnd Sample.externals fuel Background
                         (Some Sample.firstPage) Sample.pagingWorld)))
  = repeat "/v1/query/q1/page/1" fuel.
Proof.
  split; [reflexivity |]. split; [reflexivity |].
  destruct (paging_never_ends fuel 0 0 []) as (w' & E & F).
  change (Sample.pagingWorldAt 0 0 []) with Sample.pagingWorld in E.
  rewrite E. split; [reflexivity | exact F].
Qed.

(** ** The presigned upload descriptor *)

(** A first row of exactly two columns passes the check of
    [GetPresignedURL], and the read of the third column panics. *)
Lemma GetPresignedURL_third_column `{Externals} fuel ctx stage w resp w1 a b rest :
  QuerySync fuel ctx ("PRESIGN UPLOAD " +:+ StageLocation_String stage) [] w
    = (Returns (Some resp, None), w1) ->
  Data resp = [a; b] :: rest ->
  GetPresignedURL fuel ctx stage w
    = (Panics "runtime error: index out of range [2] with length 2", w1).
Proof.
  intros Hq Hd. unfold GetPresignedURL. unfold bind at 1. rewrite Hq, Hd. reflexivity.
Qed.

(** C4 on the code: the server answers PRESIGN UPLOAD with one row of two
    columns; the check lets it through and the call panics on the third
    column. *)
Theorem GetPresignedURL_panics_on_two_columns :
  Data Sample.presignTwoColumns = [["PUT"; "{}"]] /\
  fst (@QuerySync Sample.externals 1 Background
         ("PRESIGN UPLOAD " +:+ StageLocation_String Sample.stage) [] Sample.presignWorld)
  = Returns (Some Sample.presignTwoColumns, None) /\
  fst (@GetPresignedURL Sample.externals 1 Background Sample.stage Sample.presignWorld)
  = Panics "runtime error: index out of range [2] with length 2".
Proof. vm_compute. repeat split. Qed.

(** ** The user agent *)

(** Whatever the context carries, the headers that [makeHeaders] returns
    have the plain user agent: the second [Set] overwrites the first. *)
Lemma makeHeaders_user_agent `{Externals} ctx w hs err w' :
  makeHeaders ctx w = (Returns (Some hs, err), w') ->
  Header_Get hs UserAgent = Some ("databend-go/" +:+ version).
Proof.
  unfold makeHeaders, bind, getClient. cbv zeta.
  destruct (authMethod (client w)).
  - intros Hm. injection Hm as <- _ _.
    destruct (ctx_string ctx ContextUserAgentID), (negb (tenant (client w) =? EmptyString)),
      (negb (warehouse (client w) =? EmptyString)), (ctx_string ctx ContextKeyQueryID);
      reflexivity.
  - destruct (LoadAccessToken false w) as [[[tok [e | ]] | msg | ] w1];
      intros Hm; try discriminate Hm. injection Hm as <- _ _.
    destruct (ctx_string ctx ContextUserAgentID), (negb (tenant (client w) =? EmptyString)),
      (negb (warehouse (client w) =? EmptyString)), (ctx_string ctx ContextKeyQueryID);
      reflexivity.
  - intros Hm. discriminate Hm.
Qed.

(** C5 on the code: the context carries the agent tag "myapp", and the
    user agent of the headers is the plain driver name and version, without
    the tag. *)
Theorem makeHeaders_loses_the_agent_tag :
  ctx_string Sample.taggedContext ContextUserAgentID = Some "myapp" /\
  exists hs w',
    @makeHeaders Sample.externals Sample.taggedContext Sample.presignWorld
      = (Returns (Some hs, None), w') /\
    Header_Get hs UserAgent = Some "databend-go/0.5.3" /\
    strings_Contains "databend-go/0.5.3" "myapp" = false.
Proof.
  split; [reflexivity |]. eexists _, _. split; [reflexivity |]. split; reflexivity.
Qed.

(** ** Unauthorized replies *)

Section Unauthorized.
Context `{Externals}.

(** What [makeHeaders] returns under each authentication method. *)
Lemma makeHeaders_basic ctx w :
  authMethod (client w) = AuthMethodUserPassword ->
  exists hs, makeHeaders ctx w = (Returns (Some hs, None), w).
Proof.
  intros Ha. unfold makeHeaders, bind, getClient. rewrite Ha. eexists. reflexivity.
Qed.

Lemma makeHeaders_none ctx w :
  authMethod (client w) = AuthMethodNone ->
  makeHeaders ctx w
  = (Returns (None, Some (EText "no user password or access token")), w).
Proof.
  intros Ha. unfold makeHeaders, bind, getClient. rewrite Ha. reflexivity.
Qed.

Lemma makeHeaders_bearer ctx w loader :
  authMethod (client w) = AuthMethodAccessToken ->
  accessTokenLoader (client w) = Some loader ->
  exists hs,
    makeHeaders ctx w
    = (Returns (match snd (loader (loads w) false) with
                | Some e => (None, Some (errors_Wrap e "failed to load access token"))
                | None => (Some hs, None)
                end),
       {| client := client w; sent := sent w; loads := S (loads w);
          trace := trace w ++ [EvLoadToken false] |}).
Proof.
  intros Ha Hl. unfold makeHeaders, bind, getClient, LoadAccessToken. rewrite Ha, Hl.
  destruct (loader (loads w) false) as [tok [e | ]];
    [exists Header_empty; reflexivity | eexists; reflexivity].
Qed.

(** C6: [doRequest] gets status 401 for its first request.  With a user
    and a password it returns at once the authorization failure with the
    status and the body, having sent one request and loaded no token.
    With a token loader it forces one reload of the token and starts one
    more attempt: that attempt loads the token and, if that works, sends
    one more request; whatever comes of it nothing more is loaded or sent,
    and a second 401 is returned as the authorization failure with its
    status and body. *)
Theorem doRequest_unauthorized (ctx : Context) (method path : string)
    (req : option QueryRequest) (resp : option QueryResponse) (w : World)
    (ctype body : string) :
  doRequestFunc (client w) = None ->
  snd (match req with Some r => json_Marshal r | None => (EmptyString, None) end) = None ->
  http_NewRequest_err method (makeURL (client w) path) = None ->
  (forall r, cli (client w) (sent w) r = Replies StatusUnauthorized ctype body) ->
  match authMethod (client w) with
  | AuthMethodUserPassword =>
      exists r1 w',
        doRequest ctx method path req resp w
          = (Returns (resp, Some (NewAPIError "authorization failed" StatusUnauthorized body)),
             w') /\
        trace w' = (trace w ++ [EvDoRequest ctx method path req; EvSend r1])%list
  | AuthMethodAccessToken =>
      forall loader,
        accessTokenLoader (client w) = Some loader ->
        snd (loader (loads w) false) = None ->
        exists r1 out w',
          doRequest ctx method path req resp w = (out, w') /\
          match snd (loader (S (S (loads w))) false) with
          | Some e =>
              out = Returns (resp,
                      Some (errors_Wrap (errors_Wrap e "failed to load access token")
                              "failed to make request headers")) /\
              trace w' = (trace w ++
                          [EvDoRequest ctx method path req; EvLoadToken false; EvSend r1;
                           EvLoadToken true; EvLoadToken false])%list
          | None =>
              exists r2,
                trace w' = (trace w ++
                            [EvDoRequest ctx method path req; EvLoadToken false; EvSend r1;
                             EvLoadToken true; EvLoadToken false; EvSend r2])%list /\
                forall ctype2 body2,
                  cli (client w) (S (sent w)) r2 = Replies StatusUnauthorized ctype2 body2 ->
                  out = Returns (resp, Some (NewAPIError "authorization failed"
                                               StatusUnauthorized body2))
          end
  | AuthMethodNone =>
      exists w',
        doRequest ctx method path req resp w
          = (Returns (resp, Some (errors_Wrap (EText "no user password or access token")
                                    "failed to make request headers")), w') /\
        trace w' = (trace w ++ [EvDoRequest ctx method path req])%list
  end.
Proof.
  intros Hmock Hbody Hreq H401.
  destruct (match req with Some r => json_Marshal r | None => (EmptyString, None) end)
    as [reqBody err] eqn:Hmarshal. simpl in Hbody. subst err.
  destruct (authMethod (client w)) eqn:Ha; [| intros loader Hl Htok |];
    unfold doRequest, doRequest_body; unfold bind at 1; unfold emit at 1;
    unfold bind at 1; unfold getClient at 1; cbn [client]; rewrite Hmock, Hmarshal, Hreq;
    change (Z.to_nat maxRetries) with 2%nat; cbn [doRequest_loop];
    change (1 <=? maxRetries)%Z with true; cbv iota;
    match goal with |- context [bind (makeHeaders ctx) _ ?w0] => set (w0' := w0) end.
  - destruct (makeHeaders_basic ctx w0' Ha) as [hs Hm].
    unfold bind at 1. rewrite Hm. cbv iota beta.
    unfold bind at 1. unfold getClient at 1. unfold bind at 1. unfold cli_Do at 1.
    subst w0'. cbn [client sent trace]. rewrite H401.
    change (StatusUnauthorized =? StatusUnauthorized)%Z with true. cbv iota. rewrite Ha.
    eexists _, _. split; [reflexivity |].
    cbn [trace]. rewrite <- app_assoc. reflexivity.
  - destruct (makeHeaders_bearer ctx w0' loader Ha Hl) as [hs Hm].
    unfold bind at 1. rewrite Hm. subst w0'. cbn [client sent loads trace].
    rewrite Htok. cbv iota beta.
    unfold bind at 1. unfold getClient at 1. unfold bind at 1. unfold cli_Do at 1.
    cbn [client sent loads trace]. rewrite H401.
    change (StatusUnauthorized =? StatusUnauthorized)%Z with true. cbv iota. rewrite Ha.
    change (1 <? maxRetries)%Z with true. cbv iota.
    unfold bind at 1. unfold LoadAccessToken at 1. cbn [client sent loads trace].
    rewrite Hl. cbn [doRequest_loop]. change (1 + 1 <=? maxRetries)%Z with true. cbv iota.
    match goal with |- context [bind (makeHeaders ctx) _ ?w3] => set (w3' := w3) end.
    destruct (makeHeaders_bearer ctx w3' loader Ha Hl) as [hs2 Hm2].
    unfold bind at 1. rewrite Hm2. subst w3'. cbn [client sent loads trace].
    destruct (snd (loader (S (S (loads w))) false)) as [e | ].
    + eexists _, _, _. split; [reflexivity |]. split; [reflexivity |].
      cbn [trace]. rewrite <- !app_assoc. reflexivity.
    + cbv iota beta.
      unfold bind at 1. unfold getClient at 1. unfold bind at 1. unfold cli_Do at 1.
      cbn [client sent loads trace].
      match goal with |- context [cli (client w) (S (sent w)) ?r] =>
        set (r2 := r);
        destruct (cli (client w) (S (sent w)) r2) as [msg | st msg | status ctype2 body2]
          eqn:Hout
      end.
      * eexists _, _, _. split; [reflexivity |]. exists r2. split.
        -- cbn [trace]. rewrite <- !app_assoc. reflexivity.
        -- intros ct b Hx. rewrite Hout in Hx. discriminate Hx.
      * eexists _, _, _. split; [reflexivity |]. exists r2. split.
        -- cbn [trace]. rewrite <- !app_assoc. reflexivity.
        -- intros ct b Hx. rewrite Hout in Hx. discriminate Hx.
      * destruct (status =? StatusUnauthorized)%Z eqn:Hs.
        -- rewrite Ha. change (1 + 1 <? maxRetries)%Z with false. cbv iota.
           eexists _, _, _. split; [reflexivity |]. exists r2. split.
           ++ cbn [trace]. rewrite <- !app_assoc. reflexivity.
           ++ intros ct b Hx. rewrite Hout in Hx. injection Hx as -> _ ->. reflexivity.
        -- assert (Hne : forall ct b,
                      Replies status ctype2 body2 = Replies StatusUnauthorized ct b -> False).
           { intros ct b Hx. injection Hx as -> _ _. rewrite Z.eqb_refl in Hs. discriminate Hs. }
           destruct (500 <=? status)%Z;
             [| destruct (400 <=? status)%Z;
                [| destruct (negb (status =? 200)%Z);
                   [| destruct resp as [r | ];
                      [destruct (strings_HasPrefix ctype2 "application/json");
                       [destruct (json_Unmarshal_response body2 r) as [r' [e | ]] |] |]]]];
             (eexists _, _, _; split; [reflexivity |]; exists r2; split;
              [cbn [trace]; rewrite <- !app_assoc; reflexivity
              | intros ct b Hx; rewrite Hout in Hx; destruct (Hne ct b Hx)]).
  - unfold bind at 1. rewrite (makeHeaders_none ctx w0' Ha). cbv iota beta.
    eexists. split; reflexivity.
Qed.

End Unauthorized.

(** A token that the server keeps rejecting: one forced reload, two
    requests, and the authorization failure of the second reply. *)
Lemma doRequest_unauthorized_witness :
  doRequestFunc (client Sample.expiredTokenWorld) = None /\
  @http_NewRequest_err Sample.externals "GET"
    (@makeURL Sample.externals (client Sample.expiredTokenWorld) "/v1/query/q1/page/1")
  = None /\
  (forall r, cli (client Sample.expiredTokenWorld) (sent Sample.expiredTokenWorld) r
             = Replies StatusUnauthorized "text/plain" "token expired") /\
  exists r1 r2 w',
    @doRequest Sample.externals Background "GET" "/v1/query/q1/page/1" None None
      Sample.expiredTokenWorld
    = (Returns (None, Some (NewAPIError "authorization failed" StatusUnauthorized
                              "token expired")), w') /\
    trace w'
    = [EvDoRequest Background "GET" "/v1/query/q1/page/1" None; EvLoadToken false;
       EvSend r1; EvLoadToken true; EvLoadToken false; EvSend r2].
Proof.
  split; [reflexivity |]. split; [reflexivity |]. split; [intros r; reflexivity |].
  destruct (@doRequest_unauthorized Sample.externals Background "GET"
              "/v1/query/q1/page/1" None None Sample.expiredTokenWorld
              "text/plain" "token expired" eq_refl eq_refl eq_refl (fun r => eq_refl)
              _ eq_refl eq_refl)
    as (r1 & out & w' & E & r2 & T & Hout).
  exists r1, r2, w'. split; [| exact T].
  rewrite E. rewrite (Hout "text/plain" "token expired" eq_refl). reflexivity.
Defined.

(** With a user and a password the first 401 is final: one request, no
    token load. *)
Example doRequest_wrong_password :
  exists r1 w',
    @doRequest Sample.externals Background "GET" "/v1/query/q1/page/1" None None
      Sample.wrongPasswordWorld
    = (Returns (None, Some (NewAPIError "authorization failed" StatusUnauthorized
                              "token expired")), w') /\
    trace w' = [EvDoRequest Background "GET" "/v1/query/q1/page/1" None; EvSend r1].
Proof. eexists _, _. vm_compute. split; reflexivity. Qed.

(** * Further properties *)

(** ** Counting what a run sends *)

Lemma sends_app tr1 tr2 : sends (tr1 ++ tr2) = (sends tr1 ++ sends tr2)%list.
Proof.
  induction tr1 as [ | e tr1 IH]; [reflexivity |].
  destruct e; simpl; rewrite ?IH; reflexivity.
Qed.

Lemma count_forced_app tr1 tr2 :
  count_forced (tr1 ++ tr2) = (count_forced tr1 + count_forced tr2)%nat.
Proof.
  induction tr1 as [ | e tr1 IH]; [reflexivity |].
  destruct e as [ | [ | ] | | | | ]; simpl; rewrite ?IH; reflexivity.
Qed.

Lemma count_loads_app tr1 tr2 :
  count_loads (tr1 ++ tr2) = (count_loads tr1 + count_loads tr2)%nat.
Proof.
  induction tr1 as [ | e tr1 IH]; [reflexivity |].
  destruct e as [ | [ | ] | | | | ]; simpl; rewrite ?IH; reflexivity.
Qed.

Section Within.
Context {A B : Type} (c : APIClient) (P : Event -> Prop).

Lemma within_ret (Q : A -> Prop) (a : A) : Q a -> runs_within c 0 0 P Q (ret a).
Proof.
  intros HQ w Hw. exists a, w, []. rewrite app_nil_r. simpl.
  repeat split; simpl; auto; try lia.
Qed.

Lemma within_bind n1 f1 n2 f2 (Q1 : A -> Prop) (Q2 : B -> Prop) (m : M A) (k : A -> M B) :
  runs_within c n1 f1 P Q1 m ->
  (forall a, Q1 a -> runs_within c n2 f2 P Q2 (k a)) ->
  runs_within c (n1 + n2) (f1 + f2) P Q2 (bind m k).
Proof.
  intros Hm Hk w Hw.
  destruct (Hm w Hw) as (a & w1 & evs1 & E1 & C1 & T1 & F1 & HQ1 & N1 & R1 & S1).
  destruct (Hk a HQ1 w1 C1) as (b & w2 & evs2 & E2 & C2 & T2 & F2 & HQ2 & N2 & R2 & S2).
  exists b, w2, (evs1 ++ evs2)%list. unfold bind. rewrite E1, E2.
  rewrite sends_app, count_forced_app, length_app.
  repeat split; simpl; auto; try lia.
  - rewrite T2, T1. symmetry. apply app_assoc.
  - apply Forall_app. split; assumption.
Qed.

Lemma within_weaken n f n' f' (Q Q' : A -> Prop) (m : M A) :
  runs_within c n f P Q m -> (n <= n')%nat -> (f <= f')%nat ->
  (forall a, Q a -> Q' a) -> runs_within c n' f' P Q' m.
Proof.
  intros Hm Hn Hf HQ w Hw.
  destruct (Hm w Hw) as (a & w1 & evs1 & E1 & C1 & T1 & F1 & HQ1 & N1 & R1 & S1).
  exists a, w1, evs1. repeat split; simpl; auto; try lia.
Qed.

End Within.

Lemma within_getClient c P : runs_within c 0 0 P (fun x => x = c) getClient.
Proof.
  intros w Hw. exists (client w), w, []. rewrite app_nil_r. simpl.
  repeat split; simpl; auto; try lia.
Qed.

Lemma within_cli_Do c P r : P (EvSend r) -> runs_within c 1 0 P (fun _ => True) (cli_Do r).
Proof.
  intros HP w Hw. eexists _, _, [EvSend r]. unfold cli_Do. simpl.
  repeat split; simpl; auto; try lia.
Qed.

Lemma within_LoadAccessToken c P loader b :
  accessTokenLoader c = Some loader -> P (EvLoadToken b) ->
  runs_within c 0 (if b then 1 else 0) P (fun r => exists n, r = loader n b)
    (LoadAccessToken b).
Proof.
  intros Hl HP w Hw. unfold LoadAccessToken. rewrite Hw, Hl.
  eexists _, _, [EvLoadToken b]. simpl.
  repeat split; simpl; eauto; destruct b; simpl; try lia.
Qed.

Lemma within_emit c P e :
  P e -> sends [e] = [] -> count_forced [e] = O ->
  runs_within c 0 0 P (fun _ => True) (emit e).
Proof.
  intros HP Hs Hf w Hw. eexists tt, _, [e]. unfold emit. rewrite Hs, Hf. simpl.
  repeat split; simpl; auto; try lia.
Qed.

(** ** The requests of the executor *)

Lemma empty_length s : (0 <? Z.of_nat (String.length s))%Z = false -> s = EmptyString.
Proof. destruct s; [reflexivity |]. simpl. intros Hl. apply Z.ltb_ge in Hl. lia. Qed.

Section ExecutorWithin.
Context `{Externals}.
Variable c : APIClient.
Variable P : Event -> Prop.
Variable ctx : Context.
Variables method url body : string.
Hypothesis P_load : forall b, P (EvLoadToken b).
Hypothesis P_send : forall r, well_formed c ctx method url body r -> P (EvSend r).

Ltac header_facts :=
  unfold headers_of, expected_query_id, Header_Get;
  destruct (ctx_string ctx ContextUserAgentID), (String.eqb (tenant c) EmptyString),
    (String.eqb (warehouse c) EmptyString), (ctx_string ctx ContextKeyQueryID);
  cbn [negb]; repeat split; try reflexivity.

Lemma makeHeaders_within :
  runs_within c 0 0 P
    (fun r => r <> (None, None) /\ forall hs, fst r = Some hs -> headers_of c ctx hs)
    (makeHeaders ctx).
Proof.
  unfold makeHeaders.
  apply (within_bind c P 0 0 0 0 (fun x => x = c)); [apply within_getClient |].
  intros c' ->. cbv zeta. destruct (authMethod c) eqn:Ha.
  - apply within_ret. split; [discriminate |]. intros hs Hhs. injection Hhs as <-.
    header_facts; (eexists; split; [reflexivity |]; unfold authorization_of; rewrite Ha;
                   reflexivity).
  - destruct (authMethod_token c Ha) as [loader Hl].
    apply (within_bind c P 0 0 0 0 (fun r => exists n, r = loader n false));
      [exact (within_LoadAccessToken c P loader false Hl (P_load false)) |].
    intros [tok [e | ]] [n Hn]; apply within_ret.
    + split; [discriminate |]. intros hs Hhs. discriminate Hhs.
    + split; [discriminate |]. intros hs Hhs. injection Hhs as <-.
      header_facts; (eexists; split; [reflexivity |]; unfold authorization_of; rewrite Ha;
                     exists loader, n, tok; auto).
  - apply within_ret. split; [discriminate |]. intros hs Hhs. discriminate Hhs.
Qed.

Lemma doRequest_loop_within fuel : forall i httpReq resp,
  reqMethod httpReq = method -> reqURL httpReq = url -> reqBody httpReq = body ->
  reqCtx httpReq = ctx ->
  reqHost httpReq = EmptyString \/ reqHost httpReq = host c ->
  (Z.to_nat (maxRetries + 1 - i) <= fuel)%nat ->
  runs_within c (Z.to_nat (maxRetries + 1 - i)) (Z.to_nat (maxRetries - i)) P
    (fun r => fst r = None <-> resp = None) (doRequest_loop fuel i ctx httpReq resp).
Proof.
  induction fuel as [ | fuel IH]; intros i httpReq resp Hm Hu Hb Hctx Hhost Hfuel; simpl;
    destruct (i <=? maxRetries)%Z eqn:Hi;
    try (eapply within_weaken with (Q := fun r => fst r = None <-> resp = None);
         [apply within_ret; reflexivity | lia | lia | auto]).
  - apply Z.leb_le in Hi. unfold maxRetries in *. lia.
  - apply Z.leb_le in Hi.
    assert (Hret : forall x : option QueryResponse * error,
               (fst x = None <-> resp = None) ->
               runs_within c (Z.to_nat (maxRetries - i)) (Z.to_nat (maxRetries - i)) P
                 (fun r => fst r = None <-> resp = None) (ret x)).
    { intros x Hx. eapply within_weaken with (Q := fun r => fst r = None <-> resp = None);
        [apply within_ret; exact Hx | lia | lia | auto]. }
    eapply within_weaken with (Q := fun r => fst r = None <-> resp = None)
                              (n := (0 + (0 + (1 + Z.to_nat (maxRetries - i))))%nat)
                              (f := (0 + (0 + (0 + Z.to_nat (maxRetries - i))))%nat);
      [| unfold maxRetries in *; lia | unfold maxRetries in *; lia | auto].
    eapply within_bind; [apply makeHeaders_within |].
    intros [[headers | ] [e | ]] [Hne Hhs]; cbv beta iota;
      [eapply within_weaken with (Q := fun r => fst r = None <-> resp = None);
         [apply within_ret; reflexivity | lia | lia | auto]
      | | eapply within_weaken with (Q := fun r => fst r = None <-> resp = None);
            [apply within_ret; reflexivity | lia | lia | auto]
      | now contradiction Hne].
    specialize (Hhs headers eq_refl).
    apply (within_bind c P 0 0 _ _ (fun x => x = c)); [apply within_getClient |].
    intros c' ->.
    apply (within_bind c P 1 0 _ _ (fun _ => True)).
    { apply within_cli_Do. apply P_send.
      unfold well_formed. cbn [reqMethod reqURL reqBody reqCtx reqHost reqHeader].
      refine (conj Hm (conj Hu (conj Hb (conj Hctx (conj _ (conj eq_refl (conj eq_refl _))))))).
      - destruct (0 <? Z.of_nat (String.length (host c)))%Z eqn:Hl; [reflexivity |].
        destruct Hhost as [-> | ->]; [| reflexivity].
        symmetry. apply empty_length. exact Hl.
      - destruct Hhs as (H1 & H2 & H3 & H4 & H5 & H6).
        unfold headers_of, Header_Get in *. repeat split; assumption. }
    intros [msg | st msg | status ctype rbody] _; try (apply Hret; reflexivity).
    destruct (status =? StatusUnauthorized)%Z.
    + destruct (authMethod c) eqn:Ha; try (apply Hret; reflexivity).
      destruct (i <? maxRetries)%Z eqn:Hlt; [| apply Hret; reflexivity].
      apply Z.ltb_lt in Hlt.
      destruct (authMethod_token c Ha) as [loader Hl].
      eapply within_weaken with (Q := fun r => fst r = None <-> resp = None)
                                (n := (0 + Z.to_nat (maxRetries + 1 - (i + 1)))%nat)
                                (f := (1 + Z.to_nat (maxRetries - (i + 1)))%nat);
        [| unfold maxRetries in *; lia | unfold maxRetries in *; lia | auto].
      eapply within_bind;
        [exact (within_LoadAccessToken c P loader true Hl (P_load true)) |].
      intros _ _. apply IH; cbn [reqMethod reqURL reqBody reqCtx reqHost]; auto.
      * destruct (0 <? Z.of_nat (String.length (host c)))%Z; auto.
      * unfold maxRetries in *. lia.
    + destruct (500 <=? status)%Z; [apply Hret; reflexivity |].
      destruct (400 <=? status)%Z; [apply Hret; reflexivity |].
      destruct (negb (status =? 200)%Z); [apply Hret; reflexivity |].
      destruct resp as [r | ]; [| apply Hret; reflexivity].
      destruct (strings_HasPrefix ctype "application/json"); [| apply Hret; reflexivity].
      destruct (json_Unmarshal_response rbody r) as [r' [e | ]]; apply Hret;
        split; discriminate.
Qed.

End ExecutorWithin.

Section RequestsWithin.
Context `{Externals}.
Variable c : APIClient.
Variable P : Event -> Prop.
Variable ctx : Context.
Hypothesis P_load : forall b, P (EvLoadToken b).

Lemma doRequest_within method path req resp :
  P (EvDoRequest ctx method path req) ->
  (forall r, well_formed c ctx method (makeURL c path) (fst (request_body req)) r ->
             P (EvSend r)) ->
  runs_within c 2 1 P (fun r => fst r = None <-> resp = None)
    (doRequest ctx method path req resp).
Proof.
  intros Pdo Psend. unfold doRequest, doRequest_body.
  apply (within_bind c P 0 0 2 1 (fun _ => True));
    [apply within_emit; [exact Pdo | reflexivity | reflexivity] |]. intros _ _.
  apply (within_bind c P 0 0 2 1 (fun x => x = c)); [apply within_getClient |].
  intros c' ->.
  assert (Hret : forall x : option QueryResponse * error,
             (fst x = None <-> resp = None) ->
             runs_within c 2 1 P (fun r => fst r = None <-> resp = None) (ret x)).
  { intros x Hx. eapply within_weaken with (Q := fun r => fst r = None <-> resp = None);
      [apply within_ret; exact Hx | lia | lia | auto]. }
  destruct (doRequestFunc c) as [mock | ].
  - destruct (mock method path req resp) as [r' err]. apply Hret.
    destruct resp; split; intros Hx; try discriminate Hx; reflexivity.
  - unfold request_body in Psend.
    destruct (match req with Some r => json_Marshal r | None => (EmptyString, None) end)
      as [reqBody [e | ]]; [apply Hret; reflexivity |].
    destruct (http_NewRequest_err method (makeURL c path)); [apply Hret; reflexivity |].
    apply (doRequest_loop_within c P ctx method (makeURL c path) reqBody P_load Psend);
      auto.
Qed.

Section RetryWithin.
Context {St : Type}.
Variable f : St -> M (St * error).
Variables ns nf : nat.
Variable Inv : St -> Prop.
Hypothesis f_within :
  forall s, Inv s -> runs_within c ns nf P (fun r => Inv (fst r)) (f s).
Hypothesis P_attempt : forall n, P (EvAttempt n).
Hypothesis P_sleep : forall d, P (EvSleep d).

Lemma retry_loop_within config left : forall n s errorLog,
  Inv s ->
  runs_within c (left * ns) (left * nf) P (fun r => Inv (fst r))
    (retry_loop left n config f s errorLog).
Proof.
  induction left as [ | left IH]; intros n s errorLog Hs; cbn [retry_loop].
  - apply within_ret. exact Hs.
  - assert (Hret : forall x : St * error, Inv (fst x) ->
               runs_within c (left * ns) (left * nf) P (fun r => Inv (fst r)) (ret x)).
    { intros x Hx. eapply within_weaken with (Q := fun r => Inv (fst r));
        [apply within_ret; exact Hx | lia | lia | auto]. }
    apply (within_bind c P 0 0 (S left * ns) (S left * nf) (fun _ => True));
      [apply within_emit; [apply P_attempt | reflexivity | reflexivity] |]. intros _ _.
    apply (within_bind c P ns nf (left * ns) (left * nf) (fun r => Inv (fst r)));
      [apply f_within; exact Hs |].
    intros [s' [e | ]] Hs'; [| apply Hret; exact Hs'].
    destruct (negb _); [apply Hret; exact Hs' |].
    destruct (n =? attempts config - 1)%Z; [apply Hret; exact Hs' |].
    apply (within_bind c P 0 0 (left * ns) (left * nf) (fun _ => True));
      [apply within_emit; [apply P_sleep | reflexivity | reflexivity] |].
    intros _ _. apply IH. exact Hs'.
Qed.

Lemma DoRetry_within s t :
  Inv s ->
  runs_within c (5 * ns) (5 * nf) P (fun r => Inv (fst r)) (DoRetry f s t) /\
  (t <> Query -> runs_within c (3 * ns) (3 * nf) P (fun r => Inv (fst r)) (DoRetry f s t)).
Proof.
  intros Hs. unfold DoRetry, retry_Do. split.
  - destruct (RequestType_eqb t Query).
    + apply (retry_loop_within _ 5). exact Hs.
    + eapply within_weaken with (Q := fun r => Inv (fst r));
        [apply (retry_loop_within _ 3); exact Hs | lia | lia | auto].
  - intros Ht. destruct t; try contradiction; apply (retry_loop_within _ 3); exact Hs.
Qed.

End RetryWithin.
End RequestsWithin.

Lemma Forall_sends (Q : HttpRequest -> Prop) (evs : list Event) :
  Forall (fun e => match e with EvSend r => Q r | _ => True end) evs ->
  Forall Q (sends evs).
Proof.
  induction 1 as [ | e evs He _ IH]; [constructor |].
  destruct e; simpl; auto.
Qed.

Section ExecutorBounds.
Context `{Externals}.

(** X1: one call of [doRequest], from any world and whatever the server and the
    token loader do: it returns, leaves the client as it is, sends at most
    two requests and forces at most one reload of the token. *)
Theorem doRequest_sends_at_most_twice (ctx : Context) (method path : string)
    (req : option QueryRequest) (resp : option QueryResponse) (w : World) :
  exists a w' evs,
    doRequest ctx method path req resp w = (Returns a, w') /\
    client w' = client w /\
    trace w' = (trace w ++ evs)%list /\
    (length (sends evs) <= 2)%nat /\
    (count_forced evs <= 1)%nat /\
    sent w' = (sent w + length (sends evs))%nat.
Proof.
  destruct (doRequest_within (client w) (fun _ => True) ctx (fun _ => I)
              method path req resp I (fun _ _ => I) w eq_refl)
    as (a & w' & evs & E & C & T & _ & _ & N & F & S).
  exists a, w', evs. repeat split; assumption.
Qed.

(** X2: every request that [doRequest] sends has the method it was given, the
    URL of the path, the marshalled body, the context, the host of the
    client, JSON as content type and as accepted type, and the headers of
    the client: route, user agent, query id, tenant and warehouse when
    configured, and an Authorization of the client's method. *)
Theorem doRequest_sends_well_formed (ctx : Context) (method path : string)
    (req : option QueryRequest) (resp : option QueryResponse) (w : World) :
  exists evs,
    trace (snd (doRequest ctx method path req resp w)) = (trace w ++ evs)%list /\
    Forall (well_formed (client w) ctx method (makeURL (client w) path)
              (fst (request_body req)))
      (sends evs).
Proof.
  destruct (doRequest_within (client w)
              (sends_well_formed (client w) ctx method (makeURL (client w) path)
                 (fst (request_body req)))
              ctx (fun _ => I) method path req resp I (fun _ Hr => Hr) w eq_refl)
    as (a & w' & evs & E & C & T & F & _).
  exists evs. rewrite E. split; [exact T |]. apply Forall_sends. exact F.
Qed.

End ExecutorBounds.

(** ** The requests of a query *)

Lemma new_sends_app w w' evs :
  trace w' = (trace w ++ evs)%list -> new_sends w w' = sends evs.
Proof.
  intros T. unfold new_sends. rewrite T.
  rewrite skipn_app, skipn_all, Nat.sub_diag. reflexivity.
Qed.

Lemma new_sends_trans w w1 w2 evs1 evs2 :
  trace w1 = (trace w ++ evs1)%list -> trace w2 = (trace w1 ++ evs2)%list ->
  new_sends w w2 = (new_sends w w1 ++ new_sends w1 w2)%list.
Proof.
  intros T1 T2. rewrite (new_sends_app w w1 evs1 T1), (new_sends_app w1 w2 evs2 T2).
  rewrite <- sends_app. apply new_sends_app. rewrite T2, T1. symmetry. apply app_assoc.
Qed.

Section QueryRequests.
Context `{Externals}.

Lemma trackStats_events resp w :
  exists w' evs,
    trackStats resp w = (Returns tt, w') /\ client w' = client w /\
    trace w' = (trace w ++ evs)%list /\ sends evs = [] /\ sent w' = sent w.
Proof.
  unfold trackStats, bind, getClient. destruct resp as [r | ].
  - destruct (Stats r) as [st | ]; [destruct (statsTracker (client w)) |].
    + eexists _, [_]. repeat split; reflexivity.
    + exists w, []. rewrite app_nil_r. repeat split; reflexivity.
    + exists w, []. rewrite app_nil_r. repeat split; reflexivity.
  - exists w, []. rewrite app_nil_r. repeat split; reflexivity.
Qed.

Lemma applySessionState_trace resp w :
  trace (snd (applySessionState resp w)) = trace w /\
  sent (snd (applySessionState resp w)) = sent w.
Proof.
  unfold applySessionState. destruct resp as [r | ]; [| split; reflexivity].
  destruct (RespSession r); split; reflexivity.
Qed.

Lemma same_but_session_refl c : same_but_session c c.
Proof. exists (sessionStateRaw c), (sessionState c). destruct c. reflexivity. Qed.

Lemma same_but_session_trans c1 c2 c3 :
  same_but_session c1 c2 -> same_but_session c2 c3 -> same_but_session c1 c3.
Proof. intros (r1 & s1 & ->) (r2 & s2 & ->). exists r2, s2. reflexivity. Qed.

Lemma same_but_session_well_formed c c' ctx method path body r :
  same_but_session c c' ->
  well_formed c' ctx method (makeURL c' path) body r ->
  well_formed c ctx method (makeURL c path) body r.
Proof. intros (raw & st & ->) Hr. exact Hr. Qed.

Lemma applySessionState_same resp w :
  same_but_session (client w) (client (snd (applySessionState resp w))).
Proof.
  unfold applySessionState. destruct resp as [r | ]; [| apply same_but_session_refl].
  destruct (RespSession r) as [raw | ]; [| apply same_but_session_refl].
  eexists _, _. reflexivity.
Qed.

(** A retried [doRequest] for the class [t], seen from the world it
    starts in. *)
Lemma DoRetry_doRequest_requests ctx method path req s t w :
  exists a err w' evs,
    DoRetry (fun s => doRequest ctx method path req s) s t w = (Returns (a, err), w') /\
    (a = None <-> s = None) /\
    client w' = client w /\
    trace w' = (trace w ++ evs)%list /\
    (length (sends evs) <= 10)%nat /\
    (t <> Query -> (length (sends evs) <= 6)%nat) /\
    sent w' = (sent w + length (sends evs))%nat /\
    Forall (well_formed (client w) ctx method (makeURL (client w) path)
              (fst (request_body req)))
      (sends evs).
Proof.
  set (P := sends_well_formed (client w) ctx method (makeURL (client w) path)
              (fst (request_body req))).
  set (Inv := fun x : option QueryResponse => x = None <-> s = None).
  assert (Hf : forall s', Inv s' ->
                 runs_within (client w) 2 1 P (fun r => Inv (fst r))
                   (doRequest ctx method path req s')).
  { intros s' Hs'. eapply within_weaken;
      [apply doRequest_within; [intros b; exact I | exact I | intros r Hr; exact Hr]
      | lia | lia |].
    intros r Hr. unfold Inv in *. tauto. }
  assert (Hs : Inv s) by (unfold Inv; tauto).
  destruct (DoRetry_within (client w) P (fun s => doRequest ctx method path req s) 2 1
              Inv Hf (fun _ => I) (fun _ => I) s t Hs) as [H5 H3].
  destruct (H5 w eq_refl) as ([a err] & w' & evs & E & C & T & F & Ha & N & _ & S).
  exists a, err, w', evs. repeat split; try assumption; try apply Ha.
  - intros Ht.
    destruct (H3 Ht w eq_refl) as (a' & w'' & evs' & E' & _ & T' & _ & _ & N' & _).
    rewrite E in E'. injection E' as _ <-. rewrite T in T'. apply app_inv_head in T'.
    subst evs'. exact N'.
  - apply Forall_sends. exact F.
Qed.

(** A poll as a whole. *)
Lemma PollQuery_run ctx nextURI w :
  exists resp err w' evs,
    PollQuery ctx nextURI w = (Returns (resp, err), w') /\
    trace w' = (trace w ++ evs)%list /\
    (length (sends evs) <= 6)%nat /\
    Forall (well_formed (client w) ctx "GET" (makeURL (client w) nextURI) EmptyString)
      (sends evs) /\
    QuerySeq (client w') = QuerySeq (client w) /\
    SessionID (client w') = SessionID (client w) /\
    rows (client w') = rows (client w) /\
    (resp = None <-> err <> None) /\
    (forall e, err = Some e -> exists e', e = errors_Wrap e' "failed to query page") /\
    same_but_session (client w) (client w').
Proof.
  unfold PollQuery.
  destruct (DoRetry_doRequest_requests ctx "GET" nextURI None (Some zeroResponse) Page w)
    as (result & err & w1 & evs & E & Hres & C & T & _ & N & _ & F).
  unfold bind at 1. rewrite E.
  destruct (applySessionState_effect result w1) as (w2 & E2 & Q2 & I2 & R2 & _).
  pose proof (applySessionState_same result w1) as Hsame. rewrite E2, C in Hsame.
  cbn [snd] in Hsame.
  pose proof (applySessionState_trace result w1) as [T2 _]. rewrite E2 in T2. cbn [snd] in T2.
  destruct (trackStats_events result w2) as (w3 & evs3 & E3 & C3 & T3 & S3 & _).
  unfold bind. rewrite E2, E3.
  assert (T' : trace w3 = (trace w ++ (evs ++ evs3))%list).
  { rewrite T3, T2, T. symmetry. apply app_assoc. }
  assert (S' : sends (evs ++ evs3) = sends evs).
  { rewrite sends_app, S3. apply app_nil_r. }
  rewrite C in Q2, I2, R2.
  destruct err as [e | ].
  - exists None, (Some (errors_Wrap e "failed to query page")), w3, (evs ++ evs3)%list.
    rewrite S', C3.
    split; [reflexivity |]. split; [exact T' |]. split; [apply N; discriminate |].
    split; [exact F |]. split; [exact Q2 |]. split; [exact I2 |]. split; [exact R2 |].
    split; [split; [discriminate | reflexivity] |]. split; [| exact Hsame].
    intros e0 He0. injection He0 as <-. eauto.
  - exists result, None, w3, (evs ++ evs3)%list.
    rewrite S', C3.
    split; [reflexivity |]. split; [exact T' |]. split; [apply N; discriminate |].
    split; [exact F |]. split; [exact Q2 |]. split; [exact I2 |]. split; [exact R2 |].
    split; [| split; [discriminate | exact Hsame]].
    split.
    + intros Hn. apply Hres in Hn. discriminate Hn.
    + intros Hn. now contradiction Hn.
Qed.

(** X3: a poll sends at most six requests; each is a GET of the continuation
    URI without body, well formed for the client and the context of the
    call. *)
Theorem PollQuery_requests (ctx : Context) (nextURI : string) (w : World) :
  (length (new_sends w (snd (PollQuery ctx nextURI w))) <= 6)%nat /\
  Forall (well_formed (client w) ctx "GET" (makeURL (client w) nextURI) EmptyString)
    (new_sends w (snd (PollQuery ctx nextURI w))).
Proof.
  destruct (PollQuery_run ctx nextURI w)
    as (resp & err & w' & evs & E & T & N & F & _).
  rewrite E. cbn [snd]. rewrite (new_sends_app w w' evs T). split; assumption.
Qed.

(** The client after [NextQuery]. *)
Lemma NextQuery_run w :
  exists w1,
    NextQuery w = (Returns tt, w1) /\ trace w1 = trace w /\ sent w1 = sent w /\
    loads w1 = loads w /\
    client w1 = set_QuerySeq
                  (match rows (client w) with
                   | Some r => set_rows (client w) (Some (nextRows_Close r))
                   | None => client w
                   end)
                  (wrap64 (QuerySeq (client w) + 1)).
Proof.
  eexists. unfold NextQuery, bind, getClient, putClient. cbn [client sent loads trace].
  repeat split; try reflexivity.
  destruct (rows (client w)); reflexivity.
Qed.

(** A submission as a whole. *)
Lemma startQueryRequest_run ctx request w :
  exists resp err w' evs,
    startQueryRequest ctx request w = (Returns (resp, err), w') /\
    trace w' = (trace w ++ evs)%list /\
    (length (sends evs) <= 10)%nat /\
    Forall (fun r =>
              reqMethod r = "POST" /\ reqURL r = makeURL (client w) "/v1/query" /\
              reqBody r = fst (json_Marshal request) /\ reqCtx r = ctx /\
              carries_query_id
                (match ctx_string ctx ContextKeyQueryID with
                 | Some queryID => queryID
                 | None => SessionID (client w) +:+ "." +:+
                           fmt_d (wrap64 (QuerySeq (client w) + 1))
                 end) r)
      (sends evs) /\
    (resp = None <-> err <> None) /\
    (forall e, err = Some e -> exists e', e = errors_Wrap e' "failed to do query request").
Proof.
  unfold startQueryRequest.
  destruct (NextQuery_run w) as (w0 & E0 & T0 & _ & _ & C0).
  unfold bind at 1. rewrite E0.
  destruct (DoRetry_doRequest_requests ctx "POST" "/v1/query" (Some request)
              (Some zeroResponse) Query w0)
    as (result & err & w1 & evs & E & Hres & C & T & N & _ & _ & F).
  unfold bind at 1. rewrite E.
  assert (F' : Forall (fun r =>
              reqMethod r = "POST" /\ reqURL r = makeURL (client w) "/v1/query" /\
              reqBody r = fst (json_Marshal request) /\ reqCtx r = ctx /\
              carries_query_id
                (match ctx_string ctx ContextKeyQueryID with
                 | Some queryID => queryID
                 | None => SessionID (client w) +:+ "." +:+
                           fmt_d (wrap64 (QuerySeq (client w) + 1))
                 end) r) (sends evs)).
  { eapply Forall_impl; [exact F |]. intros r (Hm & Hu & Hb & Hc & _ & _ & _ & Hh).
    destruct Hh as (_ & _ & Hid & _).
    rewrite C0 in Hu, Hid. unfold carries_query_id.
    repeat split; try assumption.
    - rewrite Hu. unfold makeURL. destruct (rows (client w)); reflexivity.
    - rewrite Hid. unfold expected_query_id, GetQueryID.
      destruct (ctx_string ctx ContextKeyQueryID); [reflexivity |].
      destruct (rows (client w)); reflexivity. }
  rewrite T0 in T.
  destruct err as [e | ].
  - exists None, (Some (errors_Wrap e "failed to do query request")), w1, evs.
    repeat split; try assumption; try discriminate; eauto.
    intros e0 He0. injection He0 as <-. eauto.
  - destruct (applySessionState_effect result w1) as (w2 & E2 & _).
    pose proof (applySessionState_trace result w1) as [T2 _].
    rewrite E2 in T2. cbn [snd] in T2.
    destruct (trackStats_events result w2) as (w3 & evs3 & E3 & C3 & T3 & S3 & _).
    unfold bind. rewrite E2, E3.
    exists result, None, w3, (evs ++ evs3)%list.
    rewrite sends_app, S3, app_nil_r.
    repeat split; try assumption; try discriminate.
    + rewrite T3, T2, T. symmetry. apply app_assoc.
    + intros Hn. apply Hres in Hn. discriminate Hn.
    + intros Hn. now contradiction Hn.
Qed.

(** A cleanup call as a whole: [uri] is the finalize or the kill URI. *)
Lemma cleanup_run ctx uri t w :
  t <> Query ->
  exists a w' evs,
    DoRetry (fun s => doRequest (WithTimeout ctx (30 * time_Second)) "GET" uri None s)
      None t w = (Returns a, w') /\
    client w' = client w /\
    trace w' = (trace w ++ evs)%list /\
    (length (sends evs) <= 6)%nat /\
    Forall (well_formed (client w) (WithTimeout ctx (30 * time_Second)) "GET"
              (makeURL (client w) uri) EmptyString)
      (sends evs).
Proof.
  intros Ht.
  destruct (DoRetry_doRequest_requests (WithTimeout ctx (30 * time_Second)) "GET" uri None
              None t w)
    as (a & err & w1 & evs & E & _ & C & T & _ & N & _ & F).
  exists (a, err), w1, evs. repeat split; auto.
Qed.

(** X4: a submission sends at most ten requests; each is a POST to /v1/query
    with the marshalled request as body. *)
Theorem startQueryRequest_requests (ctx : Context) (request : QueryRequest) (w : World) :
  (length (new_sends w (snd (startQueryRequest ctx request w))) <= 10)%nat /\
  Forall (fun r =>
            reqMethod r = "POST" /\ reqURL r = makeURL (client w) "/v1/query" /\
            reqBody r = fst (json_Marshal request) /\ reqCtx r = ctx)
    (new_sends w (snd (startQueryRequest ctx request w))).
Proof.
  destruct (startQueryRequest_run ctx request w)
    as (resp & err & w' & evs & E & T & N & F & _).
  rewrite E. cbn [snd]. rewrite (new_sends_app w w' evs T). split; [exact N |].
  eapply Forall_impl; [exact F |]. intros r (Hm & Hu & Hb & Hc & _). auto.
Qed.

(** X5: a finalize or a kill sends at most six requests; each is a GET of the
    URI without body. *)
Theorem cleanup_requests (ctx : Context) (response : option QueryResponse) (w : World) :
  let bounded (uri : QueryResponse -> string) (w' : World) :=
    (length (new_sends w w') <= 6)%nat /\
    Forall (fun r =>
              reqMethod r = "GET" /\ reqBody r = EmptyString /\
              exists resp, response = Some resp /\
                           reqURL r = makeURL (client w) (uri resp))
      (new_sends w w') in
  bounded FinalURI (snd (CloseQuery ctx response w)) /\
  bounded KillURI (snd (KillQuery ctx response w)).
Proof.
  assert (Hnil : new_sends w w = []).
  { apply (new_sends_app w w []). symmetry. apply app_nil_r. }
  cbv zeta. split.
  - unfold CloseQuery. destruct response as [r | ];
      [| cbn [snd ret]; rewrite Hnil; split; [simpl; lia | constructor]].
    destruct (String.eqb (FinalURI r) EmptyString); cbn [negb];
      [cbn [snd ret]; rewrite Hnil; split; [simpl; lia | constructor] |].
    destruct (cleanup_run ctx (FinalURI r) Final w) as (a & w' & evs & E & _ & T & N & F);
      [discriminate |].
    unfold bind. rewrite E. cbn [snd ret]. rewrite (new_sends_app w w' evs T).
    split; [exact N |]. eapply Forall_impl; [exact F |].
    intros q (Hm & Hu & Hb & _). eauto.
  - unfold KillQuery. destruct response as [r | ];
      [| cbn [snd ret]; rewrite Hnil; split; [simpl; lia | constructor]].
    destruct (String.eqb (KillURI r) EmptyString); cbn [negb];
      [cbn [snd ret]; rewrite Hnil; split; [simpl; lia | constructor] |].
    destruct (cleanup_run ctx (KillURI r) Kill w) as (a & w' & evs & E & _ & T & N & F);
      [discriminate |].
    unfold bind. rewrite E. cbn [snd ret]. rewrite (new_sends_app w w' evs T).
    split; [exact N |]. eapply Forall_impl; [exact F |].
    intros q (Hm & Hu & Hb & _). eauto.
Qed.

Lemma shape_response (r : QueryResponse) r' (err : error) :
  Returns (Some r, @None goerror) = Returns (r', err) -> (r' = None <-> err <> None).
Proof.
  intros Hx. injection Hx as <- <-. split; [discriminate | intros Hn; now contradiction Hn].
Qed.

Lemma shape_error (e : goerror) (r' : option QueryResponse) (err : error) :
  Returns (@None QueryResponse, Some e) = Returns (r', err) -> (r' = None <-> err <> None).
Proof. intros Hx. injection Hx as <- <-. split; [discriminate | reflexivity]. Qed.

(** The polling loop as a whole, for any fuel. *)
Lemma PollUntilQueryEnd_run ctx fuel : forall r w,
  exists o w' evs,
    PollUntilQueryEnd fuel ctx (Some r) w = (o, w') /\
    trace w' = (trace w ++ evs)%list /\
    same_but_session (client w) (client w') /\
    Forall (well_formed (client w) ctx "GET" (makeURL (client w) (NextURI r)) EmptyString)
      (sends evs) /\
    no_panic o /\
    (forall r' err, o = Returns (r', err) -> (r' = None <-> err <> None)).
Proof.
  assert (Hdone : forall r w,
    exists o w' evs,
      ret (Some r, @None goerror) w = (o, w') /\
      trace w' = (trace w ++ evs)%list /\
      same_but_session (client w) (client w') /\
      Forall (well_formed (client w) ctx "GET" (makeURL (client w) (NextURI r)) EmptyString)
        (sends evs) /\
      no_panic o /\
      (forall r' err, o = Returns (r', err) -> (r' = None <-> err <> None))).
  { intros r w. exists (Returns (Some r, None)), w, []. rewrite app_nil_r.
    split; [reflexivity |]. split; [reflexivity |].
    split; [apply same_but_session_refl |]. split; [constructor |]. split; [exact I |].
    intros r' err. apply shape_response. }
  induction fuel as [ | fuel IH]; intros r w; cbn [PollUntilQueryEnd];
    (destruct (negb (ReadFinished r)) eqn:Hfin; [| apply Hdone]).
  - exists OutOfFuel, w, []. rewrite app_nil_r.
    split; [reflexivity |]. split; [reflexivity |].
    split; [apply same_but_session_refl |]. split; [constructor |]. split; [exact I |].
    intros r' err Hx. discriminate Hx.
  - destruct (PollQuery_run ctx (NextURI r) w)
      as (resp1 & err1 & w1 & evs1 & E1 & T1 & _ & F1 & _ & _ & _ & Hshape & _ & Hsame1).
    unfold bind. rewrite E1.
    destruct resp1 as [inner | ], err1 as [e | ].
    + exfalso. destruct Hshape as [_ Hs]. assert (Hn : Some e <> None) by discriminate.
      apply Hs in Hn. discriminate Hn.
    + destruct (Error inner) as [qe | ].
      * eexists _, w1, evs1.
        refine (conj eq_refl (conj T1 (conj Hsame1 (conj F1 (conj I _))))).
        intros r' err. apply shape_error.
      * destruct (IH r w1) as (o & w2 & evs2 & E2 & T2 & Hsame2 & F2 & Hp2 & Hs2).
        exists o, w2, (evs1 ++ evs2)%list. rewrite sends_app.
        split; [exact E2 |].
        split; [rewrite T2, T1; symmetry; apply app_assoc |].
        split; [eapply same_but_session_trans; eassumption |].
        split; [| split; assumption].
        apply Forall_app. split; [exact F1 |].
        eapply Forall_impl; [exact F2 |]. intros q Hq.
        apply (same_but_session_well_formed (client w) (client w1)); assumption.
    + eexists _, w1, evs1.
      refine (conj eq_refl (conj T1 (conj Hsame1 (conj F1 (conj I _))))).
      intros r' err. apply shape_error.
    + exfalso. destruct Hshape as [Hs _]. specialize (Hs eq_refl). now contradiction Hs.
Qed.

Lemma polling_keeps_the_client_aux fuel ctx resp w :
  same_but_session (client w) (client (snd (PollUntilQueryEnd fuel ctx resp w))).
Proof.
  destruct resp as [r | ].
  - destruct (PollUntilQueryEnd_run ctx fuel r w) as (o & w' & evs & E & _ & Hs & _).
    rewrite E. exact Hs.
  - destruct fuel; apply same_but_session_refl.
Qed.

(** X6: polling, with whatever fuel and however it ends, changes nothing of
    the client but its session state: the sequence number, the query id,
    the cursor, the credentials and the endpoint stay. *)
Theorem polling_keeps_the_client (fuel : nat) (ctx : Context)
    (resp : option QueryResponse) (w : World) :
  same_but_session (client w) (client (snd (PollUntilQueryEnd fuel ctx resp w))) /\
  QuerySeq (client (snd (PollUntilQueryEnd fuel ctx resp w))) = QuerySeq (client w) /\
  GetQueryID (client (snd (PollUntilQueryEnd fuel ctx resp w))) = GetQueryID (client w) /\
  rows (client (snd (PollUntilQueryEnd fuel ctx resp w))) = rows (client w).
Proof.
  pose proof (polling_keeps_the_client_aux fuel ctx resp w) as Hs.
  split; [exact Hs |]. destruct Hs as (raw & st & ->). repeat split.
Qed.

(** X7: one query id for a whole query: the requests of a submission, of the
    polling that follows it and of the finalize after that all carry the
    same query id, the one of the context if it has one, else the session
    id, a dot and the sequence number that the submission moved to. *)
Theorem query_id_is_kept (ctx : Context) (request : QueryRequest) (fuel : nat)
    (resp resp' : option QueryResponse) (w : World) :
  let id := match ctx_string ctx ContextKeyQueryID with
            | Some queryID => queryID
            | None => SessionID (client w) +:+ "." +:+
                      fmt_d (wrap64 (QuerySeq (client w) + 1))
            end in
  let w1 := snd (startQueryRequest ctx request w) in
  let w2 := snd (PollUntilQueryEnd fuel ctx resp w1) in
  let w3 := snd (CloseQuery ctx resp' w2) in
  Forall (carries_query_id id) (new_sends w w1) /\
  Forall (carries_query_id id) (new_sends w1 w2) /\
  Forall (carries_query_id id) (new_sends w2 w3).
Proof.
  cbv zeta.
  destruct (startQueryRequest_run ctx request w)
    as (r1 & e1 & w1 & evs1 & E1 & T1 & _ & F1 & _).
  destruct (startQueryRequest_effect ctx request w)
    as (r1' & e1' & w1' & E1' & Q1 & S1 & _).
  rewrite E1 in E1'. injection E1' as _ _ <-.
  rewrite E1. cbn [snd].
  assert (Hid : forall ctx', ctx_string ctx' ContextKeyQueryID
                             = ctx_string ctx ContextKeyQueryID ->
                  expected_query_id (client w1) ctx'
                  = match ctx_string ctx ContextKeyQueryID with
                    | Some queryID => queryID
                    | None => SessionID (client w) +:+ "." +:+
                              fmt_d (wrap64 (QuerySeq (client w) + 1))
                    end).
  { intros ctx' Hc. unfold expected_query_id, GetQueryID. rewrite Hc, Q1, S1. reflexivity. }
  assert (Hwf : forall c ctx' method url body q,
             well_formed c ctx' method url body q ->
             carries_query_id (expected_query_id c ctx') q).
  { intros c ctx' method url body q (_ & _ & _ & _ & _ & _ & _ & _ & _ & Hq & _). exact Hq. }
  split; [| split].
  - rewrite (new_sends_app w w1 evs1 T1). eapply Forall_impl; [exact F1 |].
    intros q (_ & _ & _ & _ & Hq). exact Hq.
  - destruct resp as [r | ].
    + destruct (PollUntilQueryEnd_run ctx fuel r w1)
        as (o & w2 & evs2 & E2 & T2 & _ & F2 & _).
      rewrite E2. cbn [snd]. rewrite (new_sends_app w1 w2 evs2 T2).
      eapply Forall_impl; [exact F2 |]. intros q Hq.
      rewrite <- (Hid ctx eq_refl). eapply Hwf. exact Hq.
    + assert (Hn : new_sends w1 (snd (PollUntilQueryEnd fuel ctx None w1)) = []).
      { destruct fuel; cbn [PollUntilQueryEnd snd panic];
          apply (new_sends_app w1 w1 []); symmetry; apply app_nil_r. }
      rewrite Hn. constructor.
  - set (w2 := snd (PollUntilQueryEnd fuel ctx resp w1)).
    pose proof (polling_keeps_the_client_aux fuel ctx resp w1) as (raw & st & Hc).
    fold w2 in Hc.
    assert (Hnil : new_sends w2 w2 = []).
    { apply (new_sends_app w2 w2 []). symmetry. apply app_nil_r. }
    unfold CloseQuery. destruct resp' as [r | ];
      [| cbn [snd ret]; rewrite Hnil; constructor].
    destruct (String.eqb (FinalURI r) EmptyString); cbn [negb];
      [cbn [snd ret]; rewrite Hnil; constructor |].
    destruct (cleanup_run ctx (FinalURI r) Final w2) as (a & w3 & evs & E & _ & T & _ & F);
      [discriminate |].
    unfold bind. rewrite E. cbn [snd ret]. rewrite (new_sends_app w2 w3 evs T).
    eapply Forall_impl; [exact F |]. intros q Hq.
    rewrite <- (Hid (WithTimeout ctx (30 * time_Second)) eq_refl).
    apply Hwf in Hq. rewrite Hc in Hq. exact Hq.
Qed.

End QueryRequests.

(** ** What the lifecycle returns *)

Section LifecycleResults.
Context `{Externals}.

Lemma CloseQuery_returns ctx response w :
  exists w', CloseQuery ctx response w = (Returns None, w').
Proof.
  unfold CloseQuery. destruct response as [r | ]; [| eexists; reflexivity].
  destruct (negb _); [| eexists; reflexivity].
  destruct (DoRetry_doRequest_effect (WithTimeout ctx (30 * time_Second)) "GET"
              (FinalURI r) None None Final w) as (a & w' & E & _).
  unfold bind. rewrite E. eexists. reflexivity.
Qed.

(** The deferred finalize of [QuerySync] and [InsertWithStage]: it runs in
    the world the body ends in, unless the body is still running. *)
Lemma defer_CloseQuery {A} ctx response (body : M A) w o w1 :
  body w = (o, w1) ->
  match o with
  | OutOfFuel => defer body (CloseQuery ctx response;;; ret tt) w = (OutOfFuel, w1)
  | _ => exists w2,
           CloseQuery ctx response w1 = (Returns None, w2) /\
           defer body (CloseQuery ctx response;;; ret tt) w = (o, w2)
  end.
Proof.
  intros Hb. unfold defer. rewrite Hb.
  destruct (CloseQuery_returns ctx response w1) as [w2 E].
  destruct o; [| | reflexivity]; exists w2; unfold bind; rewrite E; split; reflexivity.
Qed.

Lemma StartQuery_run ctx query args w :
  exists resp err w',
    StartQuery ctx query args w = (Returns (resp, err), w') /\
    (resp = None <-> err <> None).
Proof.
  unfold StartQuery. destruct (buildQuery query args) as [q [e | ]].
  - eexists _, _, _. split; [reflexivity |]. split; [discriminate | reflexivity].
  - unfold bind, getClient. cbv beta.
    match goal with |- context [startQueryRequest ?c ?r ?w0] =>
      destruct (startQueryRequest_run c r w0) as (resp & err & w' & evs & E & _ & _ & _ & Hs & _)
    end.
    exists resp, err, w'. split; assumption.
Qed.

Lemma after_submission_run ctx fuel resp w (wrap : QueryError -> goerror) :
  resp <> None ->
  exists o w',
    defer
      match resp with
      | None => panic nilDereference
      | Some r =>
          match Error r with
          | Some qe => ret (None, Some (wrap qe))
          | None => PollUntilQueryEnd fuel ctx resp
          end
      end
      (CloseQuery ctx resp;;; ret tt) w = (o, w') /\
    no_panic o /\ exclusive o.
Proof.
  intros Hresp. destruct resp as [r | ]; [| now contradiction Hresp].
  assert (Hbody : exists o w1,
             match Error r with
             | Some qe => ret (None, Some (wrap qe))
             | None => PollUntilQueryEnd fuel ctx (Some r)
             end w = (o, w1) /\ no_panic o /\ exclusive o).
  { destruct (Error r) as [qe | ].
    - eexists _, _. split; [reflexivity |]. split; [exact I |].
      intros r' err. apply shape_error.
    - destruct (PollUntilQueryEnd_run ctx fuel r w) as (o & w1 & evs & E & _ & _ & _ & Hp & Hs).
      exists o, w1. split; [exact E |]. split; [exact Hp | exact Hs]. }
  destruct Hbody as (o & w1 & Eb & Hp & Hs).
  pose proof (defer_CloseQuery ctx (Some r) _ w o w1 Eb) as Hd.
  destruct o as [a | msg | ].
  - destruct Hd as (w2 & _ & Ed). exists (Returns a), w2.
    split; [exact Ed |]. split; [exact Hp | exact Hs].
  - destruct Hp.
  - exists OutOfFuel, w1. split; [exact Hd |]. split; [exact Hp | exact Hs].
Qed.

Lemma QuerySync_run fuel ctx query args w :
  exists o w', QuerySync fuel ctx query args w = (o, w') /\ no_panic o /\ exclusive o.
Proof.
  unfold QuerySync.
  destruct (StartQuery_run ctx query args w) as (resp & err & w1 & E & Hs).
  unfold bind at 1. rewrite E. destruct err as [e | ]; cbv beta iota.
  - eexists _, _. split; [reflexivity |]. split; [exact I |].
    intros r' err'. apply shape_error.
  - apply after_submission_run. intros Hn. apply Hs in Hn. now contradiction Hn.
Qed.

Lemma InsertWithStage_run fuel ctx sql stage ff co w :
  exists o w',
    InsertWithStage fuel ctx sql stage ff co w = (o, w') /\ no_panic o /\ exclusive o.
Proof.
  unfold InsertWithStage. destruct stage as [stage | ].
  - unfold bind at 1. unfold getClient at 1. cbv beta zeta.
    match goal with |- context [bind (startQueryRequest ?c ?r) _ ?w0] =>
      destruct (startQueryRequest_run c r w0)
        as (resp & err & w1 & evs & E & _ & _ & _ & Hs & _)
    end.
    unfold bind at 1. rewrite E. destruct err as [e | ]; cbv beta iota.
    + eexists _, _. split; [reflexivity |]. split; [exact I |].
      intros r' err'. apply shape_error.
    + apply after_submission_run. intros Hn. apply Hs in Hn. now contradiction Hn.
  - eexists _, _. split; [reflexivity |]. split; [exact I |].
    intros r' err'. apply shape_error.
Qed.

(** X8: whatever the server does, [StartQuery], [PollQuery], [QuerySync],
    [InsertWithStage] and the polling of a response never panic, and when
    they return, exactly one of the response and the error is nil. *)
Theorem lifecycle_results (fuel : nat) (ctx : Context) (w : World) :
  (forall query args,
      no_panic (fst (StartQuery ctx query args w)) /\
      exclusive (fst (StartQuery ctx query args w))) /\
  (forall nextURI,
      no_panic (fst (PollQuery ctx nextURI w)) /\
      exclusive (fst (PollQuery ctx nextURI w))) /\
  (forall r,
      no_panic (fst (PollUntilQueryEnd fuel ctx (Some r) w)) /\
      exclusive (fst (PollUntilQueryEnd fuel ctx (Some r) w))) /\
  (forall query args,
      no_panic (fst (QuerySync fuel ctx query args w)) /\
      exclusive (fst (QuerySync fuel ctx query args w))) /\
  (forall sql stage fileFormatOptions copyOptions,
      no_panic (fst (InsertWithStage fuel ctx sql stage fileFormatOptions copyOptions w)) /\
      exclusive (fst (InsertWithStage fuel ctx sql stage fileFormatOptions copyOptions w))).
Proof.
  split; [| split; [| split; [| split]]].
  - intros query args.
    destruct (StartQuery_run ctx query args w) as (resp & err & w' & E & Hs).
    rewrite E. split; [exact I |]. intros r' err' Hx. injection Hx as <- <-. exact Hs.
  - intros nextURI.
    destruct (PollQuery_run ctx nextURI w)
      as (resp & err & w' & evs & E & _ & _ & _ & _ & _ & _ & Hs & _).
    rewrite E. split; [exact I |]. intros r' err' Hx. injection Hx as <- <-. exact Hs.
  - intros r.
    destruct (PollUntilQueryEnd_run ctx fuel r w) as (o & w' & evs & E & _ & _ & _ & Hp & Hs).
    rewrite E. split; assumption.
  - intros query args.
    destruct (QuerySync_run fuel ctx query args w) as (o & w' & E & Hp & Hs).
    rewrite E. split; assumption.
  - intros sql stage ff co.
    destruct (InsertWithStage_run fuel ctx sql stage ff co w) as (o & w' & E & Hp & Hs).
    rewrite E. split; assumption.
Qed.

End LifecycleResults.

(** ** Sessions, finalizing and page errors *)

Section Composition.
Context `{Externals}.

(** X9: the session state travels: after a submission or a poll has returned a
    response with a session payload, the next [StartQuery] that gets past
    the interpolation hands [doRequest] a request with that payload as
    session, the built text as SQL, the pagination of the client and no
    stage attachment. *)
Theorem session_round_trip (ctx ctx' : Context)
    (call : M (option QueryResponse * error)) (query' : string)
    (args' : list (option string)) (w w1 : World) (resp : QueryResponse)
    (raw : RawMessage) :
  ((exists query args, call = StartQuery ctx query args) \/
   (exists nextURI, call = PollQuery ctx nextURI)) ->
  call w = (Returns (Some resp, None), w1) ->
  RespSession resp = Some raw ->
  snd (buildQuery query' args') = None ->
  exists request rest,
    trace (snd (StartQuery ctx' query' args' w1))
      = (trace w1 ++
         EvAttempt 0 :: EvDoRequest ctx' "POST" "/v1/query" (Some request) :: rest)%list /\
    Session request = Some raw /\
    SQL request = fst (buildQuery query' args') /\
    Pagination request = getPagenationConfig (client w1) /\
    StageAttachment request = None.
Proof.
  intros Hcall Hrun Hraw Hbuild.
  assert (Hsession : sessionStateRaw (client w1) = Some raw).
  { destruct Hcall as [(query & args & ->) | (nextURI & ->)].
    - unfold StartQuery in Hrun.
      destruct (buildQuery query args) as [q [e | ]]; [discriminate Hrun |].
      unfold bind, getClient in Hrun. cbv beta in Hrun.
      match type of Hrun with startQueryRequest _ ?request _ = _ =>
        destruct (startQueryRequest_effect ctx request w)
          as (resp' & err & w'' & E & _ & _ & _ & Hs) end.
      rewrite E in Hrun. injection Hrun as -> -> ->.
      specialize (Hs eq_refl). simpl in Hs. rewrite Hraw in Hs. apply Hs.
    - destruct (PollQuery_effect ctx nextURI w) as (resp' & err & w'' & E & _ & _ & Hs).
      rewrite E in Hrun. injection Hrun as -> -> ->.
      specialize (Hs eq_refl). simpl in Hs. rewrite Hraw in Hs. apply Hs. }
  unfold StartQuery. destruct (buildQuery query' args') as [q [e | ]];
    [discriminate Hbuild |].
  unfold bind at 1. unfold getClient at 1. cbv beta.
  match goal with |- context [startQueryRequest ctx' ?request w1] =>
    destruct (startQueryRequest_starts ctx' request w1) as [rest Hrest];
    exists request, rest end.
  split; [exact Hrest |]. cbn [Session SQL Pagination StageAttachment fst].
  repeat split. exact Hsession.
Qed.

(** X10: [QuerySync] after the submission: an error of the submission is
    returned as it is, and nothing is finalized; a response with an in-band
    error becomes the error "query error: ...", and a finished response
    without error is returned; in both these cases the finalize has run
    before the call returns, and with a finalize URI it has asked for a GET
    of that URI. *)
Theorem QuerySync_outcomes (fuel : nat) (ctx : Context) (query : string)
    (args : list (option string)) (w w1 : World) (resp : option QueryResponse)
    (err : error) :
  StartQuery ctx query args w = (Returns (resp, err), w1) ->
  match err, resp with
  | Some e, _ => QuerySync fuel ctx query args w = (Returns (None, Some e), w1)
  | None, Some r =>
      Error r <> None \/ ReadFinished r = true ->
      exists w2,
        QuerySync fuel ctx query args w
        = (Returns (match Error r with
                    | Some qe => (None, Some (EText ("query error: " +:+ QueryError_text qe)))
                    | None => (Some r, None)
                    end), w2) /\
        CloseQuery ctx (Some r) w1 = (Returns None, w2) /\
        (FinalURI r <> EmptyString ->
         exists rest,
           trace w2
           = (trace w1 ++
              EvAttempt 0 ::
              EvDoRequest (WithTimeout ctx (30 * time_Second)) "GET" (FinalURI r) None ::
              rest)%list)
  | None, None => True
  end.
Proof.
  intros Hstart.
  destruct err as [e | ];
    [unfold QuerySync; unfold bind at 1; rewrite Hstart; reflexivity |].
  destruct resp as [r | ]; [| exact I]. intros Hcase.
  unfold QuerySync. unfold bind at 1. rewrite Hstart. cbv beta iota.
  set (body := match Error r with
               | Some qe => ret (None, Some (EText ("query error: " +:+ QueryError_text qe)))
               | None => PollUntilQueryEnd fuel ctx (Some r)
               end).
  assert (Hbody : body w1
                  = (Returns (match Error r with
                              | Some qe =>
                                  (None, Some (EText ("query error: " +:+ QueryError_text qe)))
                              | None => (Some r, None)
                              end), w1)).
  { subst body. destruct (Error r) as [qe | ]; [reflexivity |].
    destruct Hcase as [Hn | Hfin]; [now contradiction Hn |].
    apply PollUntilQueryEnd_finished. exact Hfin. }
  destruct (defer_CloseQuery ctx (Some r) body w1 _ w1 Hbody) as (w2 & Ec & Ed).
  exists w2. split; [exact Ed |]. split; [exact Ec |].
  intros Huri. unfold CloseQuery in Ec.
  destruct (String.eqb (FinalURI r) EmptyString) eqn:Heq;
    [apply String.eqb_eq in Heq; now contradiction Huri |].
  cbn [negb] in Ec.
  destruct (cleanup_call (WithTimeout ctx (30 * time_Second)) (FinalURI r) Final w1)
    as (a & w' & rest & E & _ & T & _).
  unfold bind in Ec. rewrite E in Ec. injection Ec as <-. exists rest. exact T.
Qed.

(** X11: a page with an in-band error ends the polling: the error comes back
    wrapped as "query page has error", no response is returned, and the
    session payload of that page, if it has one, is the session state of
    the client when the call returns. *)
Theorem PollUntilQueryEnd_page_error (fuel : nat) (ctx : Context) (r inner : QueryResponse)
    (qe : QueryError) (w w1 : World) :
  ReadFinished r = false ->
  PollQuery ctx (NextURI r) w = (Returns (Some inner, None), w1) ->
  Error inner = Some qe ->
  PollUntilQueryEnd (S fuel) ctx (Some r) w
  = (Returns (None, Some (errors_Wrap (EQuery qe) "query page has error")), w1) /\
  (forall raw, RespSession inner = Some raw -> getSessionStateRaw (client w1) = Some raw).
Proof.
  intros Hf Hp He. split.
  - cbn [PollUntilQueryEnd]. rewrite Hf. cbn [negb]. unfold bind. rewrite Hp, He.
    reflexivity.
  - intros raw Hraw.
    destruct (PollQuery_effect ctx (NextURI r) w) as (resp' & err & w'' & E & _ & _ & Hs).
    rewrite E in Hp. injection Hp as -> -> ->.
    specialize (Hs eq_refl). simpl in Hs. rewrite Hraw in Hs. apply Hs.
Qed.

End Composition.

(** A failed COMMIT and the query after it: the second request carries the
    session payload of the failed one. *)
Lemma session_round_trip_witness :
  ((exists query args,
      @StartQuery Sample.externals Background "COMMIT" []
      = @StartQuery Sample.externals Background query args) \/
   (exists nextURI,
      @StartQuery Sample.externals Background "COMMIT" []
      = @PollQuery Sample.externals Background nextURI)) /\
  @StartQuery Sample.externals Background "COMMIT" [] Sample.failedCommitWorld
  = (Returns (Some Sample.failedCommit, None),
     snd (@StartQuery Sample.externals Background "COMMIT" [] Sample.failedCommitWorld)) /\
  RespSession Sample.failedCommit = Some "{txn_state:Fail}" /\
  snd (@buildQuery Sample.externals "SELECT 1" []) = None /\
  exists request rest,
    trace (snd (@StartQuery Sample.externals Background "SELECT 1" []
                  (snd (@StartQuery Sample.externals Background "COMMIT" []
                          Sample.failedCommitWorld))))
    = (trace (snd (@StartQuery Sample.externals Background "COMMIT" []
                     Sample.failedCommitWorld)) ++
       EvAttempt 0 :: EvDoRequest Background "POST" "/v1/query" (Some request) :: rest)%list /\
    Session request = Some "{txn_state:Fail}".
Proof.
  assert (H1 : (exists query args,
      @StartQuery Sample.externals Background "COMMIT" []
      = @StartQuery Sample.externals Background query args) \/
   (exists nextURI,
      @StartQuery Sample.externals Background "COMMIT" []
      = @PollQuery Sample.externals Background nextURI)).
  { left. exists "COMMIT", []. reflexivity. }
  assert (H2 : @StartQuery Sample.externals Background "COMMIT" [] Sample.failedCommitWorld
    = (Returns (Some Sample.failedCommit, None),
       snd (@StartQuery Sample.externals Background "COMMIT" [] Sample.failedCommitWorld))).
  { vm_compute. reflexivity. }
  split; [exact H1 |]. split; [exact H2 |]. split; [reflexivity |]. split; [reflexivity |].
  destruct (@session_round_trip Sample.externals Background Background _ "SELECT 1" []
              _ _ _ _ H1 H2 eq_refl eq_refl) as (request & rest & T & S & _).
  exists request, rest. split; [exact T | exact S].
Defined.

(** A COMMIT that fails in band: the error is returned and the query is
    finalized. *)
Lemma QuerySync_outcomes_witness :
  @StartQuery Sample.externals Background "COMMIT" [] Sample.failedCommitWorld
  = (Returns (Some Sample.failedCommit, None),
     snd (@StartQuery Sample.externals Background "COMMIT" [] Sample.failedCommitWorld)) /\
  (Error Sample.failedCommit <> None \/ ReadFinished Sample.failedCommit = true) /\
  exists w2,
    @QuerySync Sample.externals 0 Background "COMMIT" [] Sample.failedCommitWorld
    = (Returns (None, Some (EText "query error: 4002 commit failed")), w2) /\
    exists rest,
      trace w2
      = (trace (snd (@StartQuery Sample.externals Background "COMMIT" []
                       Sample.failedCommitWorld)) ++
         EvAttempt 0 ::
         EvDoRequest (WithTimeout Background (30 * time_Second)) "GET"
           "/v1/query/q1/final" None :: rest)%list.
Proof.
  assert (H1 : @StartQuery Sample.externals Background "COMMIT" [] Sample.failedCommitWorld
    = (Returns (Some Sample.failedCommit, None),
       snd (@StartQuery Sample.externals Background "COMMIT" [] Sample.failedCommitWorld))).
  { vm_compute. reflexivity. }
  assert (H2 : Error Sample.failedCommit <> None \/ ReadFinished Sample.failedCommit = true).
  { left. discriminate. }
  split; [exact H1 |]. split; [exact H2 |].
  destruct (@QuerySync_outcomes Sample.externals 0 Background "COMMIT" [] _ _ _ _ H1 H2)
    as (w2 & E & _ & T).
  exists w2. split; [exact E |]. apply T. discriminate.
Defined.

(** The first page asks for more, and the page that comes carries an error
    and a session payload. *)
Lemma PollUntilQueryEnd_page_error_witness :
  ReadFinished Sample.firstPage = false /\
  @PollQuery Sample.externals Background (NextURI Sample.firstPage) Sample.failedCommitWorld
  = (Returns (Some Sample.failedCommit, None),
     snd (@PollQuery Sample.externals Background (NextURI Sample.firstPage)
            Sample.failedCommitWorld)) /\
  Error Sample.failedCommit = Some {| Code := 4002; Message := "commit failed" |} /\
  @PollUntilQueryEnd Sample.externals 1 Background (Some Sample.firstPage)
    Sample.failedCommitWorld
  = (Returns (None, Some (errors_Wrap (EQuery {| Code := 4002; Message := "commit failed" |})
                            "query page has error")),
     snd (@PollQuery Sample.externals Background (NextURI Sample.firstPage)
            Sample.failedCommitWorld)) /\
  getSessionStateRaw
    (client (snd (@PollQuery Sample.externals Background (NextURI Sample.firstPage)
                    Sample.failedCommitWorld)))
  = Some "{txn_state:Fail}".
Proof.
  assert (H2 : @PollQuery Sample.externals Background (NextURI Sample.firstPage)
                 Sample.failedCommitWorld
    = (Returns (Some Sample.failedCommit, None),
       snd (@PollQuery Sample.externals Background (NextURI Sample.firstPage)
              Sample.failedCommitWorld))).
  { vm_compute. reflexivity. }
  split; [reflexivity |]. split; [exact H2 |]. split; [reflexivity |].
  destruct (@PollUntilQueryEnd_page_error Sample.externals 0 Background Sample.firstPage
              Sample.failedCommit _ _ _ eq_refl H2 eq_refl) as [E S].
  split; [exact E | exact (S _ eq_refl)].
Defined.

(** ** Replies and their status *)

Section Replies.
Context `{Externals}.

Lemma doRequest_first_reply ctx method path req resp w status ctype body :
  doRequestFunc (client w) = None ->
  snd (request_body req) = None ->
  http_NewRequest_err method (makeURL (client w) path) = None ->
  can_authorize w ->
  (forall r, cli (client w) (sent w) r = Replies status ctype body) ->
  status <> StatusUnauthorized ->
  exists out w' pre r1,
    doRequest ctx method path req resp w = (Returns out, w') /\
    client w' = client w /\ sent w' = S (sent w) /\
    trace w' = (trace w ++ EvDoRequest ctx method path req :: pre ++ [EvSend r1])%list /\
    (pre = [] \/ pre = [EvLoadToken false]) /\
    ((500 <= status)%Z ->
     out = (resp, Some (NewAPIError "please retry again later" status body))) /\
    ((400 <= status < 500)%Z ->
     out = (resp, Some (NewAPIError "please check your arguments" status body))) /\
    ((status < 400)%Z -> status <> 200%Z ->
     out = (resp, Some (NewAPIError "unexpected HTTP StatusCode" status body))) /\
    (status = 200%Z -> out = decoded ctype body resp).
Proof.
  intros Hmock Hbody Hreq Hauth H1 Hne.
  unfold request_body in Hbody.
  destruct (match req with Some r => json_Marshal r | None => (EmptyString, None) end)
    as [reqBody err] eqn:Hmarshal. simpl in Hbody. subst err.
  unfold doRequest, doRequest_body. unfold bind at 1. unfold emit at 1.
  unfold bind at 1. unfold getClient at 1. cbn [client]. rewrite Hmock, Hmarshal, Hreq.
  change (Z.to_nat maxRetries) with 2%nat. cbn [doRequest_loop].
  change (1 <=? maxRetries)%Z with true. cbv iota.
  match goal with |- context [bind (makeHeaders ctx) _ ?w0] => set (w0' := w0) end.
  assert (Hm : exists hs pre,
             makeHeaders ctx w0'
             = (Returns (Some hs, None),
                {| client := client w; sent := sent w;
                   loads := loads w + length pre;
                   trace := (trace w ++ EvDoRequest ctx method path req :: pre)%list |}) /\
             (pre = [] \/ pre = [EvLoadToken false])).
  { unfold can_authorize in Hauth. destruct (authMethod (client w)) eqn:Ha.
    - destruct (makeHeaders_basic ctx w0' Ha) as [hs Hm]. exists hs, [].
      rewrite Hm. subst w0'. cbn [length]. rewrite Nat.add_0_r. split; [| auto].
      reflexivity.
    - destruct (authMethod_token (client w) Ha) as [loader Hl].
      destruct (makeHeaders_bearer ctx w0' loader Ha Hl) as [hs Hm].
      exists hs, [EvLoadToken false]. rewrite Hm. subst w0'. cbn [client sent loads trace length].
      rewrite (Hauth loader Hl). split; [| auto].
      rewrite <- app_assoc. replace (loads w + 1)%nat with (S (loads w)) by lia.
      reflexivity.
    - destruct Hauth. }
  destruct Hm as (hs & pre & Hm & Hpre).
  unfold bind at 1. rewrite Hm. cbv iota beta.
  unfold bind at 1. unfold getClient at 1. unfold bind at 1. unfold cli_Do at 1.
  cbn [client sent loads trace]. rewrite H1.
  destruct (status =? StatusUnauthorized)%Z eqn:H401;
    [apply Z.eqb_eq in H401; now contradiction Hne |].
  match goal with |- context [EvSend ?r] => set (r1 := r) end.
  assert (Hfin : forall out : option QueryResponse * error,
             exists out' w' pre' r1',
               ret out {| client := client w; sent := S (sent w);
                          loads := (loads w + length pre)%nat;
                          trace := ((trace w ++ EvDoRequest ctx method path req :: pre)
                                    ++ [EvSend r1])%list |}
               = (Returns out', w') /\ out' = out /\
               client w' = client w /\ sent w' = S (sent w) /\
               trace w' = (trace w ++ EvDoRequest ctx method path req :: pre' ++ [EvSend r1'])%list /\
               (pre' = [] \/ pre' = [EvLoadToken false])).
  { intros out. eexists out, _, pre, r1. split; [reflexivity |].
    cbn [client sent trace]. rewrite <- app_assoc. repeat split; auto. }
  destruct (500 <=? status)%Z eqn:H500; [| destruct (400 <=? status)%Z eqn:H400;
    [| destruct (negb (status =? 200)%Z) eqn:H200]].
  - destruct (Hfin (resp, Some (NewAPIError "please retry again later" status body)))
      as (out & w' & pre' & r1' & E & -> & C & S & T & P).
    eexists _, w', pre', r1'. split; [exact E |]. apply Z.leb_le in H500.
    repeat split; auto; intros; try reflexivity; lia.
  - destruct (Hfin (resp, Some (NewAPIError "please check your arguments" status body)))
      as (out & w' & pre' & r1' & E & -> & C & S & T & P).
    eexists _, w', pre', r1'. split; [exact E |]. apply Z.leb_gt in H500. apply Z.leb_le in H400.
    repeat split; auto; intros; try reflexivity; lia.
  - destruct (Hfin (resp, Some (NewAPIError "unexpected HTTP StatusCode" status body)))
      as (out & w' & pre' & r1' & E & -> & C & S & T & P).
    eexists _, w', pre', r1'. split; [exact E |]. apply Z.leb_gt in H500. apply Z.leb_gt in H400.
    apply negb_true_iff, Z.eqb_neq in H200.
    repeat split; auto; intros; try reflexivity; try lia.
  - apply Z.leb_gt in H500. apply Z.leb_gt in H400.
    apply negb_false_iff, Z.eqb_eq in H200.
    assert (Hdec : exists w' pre' r1',
               match resp with
               | Some r =>
                   if strings_HasPrefix ctype "application/json"
                   then match json_Unmarshal_response body r with
                        | (r', Some e) =>
                            ret (Some r', Some (errors_Wrap e "failed to unmarshal response body"))
                        | (r', None) => ret (Some r', None)
                        end
                   else ret (resp, None)
               | None => ret (resp, None)
               end {| client := client w; sent := S (sent w);
                      loads := (loads w + length pre)%nat;
                      trace := ((trace w ++ EvDoRequest ctx method path req :: pre)
                                ++ [EvSend r1])%list |}
               = (Returns (decoded ctype body resp), w') /\
               client w' = client w /\ sent w' = S (sent w) /\
               trace w' = (trace w ++ EvDoRequest ctx method path req :: pre' ++ [EvSend r1'])%list /\
               (pre' = [] \/ pre' = [EvLoadToken false])).
    { unfold decoded. destruct resp as [r | ].
      - destruct (strings_HasPrefix ctype "application/json").
        + destruct (json_Unmarshal_response body r) as [r' [e | ]];
            eexists _, pre, r1; (split; [reflexivity |]);
            cbn [client sent trace]; rewrite <- app_assoc; repeat split; auto.
        + eexists _, pre, r1. split; [reflexivity |].
          cbn [client sent trace]. rewrite <- app_assoc. repeat split; auto.
      - eexists _, pre, r1. split; [reflexivity |].
        cbn [client sent trace]. rewrite <- app_assoc. repeat split; auto. }
    destruct Hdec as (w' & pre' & r1' & E & C & S & T & P).
    eexists _, w', pre', r1'. split; [exact E |].
    repeat split; auto; intros; try reflexivity; lia.
Qed.

End Replies.

(** ** The attempts of [DoRetry], whatever the closure does *)

Section Attempts.
Context `{Externals} {St : Type}.
Variable f : St -> M (St * error).
Hypothesis f_returns : forall s w, exists r w',
  f s w = (Returns r, w') /\ retry_events (trace w') = retry_events (trace w).

Lemma retry_loop_attempts config left :
  delayType config = FixedDelay ->
  forall n s errorLog w,
    (0 < left)%nat -> n + Z.of_nat left = attempts config ->
    exists s' err w' k,
      retry_loop left n config f s errorLog w = (Returns (s', err), w') /\
      (1 <= k <= left)%nat /\
      retry_events (trace w')
        = (retry_events (trace w) ++ schedule k n (delay config))%list /\
      match err with
      | None => True
      | Some e =>
          exists init x,
            e = ERetry (errorLog ++ init ++ [x]) /\ (length init + 1 = k)%nat /\
            Forall (fun y => retryIfFn config (Some y) = true) init /\
            ((k < left)%nat -> retryIfFn config (Some x) = false)
      end.
Proof.
  intros Hdt. induction left as [ | left IH]; intros n s errorLog w Hpos Hn; [lia |].
  cbn [retry_loop]. unfold bind at 1. unfold emit at 1. cbn [fst snd].
  unfold bind at 1.
  match goal with |- context [f s ?w1] =>
    destruct (f_returns s w1) as ([s' [e | ]] & w2 & Ef & Tf) end;
    rewrite Ef; cbn [trace] in Tf; rewrite retry_events_app in Tf.
  - destruct (retryIfFn config (Some e)) eqn:Hretry; cbn [negb].
    + destruct (n =? attempts config - 1)%Z eqn:Hlast.
      * apply Z.eqb_eq in Hlast.
        exists s', (Some (ERetry (errorLog ++ [e]))), w2, 1%nat.
        split; [reflexivity |]. split; [lia |]. split; [exact Tf |].
        exists [], e. repeat split; auto. lia.
      * apply Z.eqb_neq in Hlast. unfold bind at 1. unfold emit at 1.
        match goal with |- context [retry_loop _ _ _ _ _ ?l ?w3] =>
          destruct (IH (n + 1) s' l w3) as (s'' & err & w4 & k & E & K & T & R);
            [lia | lia |] end.
        exists s'', err, w4, (S k). rewrite E. split; [reflexivity |]. split; [lia |].
        split.
        -- rewrite T. cbn [trace]. rewrite retry_events_app, Tf, Hdt. unfold FixedDelay.
           destruct k as [ | k]; [lia |]. rewrite <- !app_assoc. reflexivity.
        -- destruct err as [e' | ]; [| exact I].
           destruct R as (init & x & -> & L & F & Last).
           exists (e :: init), x. repeat split.
           ++ rewrite <- !app_assoc. reflexivity.
           ++ simpl. lia.
           ++ constructor; assumption.
           ++ intros Hk. apply Last. lia.
    + exists s', (Some (ERetry (errorLog ++ [e]))), w2, 1%nat.
      split; [reflexivity |]. split; [lia |]. split; [exact Tf |].
      exists [], e. repeat split; auto.
  - exists s', None, w2, 1%nat. split; [reflexivity |]. split; [lia |].
    split; [exact Tf | exact I].
Qed.

(** X12: whatever the closure does, [DoRetry] runs it at least once and at
    most 5 times for the class Query and 3 times for every other class,
    and waits the same 2 seconds (1 second) between two attempts.  When it
    ends with an error, the error is the log of one error for each attempt;
    every error but the last one was one that is retried, and when attempts
    were left over the last one was one that is not. *)
Theorem DoRetry_attempts (s : St) (t : RequestType) (w : World) :
  exists s' err w' k,
    DoRetry f s t w = (Returns (s', err), w') /\
    (1 <= k <= budget t)%nat /\
    retry_events (trace w')
      = (retry_events (trace w) ++ schedule k 0 (pause t))%list /\
    match err with
    | None => True
    | Some e =>
        exists init x,
          e = ERetry (init ++ [x]) /\ (length init + 1 = k)%nat /\
          Forall (fun y => retryIf t (Some y) = true) init /\
          ((k < budget t)%nat -> retryIf t (Some x) = false)
    end.
Proof.
  unfold DoRetry, retry_Do, budget, pause. destruct (RequestType_eqb t Query) eqn:Ht.
  - exact (retry_loop_attempts
             {| attempts := 5; delay := 2 * time_Second; delayType := FixedDelay;
                retryIfFn := retryIf t |} 5 eq_refl 0 s [] w ltac:(lia) eq_refl).
  - exact (retry_loop_attempts
             {| attempts := 3; delay := 1 * time_Second; delayType := FixedDelay;
                retryIfFn := retryIf t |} 3 eq_refl 0 s [] w ltac:(lia) eq_refl).
Qed.

End Attempts.

(** The attempts on a closure that never gets a request out, for the class
    Page. *)
Lemma DoRetry_attempts_witness :
  (forall s w, exists r w',
      Sample.unreachable s w = (Returns r, w') /\
      retry_events (trace w') = retry_events (trace w)) /\
  exists s' err w' k,
    @DoRetry Sample.externals unit Sample.unreachable tt Page
      (Sample.world (Sample.basicClient Sample.unauthorized))
      = (Returns (s', err), w') /\
    (1 <= k <= budget Page)%nat /\
    retry_events (trace w') = schedule k 0 (pause Page) /\
    match err with
    | None => True
    | Some e =>
        exists init x,
          e = ERetry (init ++ [x]) /\ (length init + 1 = k)%nat /\
          Forall (fun y => @retryIf Sample.externals Page (Some y) = true) init /\
          ((k < budget Page)%nat -> @retryIf Sample.externals Page (Some x) = false)
    end.
Proof.
  assert (Hf : forall s w, exists r w',
             Sample.unreachable s w = (Returns r, w') /\
             retry_events (trace w') = retry_events (trace w)).
  { intros s w. eexists _, _. split; reflexivity. }
  split; [exact Hf |].
  exact (@DoRetry_attempts Sample.externals unit Sample.unreachable Hf tt Page
           (Sample.world (Sample.basicClient Sample.unauthorized))).
Defined.

Lemma new_events_app w w' evs :
  trace w' = (trace w ++ evs)%list -> new_events w w' = evs.
Proof.
  intros T. unfold new_events. rewrite T.
  rewrite skipn_app, skipn_all, Nat.sub_diag. reflexivity.
Qed.

Section ReplyStatus.
Context `{Externals}.

(** X13: a first reply with a status other than 401 ends [doRequest] after
    that one request, without a forced reload of the token: 500 and above
    gives the API error "please retry again later", 400 to 499 "please check
    your arguments", every other status but 200 "unexpected HTTP StatusCode",
    each with the status and the body of the reply and the response left as
    it was; 200 decodes the body when it is JSON and a response is asked
    for. *)
Theorem doRequest_reply_status ctx method path req resp w status ctype body :
  doRequestFunc (client w) = None ->
  snd (request_body req) = None ->
  http_NewRequest_err method (makeURL (client w) path) = None ->
  can_authorize w ->
  (forall r, cli (client w) (sent w) r = Replies status ctype body) ->
  status <> StatusUnauthorized ->
  exists out w',
    doRequest ctx method path req resp w = (Returns out, w') /\
    client w' = client w /\
    length (new_sends w w') = 1%nat /\
    count_forced (new_events w w') = 0%nat /\
    ((500 <= status)%Z ->
     out = (resp, Some (NewAPIError "please retry again later" status body))) /\
    ((400 <= status < 500)%Z ->
     out = (resp, Some (NewAPIError "please check your arguments" status body))) /\
    ((status < 400)%Z -> status <> 200%Z ->
     out = (resp, Some (NewAPIError "unexpected HTTP StatusCode" status body))) /\
    (status = 200%Z -> out = decoded ctype body resp).
Proof.
  intros Hmock Hbody Hreq Hauth H1 Hne.
  destruct (doRequest_first_reply ctx method path req resp w status ctype body
              Hmock Hbody Hreq Hauth H1 Hne)
    as (out & w' & pre & r1 & E & C & S & T & P & R).
  exists out, w'. split; [exact E |]. split; [exact C |].
  rewrite (new_sends_app _ _ _ T), (new_events_app _ _ _ T).
  split; [| split; [| exact R]].
  - destruct P as [-> | ->]; reflexivity.
  - destruct P as [-> | ->]; reflexivity.
Qed.

(** X14: when the server answers a poll with a status of 400 or above other
    than 401 and the reply is not taken for a proxy error, [PollQuery] gives
    up after that one request, without a wait and without a second attempt:
    it returns no response and the API error of the reply, in the log of
    the retry policy, as "failed to query page", and leaves the client as
    it was. *)
Theorem PollQuery_server_error ctx nextURI w status ctype body :
  doRequestFunc (client w) = None ->
  http_NewRequest_err "GET" (makeURL (client w) nextURI) = None ->
  can_authorize w ->
  (forall r, cli (client w) (sent w) r = Replies status ctype body) ->
  (400 <= status)%Z -> status <> StatusUnauthorized ->
  IsProxyErr (NewAPIError (hint_of status) status body) = false ->
  exists w',
    PollQuery ctx nextURI w
    = (Returns (None,
                Some (errors_Wrap (ERetry [NewAPIError (hint_of status) status body])
                        "failed to query page")), w') /\
    client w' = client w /\
    length (new_sends w w') = 1%nat /\
    retry_events (new_events w w') = [EvAttempt 0].
Proof.
  intros Hmock Hreq Hauth H1 H400 Hne Hproxy.
  unfold PollQuery, DoRetry, retry_Do. cbn [RequestType_eqb attempts].
  change (Z.to_nat 3) with 3%nat. cbn [retry_loop retryIfFn].
  unfold bind at 1. unfold bind at 1. unfold emit at 1. unfold bind at 1.
  match goal with |- context [doRequest ctx "GET" nextURI None ?s ?w1] =>
    destruct (doRequest_first_reply ctx "GET" nextURI None s w1 status ctype body
                Hmock eq_refl Hreq Hauth H1 Hne)
      as (out & w' & pre & r1 & E & C & S & T & P & R5 & R4 & _) end.
  rewrite E.
  assert (Hout : out = (Some zeroResponse,
                        Some (NewAPIError (hint_of status) status body))).
  { unfold hint_of. destruct (500 <=? status)%Z eqn:H500.
    - apply R5. apply Z.leb_le. exact H500.
    - apply R4. apply Z.leb_gt in H500. lia. }
  rewrite Hout. unfold retryIf. cbn [NewAPIError errors_Is orb] in *.
  rewrite Hproxy. cbn [RequestType_eqb andb negb].
  unfold ret at 1. cbv beta iota.
  unfold bind at 1. cbn [applySessionState zeroResponse RespSession].
  unfold ret at 1. unfold bind at 1. unfold trackStats, bind, getClient, ret.
  cbn [Stats zeroResponse].
  exists w'. split; [reflexivity |]. split; [exact C |].
  cbn [trace] in T. rewrite <- app_assoc in T.
  rewrite (new_sends_app _ _ _ T), (new_events_app _ _ _ T).
  destruct P as [-> | ->]; split; reflexivity.
Qed.

End ReplyStatus.

(** The status 503 of an overloaded server. *)
Lemma doRequest_reply_status_witness :
  exists out w',
    @doRequest Sample.externals Background "GET" "/v1/query/q1/page/1" None
      (Some zeroResponse) Cases.overloadedWorld = (Returns out, w') /\
    client w' = client Cases.overloadedWorld /\
    length (new_sends Cases.overloadedWorld w') = 1%nat /\
    count_forced (new_events Cases.overloadedWorld w') = 0%nat /\
    ((500 <= 503)%Z ->
     out = (Some zeroResponse, Some (NewAPIError "please retry again later" 503 "busy"))) /\
    ((400 <= 503 < 500)%Z ->
     out = (Some zeroResponse, Some (NewAPIError "please check your arguments" 503 "busy"))) /\
    ((503 < 400)%Z -> 503%Z <> 200%Z ->
     out = (Some zeroResponse, Some (NewAPIError "unexpected HTTP StatusCode" 503 "busy"))) /\
    (503%Z = 200%Z ->
     out = @decoded Sample.externals "text/plain" "busy" (Some zeroResponse)).
Proof.
  apply (@doRequest_reply_status Sample.externals Background "GET" "/v1/query/q1/page/1"
           None (Some zeroResponse) Cases.overloadedWorld 503 "text/plain" "busy").
  - reflexivity.
  - reflexivity.
  - reflexivity.
  - exact I.
  - intros r. reflexivity.
  - discriminate.
Defined.

(** A poll of an overloaded server. *)
Lemma PollQuery_server_error_witness :
  exists w',
    @PollQuery Sample.externals Background "/v1/query/q1/page/1" Cases.overloadedWorld
    = (Returns (None,
                Some (errors_Wrap (ERetry [NewAPIError (hint_of 503) 503 "busy"])
                        "failed to query page")), w') /\
    client w' = client Cases.overloadedWorld /\
    length (new_sends Cases.overloadedWorld w') = 1%nat /\
    retry_events (new_events Cases.overloadedWorld w') = [EvAttempt 0].
Proof.
  apply (@PollQuery_server_error Sample.externals Background "/v1/query/q1/page/1"
           Cases.overloadedWorld 503 "text/plain" "busy").
  - reflexivity.
  - reflexivity.
  - exact I.
  - intros r. reflexivity.
  - lia.
  - discriminate.
  - reflexivity.
Defined.

(** ** Presigned URLs *)

Section Presign.
Context `{Externals}.

Ltac failed_shape :=
  let r := fresh "r" in let err := fresh "err" in let Hr := fresh "Hr" in
  intros r err Hr; injection Hr as <- <-; split; [discriminate | reflexivity].

Lemma GetPresignedURL_run fuel ctx stage w :
  exists q o w',
    QuerySync fuel ctx ("PRESIGN UPLOAD " +:+ StageLocation_String stage) [] w = (q, w') /\
    GetPresignedURL fuel ctx stage w = (o, w') /\
    (forall msg, o = Panics msg ->
       exists resp row rest,
         q = Returns (Some resp, None) /\ Data resp = row :: rest /\ length row = 2%nat) /\
    exclusive o /\
    (forall p, o = Returns (Some p, None) ->
       exists resp row headers,
         q = Returns (Some resp, None) /\ Data resp !! 0%nat = Some row /\
         row !! 0%nat = Some (Method p) /\ row !! 1%nat = Some headers /\
         row !! 2%nat = Some (URL p) /\
         json_Unmarshal_headers headers ∅ = (Headers p, None)) /\
    (q = OutOfFuel <-> o = OutOfFuel).
Proof.
  destruct (QuerySync_run fuel ctx ("PRESIGN UPLOAD " +:+ StageLocation_String stage) [] w)
    as (q & w' & E & Hp & Hx).
  exists q. unfold GetPresignedURL. cbv zeta. unfold bind at 1. rewrite E.
  destruct q as [[r [err | ]] | msg | ]; [| | destruct Hp |].
  - eexists _, w'. split; [reflexivity |]. split; [destruct r; reflexivity |].
    split; [discriminate |]. split; [failed_shape |].
    split; [discriminate |]. split; discriminate.
  - destruct r as [resp | ].
    2:{ destruct (Hx None None eq_refl) as [Hn _]. now contradiction (Hn eq_refl). }
    destruct (Data resp) as [ | row rest] eqn:Hd.
    { eexists _, w'. split; [reflexivity |]. split; [reflexivity |].
      split; [discriminate |]. split; [failed_shape |].
      split; [discriminate |]. split; discriminate. }
    destruct row as [ | method [ | headers [ | url more]]].
    + eexists _, w'. split; [reflexivity |]. split; [reflexivity |].
      split; [discriminate |]. split; [failed_shape |].
      split; [discriminate |]. split; discriminate.
    + eexists _, w'. split; [reflexivity |]. split; [reflexivity |].
      split; [discriminate |]. split; [failed_shape |].
      split; [discriminate |]. split; discriminate.
    + eexists _, w'. split; [reflexivity |]. split; [reflexivity |].
      split; [intros msg _; exists resp, [method; headers], rest; auto |].
      split; [intros r' err'; discriminate |].
      split; [discriminate |]. split; discriminate.
    + cbn -[json_Unmarshal_headers].
      destruct (json_Unmarshal_headers headers ∅) as [hs [e | ]] eqn:Hj.
      * eexists _, w'. split; [reflexivity |]. split; [reflexivity |].
        split; [discriminate |]. split; [failed_shape |].
        split; [discriminate |]. split; discriminate.
      * eexists _, w'. split; [reflexivity |]. split; [reflexivity |].
        split; [discriminate |].
        split; [intros r' err' Hr; injection Hr as <- <-;
                split; [discriminate | intros Hn; now contradiction Hn] |].
        split; [| split; discriminate].
        intros p Hp'. injection Hp' as <-.
        exists resp, (method :: headers :: url :: more), headers.
        rewrite Hd. repeat split. exact Hj.
  - exists OutOfFuel, w'. split; [reflexivity |]. split; [reflexivity |].
    split; [discriminate |]. split; [intros r' err'; discriminate |].
    split; [discriminate |]. split; reflexivity.
Qed.

(** X15: [GetPresignedURL] adds nothing to what its PRESIGN UPLOAD query
    does to the world.  It panics only when that query returns a response
    whose first row has exactly two columns; when it returns, exactly one of
    the result and the error is nil; and a result has the first column of
    the first row as method, the third as URL, and the decoding of the second
    as headers. *)
Theorem GetPresignedURL_outcomes (fuel : nat) (ctx : Context) (stage : StageLocation)
    (w : World) :
  let q := QuerySync fuel ctx ("PRESIGN UPLOAD " +:+ StageLocation_String stage) [] w in
  let o := GetPresignedURL fuel ctx stage w in
  snd o = snd q /\
  (forall msg, fst o = Panics msg ->
     exists resp row rest,
       fst q = Returns (Some resp, None) /\ Data resp = row :: rest /\ length row = 2%nat) /\
  exclusive (fst o) /\
  (forall p, fst o = Returns (Some p, None) ->
     exists resp row headers,
       fst q = Returns (Some resp, None) /\ Data resp !! 0%nat = Some row /\
       row !! 0%nat = Some (Method p) /\ row !! 1%nat = Some headers /\
       row !! 2%nat = Some (URL p) /\
       json_Unmarshal_headers headers ∅ = (Headers p, None)).
Proof.
  cbv zeta.
  destruct (GetPresignedURL_run fuel ctx stage w) as (q & o & w' & Eq & Eo & P & X & R & _).
  rewrite Eq, Eo. cbn [fst snd]. split; [reflexivity |].
  split; [exact P |]. split; [exact X | exact R].
Qed.

End Presign.

(** ** Clients with a user never touch the token loader *)

Section Password.
Context `{Externals}.

Lemma authMethod_user c : user c <> EmptyString -> authMethod c = AuthMethodUserPassword.
Proof.
  intros Hu. unfold authMethod.
  destruct (String.eqb (user c) EmptyString) eqn:Heq; [| reflexivity].
  apply String.eqb_eq in Heq. now contradiction Hu.
Qed.

(** X16: a client with a user name never calls its token loader, configured
    or not: whatever the server answers, 401 included, [doRequest] returns
    after at most one request, leaves the client and the count of token
    loads as they were, and appends to the trace only its own entry and
    that request. *)
Theorem doRequest_with_password (ctx : Context) (method path : string)
    (req : option QueryRequest) (resp : option QueryResponse) (w : World) :
  user (client w) <> EmptyString ->
  exists out w' evs,
    doRequest ctx method path req resp w = (Returns out, w') /\
    client w' = client w /\ loads w' = loads w /\
    trace w' = (trace w ++ EvDoRequest ctx method path req :: evs)%list /\
    (evs = [] \/ exists r, evs = [EvSend r]).
Proof.
  intros Hu. pose proof (authMethod_user (client w) Hu) as Ha.
  assert (Hnone : forall (out : option QueryResponse * error),
             exists out' w' evs,
               ret out {| client := client w; sent := sent w; loads := loads w;
                          trace := (trace w ++ [EvDoRequest ctx method path req])%list |}
               = (Returns out', w') /\
               client w' = client w /\ loads w' = loads w /\
               trace w' = (trace w ++ EvDoRequest ctx method path req :: evs)%list /\
               (evs = [] \/ exists r, evs = [EvSend r])).
  { intros out. eexists out, _, []. split; [reflexivity |]. repeat split; auto. }
  unfold doRequest, doRequest_body. unfold bind at 1. unfold emit at 1.
  unfold bind at 1. unfold getClient at 1. cbn [client].
  destruct (doRequestFunc (client w)) as [mock | ].
  { destruct (mock method path req resp) as [r' err]. apply Hnone. }
  destruct (match req with Some r => json_Marshal r | None => (EmptyString, None) end)
    as [reqBody [e | ]]; [apply Hnone |].
  destruct (http_NewRequest_err method (makeURL (client w) path)); [apply Hnone |].
  change (Z.to_nat maxRetries) with 2%nat. cbn [doRequest_loop].
  change (1 <=? maxRetries)%Z with true. cbv iota.
  match goal with |- context [bind (makeHeaders ctx) _ ?w0] =>
    destruct (makeHeaders_basic ctx w0 Ha) as [hs Hm] end.
  unfold bind at 1. rewrite Hm. cbv iota beta.
  unfold bind at 1. unfold getClient at 1. unfold bind at 1. unfold cli_Do at 1.
  cbn [client sent loads trace]. rewrite Ha.
  match goal with |- context [EvSend ?r] => set (r1 := r) end.
  assert (Hone : forall (out : option QueryResponse * error),
             exists out' w' evs,
               ret out {| client := client w; sent := S (sent w); loads := loads w;
                          trace := ((trace w ++ [EvDoRequest ctx method path req])
                                    ++ [EvSend r1])%list |}
               = (Returns out', w') /\
               client w' = client w /\ loads w' = loads w /\
               trace w' = (trace w ++ EvDoRequest ctx method path req :: evs)%list /\
               (evs = [] \/ exists r, evs = [EvSend r])).
  { intros out. eexists out, _, [EvSend r1]. split; [reflexivity |].
    cbn [client loads trace]. rewrite <- app_assoc. repeat split; eauto. }
  destruct (cli (client w) (sent w) r1) as [msg | status msg | status ctype body];
    [apply Hone | apply Hone |].
  destruct (status =? StatusUnauthorized)%Z; [apply Hone |].
  destruct (500 <=? status)%Z; [apply Hone |].
  destruct (400 <=? status)%Z; [apply Hone |].
  destruct (negb (status =? 200)%Z); [apply Hone |].
  destruct resp as [r | ]; [| apply Hone].
  destruct (strings_HasPrefix ctype "application/json"); [| apply Hone].
  destruct (json_Unmarshal_response body r) as [r' [e | ]]; apply Hone.
Qed.

End Password.

(** A client with a user and a token loader as well, and a server that
    answers 401. *)
Lemma doRequest_with_password_witness :
  user (client Cases.bothCredentialsWorld) <> EmptyString /\
  exists out w' evs,
    @doRequest Sample.externals Background "GET" "/v1/query/q1/page/1" None
      (Some zeroResponse) Cases.bothCredentialsWorld = (Returns out, w') /\
    client w' = client Cases.bothCredentialsWorld /\
    loads w' = loads Cases.bothCredentialsWorld /\
    trace w' = (trace Cases.bothCredentialsWorld ++
                EvDoRequest Background "GET" "/v1/query/q1/page/1" None :: evs)%list /\
    (evs = [] \/ exists r, evs = [EvSend r]).
Proof.
  assert (Hu : user (client Cases.bothCredentialsWorld) <> EmptyString)
    by (simpl; discriminate).
  split; [exact Hu |].
  exact (@doRequest_with_password Sample.externals Background "GET" "/v1/query/q1/page/1"
           None (Some zeroResponse) Cases.bothCredentialsWorld Hu).
Defined.

(** ** The text of a query *)

Section QueryText.
Context `{Externals}.

(** X17: a query that [buildQuery] rejects never leaves the client:
    [StartQuery] returns the error of [buildQuery] with the world as it was,
    so that nothing is sent, no attempt is made and the sequence number
    stays.  Otherwise every request of the submission has as body the
    marshalled request of the built text, with the pagination and the
    session state the client had at the call, and no stage attachment. *)
Theorem StartQuery_text (ctx : Context) (query : string) (args : list (option string))
    (w : World) :
  match buildQuery query args with
  | (_, Some e) => StartQuery ctx query args w = (Returns (None, Some e), w)
  | (q, None) =>
      Forall (fun r =>
                reqBody r
                = fst (json_Marshal {| SQL := q;
                                       Pagination := getPagenationConfig (client w);
                                       Session := getSessionStateRaw (client w);
                                       StageAttachment := None |}))
        (new_sends w (snd (StartQuery ctx query args w)))
  end.
Proof.
  unfold StartQuery. destruct (buildQuery query args) as [q [e | ]]; [reflexivity |].
  unfold bind, getClient. cbv beta zeta.
  match goal with |- context [startQueryRequest ctx ?request w] =>
    destruct (startQueryRequest_run ctx request w)
      as (resp & err & w' & evs & E & T & _ & F & _) end.
  rewrite E. cbn [snd]. rewrite (new_sends_app w w' evs T).
  eapply Forall_impl; [exact F |]. intros r (_ & _ & Hb & _). exact Hb.
Qed.

End QueryText.

(** ** The first query of a client built from a configuration *)

Section NewClient.
Context `{Externals} `{Construction}.

Lemma startQueryRequest_well_formed ctx request w :
  exists w' evs,
    snd (startQueryRequest ctx request w) = w' /\
    trace w' = (trace w ++ evs)%list /\
    Forall (well_formed
              (set_QuerySeq
                 (match rows (client w) with
                  | Some r => set_rows (client w) (Some (nextRows_Close r))
                  | None => client w
                  end)
                 (wrap64 (QuerySeq (client w) + 1)))
              ctx "POST" (makeURL (client w) "/v1/query") (fst (json_Marshal request)))
      (sends evs).
Proof.
  unfold startQueryRequest.
  destruct (NextQuery_run w) as (w0 & E0 & T0 & _ & _ & C0).
  unfold bind at 1. rewrite E0.
  destruct (DoRetry_doRequest_requests ctx "POST" "/v1/query" (Some request)
              (Some zeroResponse) Query w0)
    as (result & err & w1 & evs & E & Hres & C & T & N & _ & _ & F).
  unfold bind at 1. rewrite E. rewrite T0 in T. rewrite C0 in F.
  replace (makeURL _ "/v1/query") with (makeURL (client w) "/v1/query") in F
    by (unfold makeURL; destruct (rows (client w)); reflexivity).
  destruct err as [e | ].
  - exists w1, evs. repeat split; assumption.
  - destruct (applySessionState_effect result w1) as (w2 & E2 & _).
    pose proof (applySessionState_trace result w1) as [T2 _].
    rewrite E2 in T2. cbn [snd] in T2.
    destruct (trackStats_events result w2) as (w3 & evs3 & E3 & C3 & T3 & S3 & _).
    unfold bind. rewrite E2, E3.
    exists w3, (evs ++ evs3)%list. rewrite sends_app, S3, app_nil_r.
    repeat split; try assumption.
    rewrite T3, T2, T. symmetry. apply app_assoc.
Qed.

(** X18: the first query of a client that [NewAPIClientFromConfig] has
    built.  Every request of its submission is a POST to /v1/query under
    the scheme http when the TLS mode is the disabled one and https else, at
    the host of the configuration, with that host as Host; it carries as
    query id the one of the context or else the drawn session id followed by
    .1, and the Authorization that the configuration asks for: Basic of user
    and password when a user is given, else Bearer of a token from the given
    loader, else from the token file, else from the static token.  Its body
    is the marshalled request of the query text as given, with the
    pagination of the configuration, left out when all three limits are
    zero, and as session the marshalled initial session state: database,
    role and settings of the configuration, and no secondary roles at all
    when a role is given. *)
Theorem first_query_of_a_new_client (cfg : Cfg.Config) (ctx : Context) (query : string)
    (n l : nat) (tr : list Event) :
  let w := fresh cfg n l tr in
  let scheme :=
    if String.eqb (Cfg.SSLMode cfg) SSL_MODE_DISABLE then "http" else "https" in
  let pagination :=
    if ((Cfg.MaxRowsPerPage cfg =? 0) && (Cfg.MaxRowsInBuffer cfg =? 0)
        && (Cfg.WaitTimeSecs cfg =? 0))%Z
    then None
    else Some {| PC_MaxRowsPerPage := Cfg.MaxRowsPerPage cfg;
                 PC_MaxRowsInBuffer := Cfg.MaxRowsInBuffer cfg;
                 PC_WaitTime := Cfg.WaitTimeSecs cfg |} in
  let session :=
    json_Marshal_session
      {| Database := Cfg.Database cfg; Role := Cfg.Role cfg;
         SecondaryRoles := if String.eqb (Cfg.Role cfg) EmptyString then None else Some [];
         Settings := Cfg.Params cfg |} in
  Forall (fun r =>
            reqMethod r = "POST" /\
            reqURL r = fmt_Sprintf0 ((scheme +:+ "://" +:+ Cfg.Host cfg) +:+ "/v1/query") /\
            reqHost r = Cfg.Host cfg /\
            reqBody r
            = fst (json_Marshal {| SQL := query; Pagination := pagination;
                                   Session := Some session; StageAttachment := None |}) /\
            carries_query_id
              (match ctx_string ctx ContextKeyQueryID with
               | Some queryID => queryID
               | None => uuid_NewString +:+ ".1"
               end) r /\
            exists a, Header_Get (reqHeader r) Authorization = Some a /\
                      configured_authorization cfg a)
    (new_sends w (snd (StartQuery ctx query [] w))).
Proof.
  cbv zeta. unfold StartQuery. cbn [buildQuery]. unfold bind at 1. unfold getClient at 1.
  cbv beta.
  match goal with |- context [startQueryRequest ctx ?request ?w0] =>
    destruct (startQueryRequest_well_formed ctx request w0) as (w' & evs & E & T & F) end.
  rewrite E. rewrite (new_sends_app _ w' evs T).
  eapply Forall_impl; [exact F |].
  intros r (Hm & Hu & Hb & Hc & Hh & _ & _ & Hhs).
  destruct Hhs as (_ & _ & Hid & _ & _ & a & Ha & Hauth).
  split; [exact Hm |]. split; [exact Hu |]. split; [exact Hh |]. split.
  { rewrite Hb. unfold fresh, getPagenationConfig, getSessionStateRaw. cbn.
    destruct (Cfg.Role cfg); reflexivity. }
  split.
  { unfold carries_query_id. rewrite Hid. unfold expected_query_id, GetQueryID.
    destruct (ctx_string ctx ContextKeyQueryID); reflexivity. }
  exists a. split; [exact Ha |].
  unfold authorization_of, authMethod, configured_authorization in *.
  cbn [fresh client rows NewAPIClientFromConfig set_QuerySeq user password
       accessTokenLoader] in Hauth.
  destruct (negb (String.eqb (Cfg.User cfg) EmptyString)); [exact Hauth |].
  destruct (initAccessTokenLoader cfg) as [loader | ]; [| exact Hauth].
  destruct Hauth as (loader' & k & tok & Hl & Hk & ->). injection Hl as <-.
  exists k, tok. split; [exact Hk | reflexivity].
Qed.

End NewClient.

(** ** What the polling can return *)

Section PollingResult.
Context `{Externals}.

(** X19: whatever the server answers and however long the polling runs,
    the only response that [PollUntilQueryEnd] returns is the one it was
    given, and only when that one is finished already, in which case nothing
    is requested and the world stays as it was.  For a response that is not
    finished the call gives no response at all: when it returns, it returns
    an error. *)
Theorem polling_returns_only_what_it_was_given (fuel : nat) (ctx : Context)
    (r : QueryResponse) (w w' : World) (resp' : option QueryResponse) (err : error) :
  PollUntilQueryEnd fuel ctx (Some r) w = (Returns (resp', err), w') ->
  (err = None -> ReadFinished r = true /\ resp' = Some r /\ w' = w) /\
  (ReadFinished r = false -> resp' = None /\ err <> None).
Proof.
  intros Hrun. split.
  - intros ->. exact (PollUntilQueryEnd_returns_its_argument fuel ctx r w resp' w' Hrun).
  - intros Hf. destruct err as [e | ].
    + destruct (PollUntilQueryEnd_run ctx fuel r w) as (o & w1 & evs & E & _ & _ & _ & _ & Hx).
      rewrite E in Hrun. injection Hrun as -> ->.
      split; [| discriminate]. apply (Hx resp' (Some e) eq_refl). discriminate.
    + destruct (PollUntilQueryEnd_returns_its_argument fuel ctx r w resp' w' Hrun)
        as [Hfin _]. congruence.
Qed.

End PollingResult.

(** The polling of the last page. *)
Lemma polling_returns_only_what_it_was_given_witness :
  @PollUntilQueryEnd Sample.externals 3 Background (Some Sample.lastPage) Sample.pagingWorld
  = (Returns (Some Sample.lastPage, None), Sample.pagingWorld) /\
  (@None goerror = None ->
   ReadFinished Sample.lastPage = true /\ Some Sample.lastPage = Some Sample.lastPage /\
   Sample.pagingWorld = Sample.pagingWorld) /\
  (ReadFinished Sample.lastPage = false ->
   Some Sample.lastPage = None /\ @None goerror <> None).
Proof.
  split; [reflexivity |].
  apply (@polling_returns_only_what_it_was_given Sample.externals 3 Background
           Sample.lastPage Sample.pagingWorld Sample.pagingWorld
           (Some Sample.lastPage) None).
  reflexivity.
Defined.

(** ** Statistics *)

Lemma tracked_app tr1 tr2 : tracked (tr1 ++ tr2) = (tracked tr1 ++ tracked tr2)%list.
Proof.
  induction tr1 as [ | e tr1 IH]; [reflexivity |].
  destruct e; simpl; rewrite ?IH; reflexivity.
Qed.

Lemma untracked evs : Forall (fun e => tracked [e] = []) evs -> tracked evs = [].
Proof.
  induction 1 as [ | e evs He _ IH]; [reflexivity |].
  change (e :: evs) with ([e] ++ evs)%list. rewrite tracked_app, He, IH. reflexivity.
Qed.

Section Statistics.
Context `{Externals}.

Lemma DoRetry_doRequest_untracked ctx method path req s t w :
  exists result err w1 evs,
    DoRetry (fun s => doRequest ctx method path req s) s t w = (Returns (result, err), w1) /\
    client w1 = client w /\ trace w1 = (trace w ++ evs)%list /\ tracked evs = [].
Proof.
  set (P := fun e : Event => tracked [e] = []).
  assert (Hf : forall s', True ->
                 runs_within (client w) 2 1 P (fun _ => True)
                   (doRequest ctx method path req s')).
  { intros s' _. eapply within_weaken;
      [apply doRequest_within; [intros b; reflexivity | reflexivity | intros r _; reflexivity]
      | lia | lia | auto]. }
  destruct (DoRetry_within (client w) P (fun s => doRequest ctx method path req s) 2 1
              (fun _ => True) Hf (fun _ => eq_refl) (fun _ => eq_refl) s t I) as [H5 _].
  destruct (H5 w eq_refl) as ([result err] & w1 & evs & E & C & T & F & _).
  exists result, err, w1, evs. repeat split; try assumption. apply untracked. exact F.
Qed.

Lemma session_then_stats result w1 :
  exists w3 evs,
    (applySessionState result;;; trackStats result) w1 = (Returns tt, w3) /\
    trace w3 = (trace w1 ++ evs)%list /\ tracked evs = stats_of (client w1) result.
Proof.
  unfold applySessionState, trackStats, stats_of.
  destruct result as [r | ];
    [destruct (RespSession r) as [raw | ]; destruct (Stats r) as [st | ] |];
    unfold bind, getClient, putClient, emit, ret;
    cbn [client sent loads trace set_session statsTracker];
    try destruct (statsTracker (client w1));
    first [ eexists _, [_]; split; [reflexivity |]; split; reflexivity
          | eexists _, []; rewrite app_nil_r; split; [reflexivity |]; split; reflexivity ].
Qed.

(** X20: the statistics of a response reach the tracker once.  When a
    submission or a poll returns a response without error, the stats tracker
    has been called in it exactly once, with the id and the statistics of
    that response, if the client has a tracker and the response has
    statistics, and not at all else. *)
Theorem stats_are_tracked (ctx : Context) (call : M (option QueryResponse * error))
    (w w' : World) (resp : option QueryResponse) :
  ((exists request, call = startQueryRequest ctx request) \/
   (exists nextURI, call = PollQuery ctx nextURI)) ->
  call w = (Returns (resp, None), w') ->
  tracked (new_events w w') = stats_of (client w) resp.
Proof.
  intros [(request & ->) | (nextURI & ->)] Hrun.
  - unfold startQueryRequest in Hrun.
    destruct (NextQuery_run w) as (w0 & E0 & T0 & _ & _ & C0).
    unfold bind at 1 in Hrun. rewrite E0 in Hrun.
    destruct (DoRetry_doRequest_untracked ctx "POST" "/v1/query" (Some request)
                (Some zeroResponse) Query w0) as (result & err & w1 & evs & E & C & T & U).
    unfold bind at 1 in Hrun. rewrite E in Hrun.
    destruct err as [e | ]; [discriminate Hrun |].
    destruct (session_then_stats result w1) as (w3 & evs3 & E3 & T3 & U3).
    unfold bind in Hrun, E3.
    destruct (applySessionState result w1) as [[[] | msg | ] w2]; try discriminate E3.
    rewrite E3 in Hrun. injection Hrun as <- <-.
    rewrite T, T0 in T3. rewrite <- app_assoc in T3.
    rewrite (new_events_app _ _ _ T3), tracked_app, U, U3, C, C0.
    unfold stats_of. destruct (rows (client w)); reflexivity.
  - unfold PollQuery in Hrun.
    destruct (DoRetry_doRequest_untracked ctx "GET" nextURI None
                (Some zeroResponse) Page w) as (result & err & w1 & evs & E & C & T & U).
    unfold bind at 1 in Hrun. rewrite E in Hrun.
    destruct (session_then_stats result w1) as (w3 & evs3 & E3 & T3 & U3).
    unfold bind in Hrun, E3.
    destruct (applySessionState result w1) as [[[] | msg | ] w2]; try discriminate E3.
    rewrite E3 in Hrun. destruct err as [e | ]; [discriminate Hrun |].
    injection Hrun as <- <-.
    rewrite T in T3. rewrite <- app_assoc in T3.
    rewrite (new_events_app _ _ _ T3), tracked_app, U, U3, C. reflexivity.
Qed.

End Statistics.

(** A poll of a client with a tracker, answered with a page that has
    statistics. *)
Lemma stats_are_tracked_witness :
  ((exists request,
      @PollQuery Sample.externals Background "/v1/query/q1/page/1"
      = @startQueryRequest Sample.externals Background request) \/
   (exists nextURI,
      @PollQuery Sample.externals Background "/v1/query/q1/page/1"
      = @PollQuery Sample.externals Background nextURI)) /\
  exists w',
    @PollQuery Sample.externals Background "/v1/query/q1/page/1" Cases.trackingWorld
    = (Returns (Some Cases.statsPage, None), w') /\
    tracked (new_events Cases.trackingWorld w') = [("q1", "scanned 2 rows")].
Proof.
  assert (Hcall : (exists request,
                      @PollQuery Sample.externals Background "/v1/query/q1/page/1"
                      = @startQueryRequest Sample.externals Background request) \/
                  (exists nextURI,
                      @PollQuery Sample.externals Background "/v1/query/q1/page/1"
                      = @PollQuery Sample.externals Background nextURI)).
  { right. exists "/v1/query/q1/page/1". reflexivity. }
  split; [exact Hcall |].
  eexists. split; [vm_compute; reflexivity |].
  apply (@stats_are_tracked Sample.externals Background
           (@PollQuery Sample.externals Background "/v1/query/q1/page/1")
           Cases.trackingWorld _ (Some Cases.statsPage) Hcall).
  vm_compute. reflexivity.
Defined.

(** ** Uploads to a stage *)

Section Uploading.
Context `{Externals} `{Uploads}.

Lemma UploadToStageByAPI_run ctx stage input w :
  exists err ups w' evs,
    UploadToStageByAPI ctx stage input w = (Returns (err, ups), w') /\
    client w' = client w /\ sent w' = sent w /\
    trace w' = (trace w ++ evs)%list /\
    Forall (fun e => e = EvLoadToken false) evs /\
    (length ups <= 1)%nat /\
    (ups = [] -> err <> None) /\
    Forall (api_upload (client w) ctx stage input) ups /\
    (forall u status ctype body,
        ups = [u] -> upload_Do (time_Second * 60) u = Replies status ctype body ->
        (err = None <-> (status < 400)%Z)).
Proof.
  assert (Hfail : forall (e : goerror) w0 evs,
             client w0 = client w -> sent w0 = sent w ->
             trace w0 = (trace w ++ evs)%list ->
             Forall (fun e => e = EvLoadToken false) evs ->
             exists err ups w' evs',
               ret (Some e, @nil UploadRequest) w0 = (Returns (err, ups), w') /\
               client w' = client w /\ sent w' = sent w /\
               trace w' = (trace w ++ evs')%list /\
               Forall (fun e => e = EvLoadToken false) evs' /\
               (length ups <= 1)%nat /\
               (ups = [] -> err <> None) /\
               Forall (api_upload (client w) ctx stage input) ups /\
               (forall u status ctype body,
                   ups = [u] ->
                   upload_Do (time_Second * 60) u = Replies status ctype body ->
                   (err = None <-> (status < 400)%Z))).
  { intros e w0 evs C S T F. exists (Some e), [], w0, evs.
    split; [reflexivity |]. repeat split; auto; try discriminate; simpl; lia. }
  assert (Hnil : trace w = (trace w ++ [])%list) by (symmetry; apply app_nil_r).
  unfold UploadToStageByAPI.
  destruct (multipart_CreateFormFile_err "upload" (Path stage));
    [apply (Hfail _ w []); auto |].
  destruct (readError input); [apply (Hfail _ w []); auto |].
  destruct multipart_Close_err; [apply (Hfail _ w []); auto |].
  unfold bind at 1. unfold getClient at 1. cbv beta zeta.
  destruct (http_NewRequest_err "PUT" (makeURL (client w) "/v1/upload_to_stage"));
    [apply (Hfail _ w []); auto |].
  destruct (makeHeaders_within (client w) (fun e => e = EvLoadToken false \/ e = EvLoadToken true)
              ctx (fun b => if b return (EvLoadToken b = EvLoadToken false \/
                                         EvLoadToken b = EvLoadToken true)
                            then or_intror eq_refl else or_introl eq_refl) w eq_refl)
    as ([hs e] & w1 & evs & E & C & T & F & [Hne Hhs] & _ & Hforced & S).
  assert (F' : Forall (fun e => e = EvLoadToken false) evs).
  { clear - F Hforced. induction F as [ | e evs [-> | ->] _ IH].
    - constructor.
    - constructor; [reflexivity |]. apply IH. simpl in Hforced. exact Hforced.
    - simpl in Hforced. lia. }
  assert (S' : sent w1 = sent w).
  { rewrite S. clear - F'. induction F' as [ | e evs -> _ IH]; simpl; lia. }
  unfold bind at 1. rewrite E.
  destruct e as [e | ]; [destruct hs; apply (Hfail _ w1 evs); auto |].
  destruct hs as [headers | ]; [| now contradiction Hne].
  specialize (Hhs headers eq_refl).
  match goal with |- context [upload_Do _ ?r] => set (req := r) end.
  assert (Hreq : api_upload (client w) ctx stage input req).
  { unfold api_upload, req. cbn [upMethod upURL upHost upBody content upNamed upHeader upCtx].
    split; [reflexivity |]. split; [reflexivity |]. split.
    { destruct (0 <? Z.of_nat (String.length (host (client w))))%Z eqn:Hl;
        [reflexivity | symmetry; apply empty_length; exact Hl]. }
    split; [reflexivity |]. split.
    { rewrite lookup_insert_ne by discriminate. apply lookup_insert_eq. }
    split; [apply lookup_insert_eq |]. split; [exact Hhs | reflexivity]. }
  assert (Hsent : forall (err : error),
             (forall status ctype body,
                 upload_Do (time_Second * 60) req = Replies status ctype body ->
                 (err = None <-> (status < 400)%Z)) ->
             exists err' ups w' evs',
               ret (err, [req]) w1 = (Returns (err', ups), w') /\
               client w' = client w /\ sent w' = sent w /\
               trace w' = (trace w ++ evs')%list /\
               Forall (fun e => e = EvLoadToken false) evs' /\
               (length ups <= 1)%nat /\
               (ups = [] -> err' <> None) /\
               Forall (api_upload (client w) ctx stage input) ups /\
               (forall u status ctype body,
                   ups = [u] ->
                   upload_Do (time_Second * 60) u = Replies status ctype body ->
                   (err' = None <-> (status < 400)%Z))).
  { intros err Herr. exists err, [req], w1, evs. split; [reflexivity |].
    split; [exact C |]. split; [exact S' |]. split; [exact T |]. split; [exact F' |].
    split; [simpl; lia |]. split; [discriminate |].
    split; [constructor; [exact Hreq | constructor] |].
    intros u status ctype body Hu. injection Hu as <-. apply Herr. }
  destruct (upload_Do (time_Second * 60) req) as [msg | st msg | status ctype body] eqn:Hdo.
  - apply Hsent. intros status ctype body Hx. discriminate Hx.
  - apply Hsent. intros status ctype body Hx. discriminate Hx.
  - destruct (status =? StatusUnauthorized)%Z eqn:H401;
      [| destruct (500 <=? status)%Z eqn:H500; [| destruct (400 <=? status)%Z eqn:H400]];
      apply Hsent; intros status' ctype' body' Hx; injection Hx as <- <- <-.
    + apply Z.eqb_eq in H401. unfold StatusUnauthorized in H401.
      split; [discriminate | lia].
    + apply Z.leb_le in H500. split; [discriminate | lia].
    + apply Z.leb_le in H400. split; [discriminate | lia].
    + apply Z.leb_gt in H400. split; [intros _; exact H400 | reflexivity].
Qed.

(** X21: with the presigned URL disabled, [UploadToStage] issues no query
    and nothing through the HTTP client of the client: it returns, leaves the
    client and the sequence number as they were, and adds nothing to the
    trace but unforced loads of the token.  It hands at most one request to its own HTTP
    client, and none only with an error: a PUT to /v1/upload_to_stage at the
    endpoint, with the host and the headers of the client, the stage name
    as stage_name, the content type of the form, the form of the file under
    the stage path as body, and a context of its own.  The upload succeeds
    exactly when the status of the reply is below 400. *)
Theorem UploadToStage_by_API (fuel : nat) (ctx : Context) (stage : StageLocation)
    (input : Reader) (size : Z) (w : World) :
  PresignedURLDisabled (client w) = true ->
  exists err ups w' evs,
    UploadToStage fuel ctx stage input size w = (Returns (err, ups), w') /\
    client w' = client w /\ sent w' = sent w /\
    trace w' = (trace w ++ evs)%list /\
    Forall (fun e => e = EvLoadToken false) evs /\
    (length ups <= 1)%nat /\
    (ups = [] -> err <> None) /\
    Forall (api_upload (client w) ctx stage input) ups /\
    (forall u status ctype body,
        ups = [u] -> upload_Do (time_Second * 60) u = Replies status ctype body ->
        (err = None <-> (status < 400)%Z)).
Proof.
  intros Hflag. unfold UploadToStage, bind, getClient. rewrite Hflag.
  apply UploadToStageByAPI_run.
Qed.

(** X22: with the presigned URL enabled, [UploadToStage] does to the world
    exactly what [GetPresignedURL] does, and panics or runs on only as that
    does.  An error of [GetPresignedURL] comes back as "failed to get
    presigned url" and nothing is uploaded.  With a descriptor the upload
    hands exactly one request to its own HTTP client, unless the request
    cannot be built: a PUT to the URL of the descriptor, whatever the method
    of the descriptor says, with the headers of the descriptor and none of
    the client, the input as body, the given size as content length and a
    context of its own.  The upload succeeds exactly when the status of the
    reply is below 400. *)
Theorem UploadToStage_by_presigned_url (fuel : nat) (ctx : Context)
    (stage : StageLocation) (input : Reader) (size : Z) (w : World) :
  PresignedURLDisabled (client w) = false ->
  exists q o w',
    GetPresignedURL fuel ctx stage w = (q, w') /\
    UploadToStage fuel ctx stage input size w = (o, w') /\
    match q with
    | Returns (Some p, None) =>
        exists err ups,
          o = Returns (err, ups) /\
          (length ups <= 1)%nat /\
          (ups = [] -> err <> None) /\
          (http_NewRequest_err "PUT" (URL p) = None -> length ups = 1%nat) /\
          Forall (presigned_upload p input size) ups /\
          (forall u status ctype body,
              ups = [u] -> upload_Do (time_Second * 60) u = Replies status ctype body ->
              (err = None <-> (status < 400)%Z))
    | Returns (_, Some e) =>
        o = Returns (Some (errors_Wrap e "failed to get presigned url"), [])
    | Returns (None, None) => False
    | Panics msg => o = Panics msg
    | OutOfFuel => o = OutOfFuel
    end.
Proof.
  intros Hflag.
  destruct (GetPresignedURL_run fuel ctx stage w) as (q0 & q & w' & _ & Eq & _ & X & _).
  exists q. unfold UploadToStage. unfold bind at 1. unfold getClient at 1.
  cbv beta iota. rewrite Hflag.
  unfold UploadToStageByPresignURL. unfold bind at 1. rewrite Eq.
  destruct q as [[[p | ] [e | ]] | msg | ].
  - eexists _, w'. split; [reflexivity |]. split; reflexivity.
  - destruct (http_NewRequest_err "PUT" (URL p)) as [e | ] eqn:Hnew.
    + eexists _, w'. split; [reflexivity |]. split; [reflexivity |].
      exists (Some e), []. split; [reflexivity |]. split; [simpl; lia |].
      split; [discriminate |]. split; [discriminate |]. split; [constructor |].
      intros u status ctype body Hu. discriminate Hu.
    + cbv zeta.
      match goal with |- context [upload_Do _ ?r] => set (req := r) end.
      assert (Hreq : presigned_upload p input size req) by (repeat split).
      assert (Hsent : forall (err : error),
                 (forall status ctype body,
                     upload_Do (time_Second * 60) req = Replies status ctype body ->
                     (err = None <-> (status < 400)%Z)) ->
                 exists o w'',
                   (Returns (Some p, @None goerror), w') = (Returns (Some p, None), w'') /\
                   ret (err, [req]) w' = (o, w'') /\
                   exists err' ups,
                     o = Returns (err', ups) /\
                     (length ups <= 1)%nat /\
                     (ups = [] -> err' <> None) /\
                     (@None goerror = None -> length ups = 1%nat) /\
                     Forall (presigned_upload p input size) ups /\
                     (forall u status ctype body,
                         ups = [u] ->
                         upload_Do (time_Second * 60) u = Replies status ctype body ->
                         (err' = None <-> (status < 400)%Z))).
      { intros err Herr. eexists _, w'. split; [reflexivity |]. split; [reflexivity |].
        exists err, [req]. split; [reflexivity |]. split; [simpl; lia |].
        split; [discriminate |]. split; [reflexivity |].
        split; [constructor; [exact Hreq | constructor] |].
        intros u status ctype body Hu. injection Hu as <-. apply Herr. }
      destruct (upload_Do (time_Second * 60) req) as [msg | st msg | status ctype body]
        eqn:Hdo.
      * apply Hsent. intros status ctype body Hx. discriminate Hx.
      * apply Hsent. intros status ctype body Hx. discriminate Hx.
      * destruct (400 <=? status)%Z eqn:H400;
          apply Hsent; intros status' ctype' body' Hx; injection Hx as <- <- <-.
        -- apply Z.leb_le in H400. split; [discriminate | lia].
        -- apply Z.leb_gt in H400. split; [intros _; exact H400 | reflexivity].
  - eexists _, w'. split; [reflexivity |]. split; reflexivity.
  - destruct (X None None eq_refl) as [Hn _]. now contradiction (Hn eq_refl).
  - eexists _, w'. split; [reflexivity |]. split; reflexivity.
  - eexists _, w'. split; [reflexivity |]. split; reflexivity.
Qed.

End Uploading.

(** The upload of a file through the API. *)
Lemma UploadToStage_by_API_witness :
  PresignedURLDisabled (client Cases.apiUploadWorld) = true /\
  exists err ups w' evs,
    @UploadToStage Sample.externals Cases.uploads 3 Background Sample.stage Cases.file 5
      Cases.apiUploadWorld = (Returns (err, ups), w') /\
    client w' = client Cases.apiUploadWorld /\ sent w' = sent Cases.apiUploadWorld /\
    trace w' = (trace Cases.apiUploadWorld ++ evs)%list /\
    Forall (fun e => e = EvLoadToken false) evs /\
    (length ups <= 1)%nat /\
    (ups = [] -> err <> None) /\
    Forall (@api_upload Sample.externals Cases.uploads (client Cases.apiUploadWorld)
              Background Sample.stage Cases.file) ups /\
    (forall u status ctype body,
        ups = [u] ->
        @upload_Do Cases.uploads (time_Second * 60) u = Replies status ctype body ->
        (err = None <-> (status < 400)%Z)).
Proof.
  split; [reflexivity |].
  apply (@UploadToStage_by_API Sample.externals Cases.uploads 3 Background Sample.stage
           Cases.file 5 Cases.apiUploadWorld).
  reflexivity.
Defined.

(** The upload of a file through a presigned URL. *)
Lemma UploadToStage_by_presigned_url_witness :
  PresignedURLDisabled (client Cases.presignUploadWorld) = false /\
  exists q o w',
    @GetPresignedURL Sample.externals 3 Background Sample.stage Cases.presignUploadWorld
    = (q, w') /\
    @UploadToStage Sample.externals Cases.uploads 3 Background Sample.stage Cases.file 5
      Cases.presignUploadWorld = (o, w') /\
    match q with
    | Returns (Some p, None) =>
        exists err ups,
          o = Returns (err, ups) /\
          (length ups <= 1)%nat /\
          (ups = [] -> err <> None) /\
          (@http_NewRequest_err Sample.externals "PUT" (URL p) = None ->
           length ups = 1%nat) /\
          Forall (presigned_upload p Cases.file 5) ups /\
          (forall u status ctype body,
              ups = [u] ->
              @upload_Do Cases.uploads (time_Second * 60) u = Replies status ctype body ->
              (err = None <-> (status < 400)%Z))
    | Returns (_, Some e) =>
        o = Returns (Some (errors_Wrap e "failed to get presigned url"), [])
    | Returns (None, None) => False
    | Panics msg => o = Panics msg
    | OutOfFuel => o = OutOfFuel
    end.
Proof.
  split; [reflexivity |].
  apply (@UploadToStage_by_presigned_url Sample.externals Cases.uploads 3 Background
           Sample.stage Cases.file 5 Cases.presignUploadWorld).
  reflexivity.
Defined.

(** On the sample the descriptor arrives and the file goes to its URL. *)
Example upload_through_the_presigned_url :
  fst (@UploadToStage Sample.externals Cases.uploads 3 Background Sample.stage Cases.file 5
         Cases.presignUploadWorld)
  = Returns (None,
             [{| upMethod := "PUT"; upURL := "https://bucket.example/uploads/data.csv";
                 upBody := Cases.file; upHeader := Header_empty; upNamed := ∅;
                 upHost := EmptyString; upContentLength := Some 5;
                 upCtx := Background |}]).
Proof. vm_compute. reflexivity. Qed.
